(** * The NESDev wiki tools: cache store, pagination walker, document writer

    A shallow embedding of [tool/nesdev.py] and [tool/nesdev_pages.py].

    Python values are modelled as follows.
    - [str]: Rocq [string], a sequence of code points below 256.
    - decoded JSON: the inductive [json]; a Python [dict] is an association
      list in insertion order (its keys are distinct), JSON numbers are
      integers.
    - the file system and the network: an explicit [world] threaded through
      every effectful function; exceptions are the [Err] results of the
      monad [M].
    - what the tools cannot know of their environment is asked of a [host]:
      the answers of the wiki, the date the clock shows at a save, and
      whether a file can be opened for writing.
    - the generator [iter_pages] is modelled by its complete drain: the
      records it yields, how it ended, and the world it leaves. *)

From Stdlib Require Import ZArith String Ascii List Permutation Sorted Lia Bool.
From stdpp Require Import base option gmap strings list pretty.

Import ListNotations.
Set Warnings "-register-all".
Local Open Scope string_scope.
Local Open Scope Z_scope.

(** ** Python strings *)

Module PyStr.

Definition dquote : ascii := "034"%char.
Definition backslash : ascii := "092"%char.
Definition newline : ascii := "010"%char.
Definition nl : string := String newline EmptyString.

(** [s.rstrip("\n")]: every trailing newline is dropped. *)
Fixpoint rstrip_nl (s : string) : string :=
  match s with
  | EmptyString => EmptyString
  | String c s' =>
      match rstrip_nl s' with
      | EmptyString => if Ascii.eqb c newline then EmptyString else String c EmptyString
      | r => String c r
      end
  end.

(** [s.replace(old, new)] for a non-empty [old]: occurrences are replaced
    from left to right and do not overlap.  [skip] counts the characters
    of a matched occurrence that are still to be dropped. *)
Fixpoint replace_from (old new : string) (skip : nat) (s : string) : string :=
  match s with
  | EmptyString => EmptyString
  | String c s' =>
      match skip with
      | S k => replace_from old new k s'
      | O =>
          if String.prefix old s
          then new +:+ replace_from old new (Nat.pred (String.length old)) s'
          else String c (replace_from old new 0 s')
      end
  end.

Definition replace (old new s : string) : string := replace_from old new 0 s.

(** [needle in haystack] on two strings. *)
Fixpoint contains (needle haystack : string) : bool :=
  String.prefix needle haystack
  || match haystack with
     | EmptyString => false
     | String _ rest => contains needle rest
     end.

(** ["\n".join(lines)] *)
Fixpoint join (sep : string) (parts : list string) : string :=
  match parts with
  | [] => EmptyString
  | [x] => x
  | x :: rest => x +:+ sep +:+ join sep rest
  end.

(** [str(n)] for an integer. *)
Definition of_int (n : Z) : string := pretty n.

(** [a < b] on strings: lexicographic on code points. *)
Definition lt (a b : string) : bool := String.ltb a b.

End PyStr.

(** ** Decoded JSON and Python dictionaries *)

Inductive json : Type :=
| JNull
| JBool (b : bool)
| JInt (n : Z)
| JStr (s : string)
| JArr (items : list json)
| JObj (members : list (string * json)).

Module Dict.
Section Ops.
Context {V : Type}.

(** A [dict] in insertion order. *)
Definition t := list (string * V).

Fixpoint get (k : string) (d : t) : option V :=
  match d with
  | [] => None
  | (k', v) :: rest => if String.eqb k k' then Some v else get k rest
  end.

(** [d[k] = v]: an existing key keeps its place, a new one goes last. *)
Fixpoint set (k : string) (v : V) (d : t) : t :=
  match d with
  | [] => [(k, v)]
  | (k', v') :: rest =>
      if String.eqb k k' then (k, v) :: rest else (k', v') :: set k v rest
  end.

(** [d.update(other)] *)
Definition update (d other : t) : t :=
  fold_left (fun acc kv => set (fst kv) (snd kv) acc) other d.

Definition values (d : t) : list V := map snd d.
Definition keys (d : t) : list string := map fst d.
End Ops.
Arguments t : clear implicits.
End Dict.

(** A request descriptor, [Dict[str, str]]. *)
Definition descriptor : Type := Dict.t string.

(** ** [sorted] *)

Module PySort.
Section Sort.
Context {A : Type} (lt : A -> A -> bool).

(** [x] goes before the first element that is not below it, so that
    equal elements keep their order. *)
Fixpoint insert (x : A) (l : list A) : list A :=
  match l with
  | [] => [x]
  | y :: rest => if lt y x then y :: insert x rest else x :: y :: rest
  end.

(** [sorted(l)]: a stable sort that only uses [<]. *)
Definition sorted (l : list A) : list A := fold_right insert [] l.
End Sort.

(** [(k1, v1) < (k2, v2)] on tuples of strings. *)
Definition pair_lt (a b : string * string) : bool :=
  if String.eqb (fst a) (fst b) then PyStr.lt (snd a) (snd b)
  else PyStr.lt (fst a) (fst b).
End PySort.

(** ** [json.dumps] of a sorted item list, and the cache key *)

Module JsonDumps.
Import PyStr.

Definition hex_digit (n : N) : ascii :=
  ascii_of_N (if (n <? 10)%N then 48 + n else 87 + n)%N.

(** One character of a string literal, with [ensure_ascii] on. *)
Definition escape (c : ascii) : string :=
  let n := N_of_ascii c in
  if Ascii.eqb c dquote then String backslash (String dquote EmptyString)
  else if Ascii.eqb c backslash then String backslash (String backslash EmptyString)
  else if (n =? 8)%N then "\b"
  else if (n =? 12)%N then "\f"
  else if (n =? 10)%N then "\n"
  else if (n =? 13)%N then "\r"
  else if (n =? 9)%N then "\t"
  else if ((32 <=? n) && (n <=? 126))%N then String c EmptyString
  else "\u00" +:+ String (hex_digit (n / 16)) (String (hex_digit (n mod 16)) EmptyString).

Fixpoint escape_all (s : string) : string :=
  match s with
  | EmptyString => EmptyString
  | String c rest => escape c +:+ escape_all rest
  end.

Definition dumps_str (s : string) : string :=
  String dquote (escape_all s +:+ String dquote EmptyString).

(** A tuple [(k, v)] is written as the array [["k","v"]]. *)
Definition dumps_item (kv : string * string) : string :=
  "[" +:+ dumps_str (fst kv) +:+ "," +:+ dumps_str (snd kv) +:+ "]".

(** [json.dumps(items, separators=(",", ":"))] *)
Definition dumps_items (items : list (string * string)) : string :=
  "[" +:+ join "," (map dumps_item items) +:+ "]".
End JsonDumps.


(** ** Exceptions, results and the Python operations on decoded JSON *)

Inductive exn : Type :=
| RequestException (why : string)
    (** [requests.get] or [response.json()] failed: time-out, connection,
        a body that is not JSON *)
| HTTPError (status : Z) (message : string)
    (** [raise_for_status]; a [RequestException] in the library *)
| WikiError (arg : json)
| PyError (name : string)
    (** [KeyError], [TypeError], [AttributeError]: no handler in [main] *)
| Unmodelled
    (** the value does not have the type the source annotates, and what
        Python does with it is outside this model *).

Inductive result (A : Type) : Type :=
| Ok (a : A)
| Err (e : exn).
Arguments Ok {A} a.
Arguments Err {A} e.

Module Py.

(** [bool(v)] *)
Definition truthy (v : json) : bool :=
  match v with
  | JNull => false
  | JBool b => b
  | JInt n => negb (n =? 0)
  | JStr s => negb (String.eqb s EmptyString)
  | JArr items => match items with [] => false | _ => true end
  | JObj members => match members with [] => false | _ => true end
  end.

(** [o.get(k, default)] *)
Definition get (o : json) (k : string) (default : json) : result json :=
  match o with
  | JObj d =>
      Ok (match Dict.get k d with Some v => v | None => default end)
  | _ => Err (PyError "AttributeError")
  end.

(** [o[k]] for a string [k] *)
Definition subscript (o : json) (k : string) : result json :=
  match o with
  | JObj d =>
      match Dict.get k d with
      | Some v => Ok v
      | None => Err (PyError "KeyError")
      end
  | _ => Err (PyError "TypeError")
  end.

Definition is_str (k : string) (v : json) : bool :=
  match v with JStr s => String.eqb s k | _ => false end.

(** [k in o] for a string [k] *)
Definition contains (k : string) (o : json) : result bool :=
  match o with
  | JObj d => Ok (match Dict.get k d with Some _ => true | None => false end)
  | JArr items => Ok (existsb (is_str k) items)
  | JStr s => Ok (PyStr.contains k s)
  | _ => Err (PyError "TypeError")
  end.

(** [o.values()] *)
Definition values (o : json) : result (list json) :=
  match o with
  | JObj d => Ok (Dict.values d)
  | _ => Err (PyError "AttributeError")
  end.

(** [s.replace(old, new)] as a method call on a decoded value. *)
Definition replace (v : json) (old new : string) : result string :=
  match v with
  | JStr s => Ok (PyStr.replace old new s)
  | _ => Err (PyError "AttributeError")
  end.

(** [s.rstrip("\n")] as a method call on a decoded value. *)
Definition rstrip_nl (v : json) : result string :=
  match v with
  | JStr s => Ok (PyStr.rstrip_nl s)
  | _ => Err (PyError "AttributeError")
  end.

(** The entries of a value annotated [Dict[str, str]]. *)
Fixpoint str_members (d : Dict.t json) : option descriptor :=
  match d with
  | [] => Some []
  | (k, JStr s) :: rest =>
      match str_members rest with
      | Some r => Some ((k, s) :: r)
      | None => None
      end
  | _ => None
  end.

Definition as_descriptor (v : json) : result descriptor :=
  match v with
  | JObj d =>
      match str_members d with
      | Some r => Ok r
      | None => Err Unmodelled
      end
  | _ => Err Unmodelled
  end.

(** An integer sort key; other keys are outside the model. *)
Definition as_int (v : json) : result Z :=
  match v with
  | JInt n => Ok n
  | _ => Err Unmodelled
  end.

Definition bind {A B : Type} (r : result A) (k : A -> result B) : result B :=
  match r with
  | Ok a => k a
  | Err e => Err e
  end.

Fixpoint mapM {A B : Type} (f : A -> result B) (l : list A) : result (list B) :=
  match l with
  | [] => Ok []
  | x :: rest =>
      bind (f x) (fun y => bind (mapM f rest) (fun ys => Ok (y :: ys)))
  end.
End Py.

(** ** The world: cache directory, saved documents, console, network *)

Inductive io : Type :=
| CacheRead (file : string)
| HttpGet (params : descriptor).

Record response : Type := {
  status_code : Z;
  headers : list (string * string);
  text : string;
  (** [response.json()]; [None] when the text is not JSON *)
  decoded : option json
}.

Inductive http_outcome : Type :=
| Unreachable (why : string)
| Replied (resp : response).

Record world : Type := {
  (** [CACHE_DIR] exists *)
  cache_dir : bool;
  (** the files of [CACHE_DIR]: name to decoded content; [json.load]
      gives back what [json.dump] wrote *)
  cache : gmap string json;
  (** output directories made by a save *)
  dirs : gset string;
  (** saved documents: path to text *)
  docs : gmap string string;
  stdout : list string;
  stderr : list string;
  (** cache reads and network requests so far, oldest first *)
  log : list io
}.

(** What the tools take from their environment. *)
Record host : Type := {
  (** [hashlib.sha1(b).hexdigest()] *)
  sha1_hexdigest : string -> string;
  (** the wiki: its answer may depend on everything that happened before *)
  remote : list io -> descriptor -> http_outcome;
  (** [resp.url] *)
  request_url : descriptor -> string;
  (** [str(exc)] of the exception of [raise_for_status] *)
  http_error_str : response -> descriptor -> string;
  (** [str(exc)] of the exception of [response.json()] on a body that is
      not JSON: the message of the decoder *)
  json_error_str : response -> string;
  (** [str(v)] for a list or a dict *)
  repr_compound : json -> string;
  (** [datetime.now(timezone.utc).date().isoformat()]: the clock is read
      at every save, and the date may depend on everything that happened
      before *)
  utc_today : list io -> string;
  (** [default_output_dir()]: the directory named by [NESDEV_REF_DIR], or
      [assets/nesdev] under the repository *)
  output_dir : string;
  (** [dir / name] *)
  path_join : string -> string -> string;
  (** [path.open("w")], given the directories made so far: [None] when the
      file can be opened, the name of the [OSError] otherwise
      ([FileNotFoundError] when the directory of the path does not exist) *)
  open_error : gset string -> string -> option string;
  (** the text of [json.dump(v, sys.stdout, indent=2)] and of a row of
      the [csv] writer *)
  dump_indent2 : list json -> string;
  csv_row : list json -> string
}.

Definition M (A : Type) : Type := world -> result A * world.

Definition ret {A : Type} (a : A) : M A := fun w => (Ok a, w).

Definition raise {A : Type} (e : exn) : M A := fun w => (Err e, w).

Definition bind {A B : Type} (c : M A) (k : A -> M B) : M B :=
  fun w =>
    match c w with
    | (Ok a, w') => k a w'
    | (Err e, w') => (Err e, w')
    end.

Definition lift {A : Type} (r : result A) : M A := fun w => (r, w).

Notation "'let*' x ':=' c 'in' k" := (bind c (fun x => k))
  (at level 10, x pattern, c at level 100, k at level 200).
Notation "c ';;' k" := (bind c (fun _ => k))
  (at level 100, k at level 200, right associativity).

Definition set_cache_dir (b : bool) (w : world) : world :=
  {| cache_dir := b; cache := cache w; dirs := dirs w; docs := docs w;
     stdout := stdout w; stderr := stderr w; log := log w |}.

Definition set_cache (c : gmap string json) (w : world) : world :=
  {| cache_dir := cache_dir w; cache := c; dirs := dirs w; docs := docs w;
     stdout := stdout w; stderr := stderr w; log := log w |}.

Definition set_dirs (d : gset string) (w : world) : world :=
  {| cache_dir := cache_dir w; cache := cache w; dirs := d; docs := docs w;
     stdout := stdout w; stderr := stderr w; log := log w |}.

Definition set_docs (d : gmap string string) (w : world) : world :=
  {| cache_dir := cache_dir w; cache := cache w; dirs := dirs w; docs := d;
     stdout := stdout w; stderr := stderr w; log := log w |}.

Definition set_stdout (o : list string) (w : world) : world :=
  {| cache_dir := cache_dir w; cache := cache w; dirs := dirs w; docs := docs w;
     stdout := o; stderr := stderr w; log := log w |}.

Definition set_stderr (o : list string) (w : world) : world :=
  {| cache_dir := cache_dir w; cache := cache w; dirs := dirs w; docs := docs w;
     stdout := stdout w; stderr := o; log := log w |}.

Definition set_log (l : list io) (w : world) : world :=
  {| cache_dir := cache_dir w; cache := cache w; dirs := dirs w; docs := docs w;
     stdout := stdout w; stderr := stderr w; log := l |}.

(** [sys.stdout.write(s)], [print(s)] and [print(s, file=sys.stderr)] *)
Definition write (s : string) : M unit :=
  fun w => (Ok tt, set_stdout (stdout w ++ [s]) w).

Definition print (s : string) : M unit := write (s +:+ PyStr.nl).

Definition eprint (s : string) : M unit :=
  fun w => (Ok tt, set_stderr (stderr w ++ [s +:+ PyStr.nl]) w).

Fixpoint for_each {A : Type} (body : A -> M unit) (l : list A) : M unit :=
  match l with
  | [] => ret tt
  | x :: rest => body x ;; for_each body rest
  end.

(** ** The functions both scripts share *)

Section Shared.
Context (h : host).

Definition API_URL : string := "https://www.nesdev.org/w/api.php".

Definition ensure_cache_dir : M unit :=
  fun w => (Ok tt, set_cache_dir true w).

Definition canonical (params : descriptor) : string :=
  JsonDumps.dumps_items (PySort.sorted PySort.pair_lt (params : list (string * string))).

(** [cache_key].  The serialisation is ASCII, so its UTF-8 encoding is
    the serialisation itself. *)
Definition cache_key (params : descriptor) : string :=
  let serialized := canonical params in
  sha1_hexdigest h serialized +:+ ".json".

Definition truncate_body (content : string) : string :=
  if (2000 <? String.length content)%nat
  then String.substring 0 2000 content +:+ PyStr.nl +:+ "...[truncated]..."
  else content.

Definition log_http_error (params : descriptor) (resp : response) : M unit :=
  eprint ("HTTP error " +:+ PyStr.of_int (status_code resp) +:+ " for "
          +:+ request_url h params) ;;
  eprint "Response headers:" ;;
  for_each (fun kv => eprint ("  " +:+ fst kv +:+ ": " +:+ snd kv)) (headers resp) ;;
  let content := truncate_body (text resp) in
  eprint "Response body:" ;;
  eprint content.

(** [cache_path.exists()] *)
Definition cache_exists (key : string) : M bool :=
  fun w => (Ok (bool_decide (is_Some (cache w !! key))), w).

(** [json.load] of the cache file. *)
Definition cache_load (key : string) : M json :=
  fun w =>
    match cache w !! key with
    | Some body => (Ok body, set_log (log w ++ [CacheRead key]) w)
    | None => (Err (PyError "FileNotFoundError"), w)
    end.

(** [json.dump] into the cache file. *)
Definition cache_store (key : string) (data : json) : M unit :=
  fun w => (Ok tt, set_cache (<[key := data]> (cache w)) w).

(** [requests.get(API_URL, params=params, headers=..., timeout=10)] *)
Definition requests_get (params : descriptor) : M response :=
  fun w =>
    let w' := set_log (log w ++ [HttpGet params]) w in
    match remote h (log w) params with
    | Unreachable why => (Err (RequestException why), w')
    | Replied resp => (Ok resp, w')
    end.

(** [response.raise_for_status()] *)
Definition raise_for_status (params : descriptor) (resp : response) : result unit :=
  if (400 <=? status_code resp) && (status_code resp <? 600)
  then Err (HTTPError (status_code resp) (http_error_str h resp params))
  else Ok tt.

(** [response.json()]; the decoder's error is a [RequestException] *)
Definition response_json (resp : response) : result json :=
  match decoded resp with
  | Some data => Ok data
  | None => Err (RequestException (json_error_str h resp))
  end.

Definition cached_request (params : descriptor) (refresh : bool) : M json :=
  ensure_cache_dir ;;
  let key := cache_key params in
  let* hit := (if negb refresh then cache_exists key else ret false) in
  if hit then cache_load key
  else
    let* resp := requests_get params in
    match raise_for_status params resp with
    | Err e => log_http_error params resp ;; raise e
    | Ok _ =>
        let* data := lift (response_json resp) in
        let* has_error := lift (Py.contains "error" data) in
        if has_error then
          let* envelope := lift (Py.subscript data "error") in
          let* info := lift (Py.get envelope "info" (JStr "Unknown MediaWiki error")) in
          raise (WikiError info)
        else
          cache_store key data ;;
          ret data
    end.

(** [title.replace(" ", "_")] *)
Definition title_to_slug (title : json) : result string :=
  Py.replace title " " "_".

(** [f"{value}"] *)
Definition format_value (v : json) : string :=
  match v with
  | JNull => "None"
  | JBool true => "True"
  | JBool false => "False"
  | JInt n => PyStr.of_int n
  | JStr s => s
  | _ => repr_compound h v
  end.

Definition is_none (v : json) : bool :=
  match v with JNull => true | _ => false end.

Definition metadata_line (kv : string * json) : string :=
  " | " +:+ fst kv +:+ " = " +:+ format_value (snd kv).

Fixpoint metadata_lines (metadata : Dict.t json) : list string :=
  match metadata with
  | [] => []
  | (key, value) :: rest =>
      if is_none value then metadata_lines rest
      else metadata_line (key, value) :: metadata_lines rest
  end.

Definition format_metadata_wikitext (metadata : Dict.t json) : string :=
  let lines := (["{{Page metadata"] ++ metadata_lines metadata ++ ["}}"])%list in
  PyStr.join PyStr.nl lines.

Definition fetch_wikitext (title : string) (refresh : bool) : M (json * json) :=
  let params : descriptor :=
    [("action", "parse"); ("format", "json"); ("page", title); ("prop", "wikitext")] in
  let* data := cached_request params refresh in
  let* parsed := lift (Py.get data "parse" JNull) in
  if negb (Py.truthy parsed) then
    raise (WikiError (JStr "No parse data returned; ensure the title exists."))
  else
    let* wt := lift (Py.get parsed "wikitext" (JObj [])) in
    let* wikitext := lift (Py.get wt "*" JNull) in
    if is_none wikitext then
      raise (WikiError (JStr "Page did not include wikitext content."))
    else ret (parsed, wikitext).
End Shared.

(** How a process ends. *)
Inductive exit_status : Type :=
| Exit (code : Z)
| Traceback (e : exn)
    (** an exception no handler of [main] catches *)
| Running
    (** the fuel of the model ran out: the process has not returned *).

(** [str(exc)] *)
Definition exn_str (h : host) (e : exn) : string :=
  match e with
  | RequestException why => why
  | HTTPError _ message => message
  | WikiError arg => format_value h arg
  | PyError name => name
  | Unmodelled => "Unmodelled"
  end.

(** [except (requests.RequestException, WikiError) as exc] *)
Definition handled (e : exn) : bool :=
  match e with
  | RequestException _ | HTTPError _ _ | WikiError _ => true
  | PyError _ | Unmodelled => false
  end.

(** The handlers of both [main]s around [args.func(args)]. *)
Definition handle (h : host) (r : result unit) (w : world) : exit_status * world :=
  match r with
  | Ok _ => (Exit 0, w)
  | Err e =>
      if handled e
      then (Exit 1, snd (eprint ("Error: " +:+ exn_str h e) w))
      else (Traceback e, w)
  end.

Definition run_command (h : host) (c : M unit) : world -> exit_status * world :=
  fun w => let '(r, w') := c w in handle h r w'.

(** ** [nesdev_pages.py]: the pagination walker *)

Module NesdevPages.

Definition MAX_BATCH_SIZE : Z := 500.

(** The dictionary [iter_pages] yields. *)
Record page_record : Type := {
  pageid : json;
  title : json;
  touched : json
}.

(** How the drained generator ended. *)
Inductive ending : Type :=
| Exhausted
| Raised (e : exn)
| OutOfFuel.

Definition clamp_batch_size (batch : Z) : Z :=
  let batch := Z.max 1 batch in
  Z.min batch MAX_BATCH_SIZE.

Record list_args : Type := {
  arg_prefix : option string;
  arg_limit : Z;
  arg_batch_size : Z;
  arg_output_format : string;
  arg_refresh : bool
}.

Definition with_batch_size (b : Z) (a : list_args) : list_args :=
  {| arg_prefix := arg_prefix a; arg_limit := arg_limit a; arg_batch_size := b;
     arg_output_format := arg_output_format a; arg_refresh := arg_refresh a |}.

Section Pages.
Context (h : host).

(** The request descriptor of one batch. *)
Definition page_query (prefix : option string) (gap_limit : Z)
    (continue_token : json) : result descriptor :=
  let params : descriptor :=
    [("action", "query"); ("format", "json"); ("prop", "info");
     ("generator", "allpages"); ("gaplimit", PyStr.of_int gap_limit)] in
  let params :=
    match prefix with
    | Some p => if String.eqb p EmptyString then params else Dict.set "gapprefix" p params
    | None => params
    end in
  if Py.truthy continue_token
  then Py.bind (Py.as_descriptor continue_token) (fun tok => Ok (Dict.update params tok))
  else Ok params.

(** [page.get("index", page["pageid"])] *)
Definition sort_key (page : json) : result json :=
  match page with
  | JObj d =>
      match Dict.get "pageid" d with
      | Some pid => Ok (match Dict.get "index" d with Some i => i | None => pid end)
      | None => Err (PyError "KeyError")
      end
  | _ => Err (PyError "AttributeError")
  end.

Definition key_lt (a b : Z * json) : bool := fst a <? fst b.

(** [sorted(pages.values(), key=...)]: the keys are computed first. *)
Definition sorted_by_key (pages : list json) : result (list json) :=
  Py.bind (Py.mapM sort_key pages) (fun raw =>
  Py.bind (Py.mapM Py.as_int raw) (fun keys =>
  Ok (map snd (PySort.sorted key_lt (combine keys pages))))).

Definition batch_pages (data : json) : result (list json) :=
  Py.bind (Py.get data "query" (JObj [])) (fun query =>
  Py.bind (Py.get query "pages" (JObj [])) (fun pages =>
  Py.bind (Py.values pages) sorted_by_key)).

Definition record_of (page : json) : result page_record :=
  Py.bind (Py.subscript page "pageid") (fun pid =>
  Py.bind (Py.subscript page "title") (fun t =>
  Py.bind (Py.get page "touched" (JStr "unknown")) (fun tc =>
  Ok {| pageid := pid; title := t; touched := tc |}))).

(** The [for] loop: the records yielded, the new [fetched], and the
    exception that ended it, if any. *)
Fixpoint emit (limit : Z) (sorted_pages : list json) (fetched : Z)
    : list page_record * Z * option exn :=
  match sorted_pages with
  | [] => ([], fetched, None)
  | page :: rest =>
      match record_of page with
      | Err e => ([], fetched, Some e)
      | Ok r =>
          let fetched := fetched + 1 in
          if limit <=? fetched then ([r], fetched, None)
          else
            let '(out, fetched', stop) := emit limit rest fetched in
            (r :: out, fetched', stop)
      end
  end.

(** The [while] loop, one unit of fuel for each turn. *)
Fixpoint walk (fuel : nat) (prefix : option string) (limit batch_size : Z)
    (refresh : bool) (fetched : Z) (continue_token : json) (w : world)
    : list page_record * ending * world :=
  if fetched <? limit then
    match fuel with
    | O => ([], OutOfFuel, w)
    | S fuel' =>
        let remaining := limit - fetched in
        let gap_limit := Z.min batch_size remaining in
        match page_query prefix gap_limit continue_token with
        | Err e => ([], Raised e, w)
        | Ok params =>
            match cached_request h params refresh w with
            | (Err e, w1) => ([], Raised e, w1)
            | (Ok data, w1) =>
                match batch_pages data with
                | Err e => ([], Raised e, w1)
                | Ok sorted_pages =>
                    let '(out, fetched', stop) := emit limit sorted_pages fetched in
                    match stop with
                    | Some e => (out, Raised e, w1)
                    | None =>
                        match Py.get data "continue" JNull with
                        | Err e => (out, Raised e, w1)
                        | Ok token =>
                            if negb (Py.truthy token) then (out, Exhausted, w1)
                            else
                              let '(out', e, w2) :=
                                walk fuel' prefix limit batch_size refresh
                                     fetched' token w1 in
                              ((out ++ out')%list, e, w2)
                        end
                    end
                end
            end
        end
    end
  else ([], Exhausted, w).

Definition iter_pages (fuel : nat) (prefix : option string) (limit batch_size : Z)
    (refresh : bool) (w : world) : list page_record * ending * world :=
  walk fuel prefix limit batch_size refresh 0 JNull w.

Definition entry_json (r : page_record) : json :=
  JObj [("pageid", pageid r); ("title", title r); ("touched", touched r)].

Definition output_list (pages_list : list page_record) (fmt : string) : M unit :=
  if String.eqb fmt "json" then
    write (dump_indent2 h (map entry_json pages_list)) ;;
    write PyStr.nl
  else if String.eqb fmt "csv" then
    write (csv_row h [JStr "title"; JStr "touched"]) ;;
    for_each (fun entry => write (csv_row h [title entry; touched entry])) pages_list
  else
    for_each (fun entry =>
      print (format_value h (title entry) +:+ " | last touched "
             +:+ format_value h (touched entry))) pages_list.

(** [command_list]: [list(pages)] drains the generator before anything
    is printed. *)
Definition command_list (fuel : nat) (args : list_args) (w : world)
    : option (result unit) * world :=
  match iter_pages fuel (arg_prefix args) (arg_limit args) (arg_batch_size args)
                   (arg_refresh args) w with
  | (pages_list, Exhausted, w') =>
      let '(r, w'') := output_list pages_list (arg_output_format args) w' in
      (Some r, w'')
  | (_, Raised e, w') => (Some (Err e), w')
  | (_, OutOfFuel, w') => (None, w')
  end.

(** [main] for the [list] command, which is also the default one. *)
Definition main (fuel : nat) (args : list_args) (w : world) : exit_status * world :=
  let args := with_batch_size (clamp_batch_size (arg_batch_size args)) args in
  match command_list fuel args w with
  | (Some r, w') => handle h r w'
  | (None, w') => (Running, w')
  end.
End Pages.
End NesdevPages.

(** ** [nesdev.py]: search, save and grab *)

Module Nesdev.

Inductive command : Type :=
| Search (term : string) (limit : Z)
| Save (title : string)
| Grab (term : string) (limit : Z) (pick : option Z)
| NoCommand.

Definition q : string := String PyStr.dquote EmptyString.

Section Tool.
Context (h : host).

Definition search_pages (term : string) (limit : Z) (refresh : bool) : M json :=
  let params : descriptor :=
    [("action", "query"); ("format", "json"); ("list", "search");
     ("srsearch", term); ("srlimit", PyStr.of_int limit)] in
  let* data := cached_request h params refresh in
  let* query := lift (Py.get data "query" (JObj [])) in
  lift (Py.get query "search" (JArr [])).

(** The body of the [for] loop of [print_search_results]. *)
Definition print_result (idx : Z) (result : json) : M unit :=
  let* title := lift (Py.subscript result "title") in
  let* raw := lift (Py.get result "snippet" (JStr "")) in
  let* s1 := lift (Py.replace raw ("<span class=" +:+ q +:+ "searchmatch" +:+ q +:+ ">") "") in
  let snippet := PyStr.replace "</span>" "" s1 in
  let* slug := lift (title_to_slug title) in
  let url := "https://www.nesdev.org/wiki/" +:+ slug in
  print (PyStr.of_int idx +:+ ". " +:+ format_value h title) ;;
  (if negb (String.eqb snippet EmptyString) then print ("   " +:+ snippet) else ret tt) ;;
  print ("   URL: " +:+ url) ;;
  print ("   Save: uv run nesdev.py save " +:+ q +:+ format_value h title +:+ q).

Fixpoint print_results_from (idx : Z) (results : list json) : M unit :=
  match results with
  | [] => ret tt
  | result :: rest => print_result idx result ;; print_results_from (idx + 1) rest
  end.

(** Iterating a dictionary or a string gives strings, which
    [result["title"]] rejects; a number cannot be iterated. *)
Definition print_search_results (results : json) : M unit :=
  if negb (Py.truthy results) then print "No results found."
  else
    match results with
    | JArr items => print_results_from 1 items
    | _ => raise (PyError "TypeError")
    end.

Definition command_search (term : string) (limit : Z) (refresh : bool) : M unit :=
  let* results := search_pages term limit refresh in
  print_search_results results.

(** [final_dir.mkdir(parents=True, exist_ok=True)] *)
Definition mkdir (dir : string) : M unit :=
  fun w => (Ok tt, set_dirs ({[dir]} ∪ dirs w) w).

(** [open("w")] and [write]: the file is replaced. *)
Definition write_file (path content : string) : M unit :=
  fun w =>
    match open_error h (dirs w) path with
    | None => (Ok tt, set_docs (<[path := content]> (docs w)) w)
    | Some name => (Err (PyError name), w)
    end.

(** [datetime.now(timezone.utc).date().isoformat()] *)
Definition today : M string :=
  fun w => (Ok (utc_today h (log w)), w).

Definition parsed_title (parsed : json) (title : string) : result json :=
  Py.get parsed "title" (JStr title).

Definition save_wikitext_document (title : string) (refresh : bool) : M string :=
  let* fetched := fetch_wikitext h title refresh in
  let parsed := fst fetched in
  let wikitext := snd fetched in
  let* slug := lift (Py.bind (parsed_title parsed title) title_to_slug) in
  let final_dir := output_dir h in
  mkdir final_dir ;;
  let output_path := path_join h final_dir (slug +:+ ".wikitext") in
  let* m_title := lift (Py.get parsed "title" JNull) in
  let* m_date := today in
  let* source_slug := lift (Py.bind (parsed_title parsed title) title_to_slug) in
  let* m_pageid := lift (Py.get parsed "pageid" JNull) in
  let* m_revid := lift (Py.get parsed "revid" JNull) in
  let metadata : Dict.t json :=
    [("title", m_title);
     ("author", JStr "NESDev contributors");
     ("date", JStr m_date);
     ("source", JStr ("https://www.nesdev.org/wiki/" +:+ source_slug));
     ("pageid", m_pageid);
     ("revid", m_revid)] in
  let front_matter := format_metadata_wikitext h metadata in
  let* content := lift (Py.rstrip_nl wikitext) in
  let document := front_matter +:+ PyStr.nl +:+ PyStr.nl +:+ content +:+ PyStr.nl in
  write_file output_path document ;;
  ret output_path.

Definition command_save (title : string) (refresh : bool) : M unit :=
  let* output_path := save_wikitext_document title refresh in
  print ("Wrote " +:+ output_path).

(** [len(results)] *)
Definition len (results : json) : result Z :=
  match results with
  | JArr items => Ok (Z.of_nat (length items))
  | JObj members => Ok (Z.of_nat (length members))
  | JStr s => Ok (Z.of_nat (String.length s))
  | _ => Err (PyError "TypeError")
  end.

(** [results[index]] for an index the caller has checked. *)
Definition item (results : json) (index : Z) : result json :=
  match results with
  | JArr items =>
      match items !! Z.to_nat index with
      | Some v => Ok v
      | None => Err (PyError "IndexError")
      end
  | JObj _ => Err (PyError "KeyError")
  | JStr _ => Err Unmodelled
  | _ => Err (PyError "TypeError")
  end.

Definition command_grab (term : string) (limit : Z) (pick : option Z)
    (refresh : bool) : M unit :=
  let* results := search_pages term limit refresh in
  print_search_results results ;;
  if negb (Py.truthy results) then ret tt
  else
    match pick with
    | None =>
        print ("Re-run with " +:+ q +:+ "--pick N" +:+ q
               +:+ " to download a result automatically.")
    | Some pick =>
        let index := pick - 1 in
        let* n := lift (len results) in
        if (index <? 0) || (n <=? index) then
          raise (WikiError (JStr ("Pick value " +:+ PyStr.of_int pick
                   +:+ " is out of range for " +:+ PyStr.of_int n +:+ " results.")))
        else
          let* chosen := lift (item results index) in
          let* title := lift (Py.subscript chosen "title") in
          match title with
          | JStr t =>
              let* output_path := save_wikitext_document t refresh in
              print ("Saved result #" +:+ PyStr.of_int pick +:+ " (" +:+ t
                     +:+ ") to " +:+ output_path)
          | _ => raise Unmodelled
          end
    end.

(** [main]: without a subcommand the help is printed (its text is not
    modelled) and 1 returned. *)
Definition main (refresh : bool) (c : command) : world -> exit_status * world :=
  match c with
  | NoCommand => fun w => (Exit 1, w)
  | Search term limit => run_command h (command_search term limit refresh)
  | Save title => run_command h (command_save title refresh)
  | Grab term limit pick => run_command h (command_grab term limit pick refresh)
  end.
End Tool.
End Nesdev.

(** ** Definitions used to state and prove the properties *)

(** The keys of a Python dictionary are distinct. *)
Definition dict_wf {V : Type} (d : Dict.t V) : Prop := List.NoDup (Dict.keys d).

(** Two descriptors hold the same key/value pairs. *)
Definition same_pairs (D1 D2 : descriptor) : Prop :=
  forall k v, In (k, v) D1 <-> In (k, v) D2.

Module Unescape.
Import PyStr.

Definition hex_val (c : ascii) : option N :=
  let n := N_of_ascii c in
  if ((48 <=? n) && (n <=? 57))%N then Some (n - 48)%N
  else if ((97 <=? n) && (n <=? 102))%N then Some (n - 87)%N
  else None.

Definition short_escape (d : ascii) : option ascii :=
  if Ascii.eqb d dquote then Some dquote
  else if Ascii.eqb d backslash then Some backslash
  else if Ascii.eqb d "b" then Some "008"%char
  else if Ascii.eqb d "f" then Some "012"%char
  else if Ascii.eqb d "n" then Some "010"%char
  else if Ascii.eqb d "r" then Some "013"%char
  else if Ascii.eqb d "t" then Some "009"%char
  else None.

(** Reads one character of the inside of a string literal; a closing
    quote is not one. *)
Definition read_char (s : string) : option (ascii * string) :=
  match s with
  | EmptyString => None
  | String c rest =>
      if Ascii.eqb c dquote then None
      else if Ascii.eqb c backslash then
        match rest with
        | EmptyString => None
        | String d rest' =>
            if Ascii.eqb d "u" then
              match rest' with
              | String _ (String _ (String x (String y rest''))) =>
                  match hex_val x, hex_val y with
                  | Some a, Some b => Some (ascii_of_N (16 * a + b), rest'')
                  | _, _ => None
                  end
              | _ => None
              end
            else
              match short_escape d with
              | Some c' => Some (c', rest')
              | None => None
              end
        end
      else Some (c, rest)
  end.
End Unescape.

Definition is_get (e : io) : bool :=
  match e with HttpGet _ => true | CacheRead _ => false end.

(** The number of network requests made so far. *)
Definition network_requests (w : world) : nat := length (List.filter is_get (log w)).

(** The cache files read so far. *)
Definition cache_reads (w : world) : nat :=
  length (List.filter (fun e => negb (is_get e)) (log w)).

(** The call goes to the network: the cache is bypassed or has no entry. *)
Definition live (h : host) (params : descriptor) (refresh : bool) (w : world) : Prop :=
  refresh = true \/ cache w !! cache_key h params = None.

(** Two calls one after the other, as Python runs them: the second is
    made when the first has returned. *)
Definition twice (h : host) (params : descriptor) : M (json * json) :=
  let* first := cached_request h params false in
  let* second := cached_request h params false in
  ret (first, second).

(** The world once a live call has sent its request. *)
Definition after_get (params : descriptor) (w : world) : world :=
  set_log (log w ++ [HttpGet params]) (set_cache_dir true w).

(** The computation only writes to the error stream. *)
Definition only_stderr (c : M unit) : Prop :=
  forall w, exists err, c w = (Ok tt, set_stderr (stderr w ++ err) w).

(** *** The document as the specification words it

    A metadata block with one [ | key = value] line for each entry whose
    value is not null, in insertion order, between the two delimiters;
    one blank line; the markup without its trailing newlines; one newline. *)

Fixpoint newlines (n : nat) : string :=
  match n with
  | O => EmptyString
  | S k => String PyStr.newline (newlines k)
  end.

(** Each line followed by its line end. *)
Fixpoint lines_text (lines : list string) : string :=
  match lines with
  | [] => EmptyString
  | line :: rest => line +:+ PyStr.nl +:+ lines_text rest
  end.

Definition spec_metadata_lines (h : host) (metadata : Dict.t json) : list string :=
  map (fun kv => " | " +:+ fst kv +:+ " = " +:+ format_value h (snd kv))
      (List.filter (fun kv => negb (is_none (snd kv))) metadata).

Definition spec_block (h : host) (metadata : Dict.t json) : string :=
  "{{Page metadata" +:+ PyStr.nl +:+ lines_text (spec_metadata_lines h metadata) +:+ "}}".

Definition spec_document (h : host) (metadata : Dict.t json) (markup : string) : string :=
  spec_block h metadata +:+ PyStr.nl      (* the end of the block's last line *)
  +:+ PyStr.nl                            (* the blank line *)
  +:+ PyStr.rstrip_nl markup
  +:+ PyStr.nl.

(** Spaces replaced with underscores. *)
Fixpoint underscored (s : string) : string :=
  match s with
  | EmptyString => EmptyString
  | String c rest =>
      String (if Ascii.eqb c " " then "_"%char else c) (underscored rest)
  end.

(** The entry [k] of an object, null when it has none. *)
Definition entry (o : json) (k : string) : json :=
  match o with
  | JObj d => match Dict.get k d with Some v => v | None => JNull end
  | _ => JNull
  end.

(** The title of a page: the one the wiki gave in the parse object, the
    requested one when it gave none. *)
Definition wiki_title (parsed : json) (title : string) : option string :=
  match parsed with
  | JObj d =>
      match Dict.get "title" d with
      | Some (JStr t) => Some t
      | Some _ => None
      | None => Some title
      end
  | _ => None
  end.

(** The metadata of a document: title, author, date, source URL, page id
    and revision id. *)
Definition document_metadata (parsed author : json) (date t : string) : Dict.t json :=
  [("title", entry parsed "title");
   ("author", author);
   ("date", JStr date);
   ("source", JStr ("https://www.nesdev.org/wiki/" +:+ underscored t));
   ("pageid", entry parsed "pageid");
   ("revid", entry parsed "revid")].

(** The computation leaves the saved documents and output directories
    alone, whatever its result. *)
Definition keeps_docs {A : Type} (c : M A) : Prop :=
  forall w r w', c w = (r, w') -> docs w' = docs w /\ dirs w' = dirs w.

(** A search result as the wiki gives it: an object with a string title
    and, when it has a snippet, a string snippet. *)
Definition is_search_result (v : json) : bool :=
  match v with
  | JObj d =>
      match Dict.get "title" d with
      | Some (JStr _) =>
          match Dict.get "snippet" d with
          | None | Some (JStr _) => true
          | Some _ => false
          end
      | _ => false
      end
  | _ => false
  end.

(** The body of the answer to a [parse] request has no [parse] entry (or
    an empty or null one), or its [parse] object has no [wikitext] entry, or
    its [wikitext] object has no [*] entry (or a null one). *)
Inductive lacks_wikitext : json -> Prop :=
| no_parse (d : Dict.t json) :
    Dict.get "parse" d = None -> lacks_wikitext (JObj d)
| empty_parse (d : Dict.t json) (p : json) :
    Dict.get "parse" d = Some p -> Py.truthy p = false -> lacks_wikitext (JObj d)
| no_wikitext (d p : Dict.t json) :
    Dict.get "parse" d = Some (JObj p) -> Dict.get "wikitext" p = None ->
    lacks_wikitext (JObj d)
| no_star (d p wt : Dict.t json) :
    Dict.get "parse" d = Some (JObj p) -> Dict.get "wikitext" p = Some (JObj wt) ->
    Dict.get "*" wt = None -> lacks_wikitext (JObj d)
| null_star (d p wt : Dict.t json) :
    Dict.get "parse" d = Some (JObj p) -> Dict.get "wikitext" p = Some (JObj wt) ->
    Dict.get "*" wt = Some JNull -> lacks_wikitext (JObj d).

(** A value of the body that should be an object is not one: the body
    itself, a [parse] entry that is neither empty nor an object, or the
    [wikitext] entry of the parse object (a null one, say).  Such a body has
    no parse object with a wikitext [*] entry either. *)
Inductive misshapen : json -> Prop :=
| body_not_object (data : json) :
    (forall d, data <> JObj d) -> misshapen data
| parse_not_object (d : Dict.t json) (p : json) :
    Dict.get "parse" d = Some p -> Py.truthy p = true -> (forall m, p <> JObj m) ->
    misshapen (JObj d)
| wikitext_not_object (d p : Dict.t json) (wt : json) :
    Dict.get "parse" d = Some (JObj p) -> p <> [] ->
    Dict.get "wikitext" p = Some wt -> (forall m, wt <> JObj m) ->
    misshapen (JObj d).

(** The body has a parse object with a wikitext [*] entry that is not
    null. *)
Definition has_wikitext (data : json) : Prop :=
  exists d p wt star,
    data = JObj d
    /\ Dict.get "parse" d = Some (JObj p) /\ p <> []
    /\ Dict.get "wikitext" p = Some (JObj wt)
    /\ Dict.get "*" wt = Some star /\ star <> JNull.

(** The message of [command_grab] for a pick that is out of range. *)
Definition pick_message (pick n : Z) : string :=
  "Pick value " +:+ PyStr.of_int pick +:+ " is out of range for "
  +:+ PyStr.of_int n +:+ " results.".

(** *** The walker against a wiki that gives what is asked for *)

(** The sort key of a page: its [index], or its [pageid] when it has none. *)
Definition page_key (page : json) : option Z :=
  match NesdevPages.sort_key page with
  | Ok (JInt n) => Some n
  | _ => None
  end.

Definition key_of (page : json) : Z :=
  match page_key page with Some n => n | None => 0 end.

(** The record of a page that has a [pageid] and a [title]. *)
Definition the_record (page : json) : NesdevPages.page_record :=
  match NesdevPages.record_of page with
  | Ok r => r
  | Err _ => {| NesdevPages.pageid := JNull; NesdevPages.title := JNull;
                NesdevPages.touched := JNull |}
  end.

(** The Page Record of a page: its [pageid], its [title], and its
    [touched] time, or ["unknown"] when the page has none. *)
Definition page_record_of (page : json) : NesdevPages.page_record :=
  {| NesdevPages.pageid := entry page "pageid";
     NesdevPages.title := entry page "title";
     NesdevPages.touched :=
       match page with
       | JObj d => match Dict.get "touched" d with Some t => t | None => JStr "unknown" end
       | _ => JStr "unknown"
       end |}.

(** A page as the wiki gives it: an object with a [pageid] and a [title]
    whose sort key is an integer. *)
Definition is_page (page : json) : bool :=
  match page_key page, NesdevPages.record_of page with
  | Some _, Ok _ => true
  | _, _ => false
  end.

(** The pages of a response body, in the order of its [pages] object. *)
Definition body_pages (data : json) : option (list json) :=
  match data with
  | JObj d =>
      match Dict.get "query" d with
      | Some (JObj query) =>
          match Dict.get "pages" query with
          | Some (JObj pages) => Some (Dict.values pages)
          | _ => None
          end
      | _ => None
      end
  | _ => None
  end.

Definition pages_of (data : json) : list json :=
  match body_pages data with Some pages => pages | None => [] end.

(** The continuation token of a response body, [None] in Python when the
    body has none. *)
Definition body_token (data : json) : json :=
  match data with
  | JObj d => match Dict.get "continue" d with Some t => t | None => JNull end
  | _ => JNull
  end.

Definition has_token (data : json) : bool := Py.truthy (body_token data).

(** The body has exactly [g] pages. *)
Definition exact_batch (g : Z) (data : json) : Prop :=
  exists pages,
    body_pages data = Some pages
    /\ Z.of_nat (length pages) = g
    /\ forallb is_page pages = true.

(** [a < b] on the keys that [f] gives. *)
Definition by_key {A : Type} (f : A -> Z) (a b : A) : bool := f a <? f b.

(** The pages of one batch in the order the walker yields them. *)
Definition sort_pages (pages : list json) : list json :=
  map snd (PySort.sorted NesdevPages.key_lt (combine (map key_of pages) pages)).

(** [sorted] is a rearrangement of [pages] in which the keys never
    decrease and pages with the same key keep their order. *)
Definition stable_sorted (pages sorted : list json) : Prop :=
  Permutation pages sorted
  /\ StronglySorted (fun a b => key_of a <= key_of b) sorted
  /\ forall k, List.filter (fun p => key_of p =? k) sorted
               = List.filter (fun p => key_of p =? k) pages.

(** The pages of the bodies served, each batch in its sorted order. *)
Definition yielded (bodies : list json) : list json :=
  flat_map (fun b => sort_pages (pages_of b)) bodies.

(** The pages of the bodies served, batch by batch. *)
Definition sorted_batches (bodies : list json) : list (list json) :=
  map (fun b => sort_pages (pages_of b)) bodies.

(** The number of batches: the ceiling of [limit / batch_size]. *)
Definition rounds (limit batch_size : Z) : nat :=
  Z.to_nat ((limit + batch_size - 1) / batch_size).

(** The sizes of the first [n] batches: each is
    [min(batch_size, limit - fetched)]. *)
Fixpoint batch_sizes (n : nat) (batch_size remaining : Z) : list Z :=
  match n with
  | O => []
  | S k =>
      let g := Z.min batch_size remaining in
      g :: batch_sizes k batch_size (remaining - g)
  end.

(** The calls of [cached_request] on a list of descriptors, in order. *)
Fixpoint serve_all (h : host) (refresh : bool) (requests : list descriptor)
    : M (list json) :=
  match requests with
  | [] => ret []
  | params :: rest =>
      let* body := cached_request h params refresh in
      let* bodies := serve_all h refresh rest in
      ret (body :: bodies)
  end.

(** [params] is the descriptor of a batch of [g] pages. *)
Definition asks_for (prefix : option string) (params : descriptor) (g : Z) : Prop :=
  exists token, NesdevPages.page_query prefix g token = Ok params.

(** A synthetic wiki, seen through the cache store.  [Inv] relates the
    world and the continuation token the walker holds; whenever it holds,
    a request for [g] pages, [0 < g <= batch_size], is answered (from the
    cache or from the network) by a body with exactly [g] pages that
    satisfies [P], and [Inv] holds again for the new world and the token
    of that body. *)
Definition service (h : host) (prefix : option string) (refresh : bool)
    (batch_size : Z) (Inv : world -> json -> Prop) (P : json -> Prop) : Prop :=
  forall w token g,
    Inv w token -> 0 < g <= batch_size ->
    exists params data w',
      NesdevPages.page_query prefix g token = Ok params
      /\ cached_request h params refresh w = (Ok data, w')
      /\ exact_batch g data
      /\ P data
      /\ Inv w' (body_token data).

(** The [gaplimit] of a network request. *)
Definition requested (e : io) : option string :=
  match e with
  | HttpGet params => Dict.get "gaplimit" params
  | CacheRead _ => None
  end.

(** ** A sample environment

    A wiki that answers every page query with exactly the number of pages
    asked for, numbered from the number of requests made before, in
    decreasing order of [index], together with a continuation token.  The
    digest is the identity, which makes cache file names readable. *)

Module Sample.

Definition page (i : Z) : string * json :=
  (PyStr.of_int i,
   JObj [("pageid", JInt i); ("title", JStr ("Page " +:+ PyStr.of_int i));
         ("index", JInt (- i))]).

Definition token : json :=
  JObj [("gapcontinue", JStr "next"); ("continue", JStr "gapcontinue||")].

Definition batch (n : nat) (start : Z) : json :=
  JObj [("continue", token);
        ("query", JObj [("pages", JObj (map (fun k => page (start + Z.of_nat k)) (seq 0 n)))])].

(** The number a descriptor asks for, up to the protocol maximum. *)
Definition asked (p : descriptor) : nat :=
  match Dict.get "gaplimit" p with
  | Some s =>
      match find (fun n => String.eqb (PyStr.of_int (Z.of_nat n)) s) (seq 0 501) with
      | Some n => n
      | None => O
      end
  | None => O
  end.

Definition hit (t : string) : json :=
  JObj [("title", JStr t); ("snippet", JStr "about the <span>PPU</span>")].

Definition search_reply (term : string) : json :=
  JObj [("query",
         JObj [("search",
                JArr (if String.eqb term "nothing" then []
                      else [hit "PPU registers"; hit "PPU scrolling"]))])].

Definition parse_reply (t : string) : json :=
  if String.eqb t "Missing" then JObj [("warnings", JObj [])]
  else
    JObj [("parse",
           JObj [("title", JStr t); ("pageid", JInt 7); ("revid", JInt 9);
                 ("wikitext", JObj [("*", JStr ("Some text" +:+ PyStr.nl +:+ PyStr.nl))])])].

Definition reply (history : list io) (p : descriptor) : json :=
  match Dict.get "action" p, Dict.get "page" p, Dict.get "srsearch" p with
  | Some "parse", Some t, _ => parse_reply t
  | _, _, Some term => search_reply term
  | _, _, _ => batch (asked p) (1000 * Z.of_nat (length history))
  end.

Definition wiki (history : list io) (p : descriptor) : http_outcome :=
  match Dict.get "page" p with
  | Some "Down" => Unreachable "timed out"
  | Some "Gone" =>
      Replied {| status_code := 404; headers := [("Server", "nginx")];
                 text := "not found"; decoded := None |}
  | Some "Broken" =>
      Replied {| status_code := 200; headers := []; text := EmptyString;
                 decoded := Some (JObj [("error", JObj [("code", JStr "missingtitle");
                                                        ("info", JStr "The page does not exist.")])]) |}
  | _ =>
      Replied {| status_code := 200; headers := []; text := EmptyString;
                 decoded := Some (reply history p) |}
  end.

(** The directory of a path: what comes before its last [/]. *)
Fixpoint dirname (path : string) : string :=
  match path with
  | EmptyString => EmptyString
  | String c rest =>
      if PyStr.contains "/" rest then String c (dirname rest) else EmptyString
  end.

(** A file can be opened when its directory has been made. *)
Definition open_in (made : gset string) (path : string) : option string :=
  if bool_decide (dirname path ∈ made) then None else Some "FileNotFoundError".

(** The clock shows the first of January until ten requests or cache reads
    have been made, and the second afterwards. *)
Definition clock (history : list io) : string :=
  if (length history <? 10)%nat then "2024-01-01" else "2024-01-02".

Definition sample_host : host := {|
  sha1_hexdigest := fun s => s;
  remote := wiki;
  request_url := fun _ => API_URL;
  http_error_str := fun _ _ => "HTTP error";
  json_error_str := fun _ => "Expecting value: line 1 column 1 (char 0)";
  repr_compound := fun _ => "?";
  utc_today := clock;
  output_dir := "assets/nesdev";
  path_join := fun dir name => dir +:+ "/" +:+ name;
  open_error := open_in;
  dump_indent2 := fun _ => EmptyString;
  csv_row := fun _ => EmptyString
|}.

Definition empty_world : world := {|
  cache_dir := false; cache := ∅; dirs := ∅; docs := ∅;
  stdout := []; stderr := []; log := []
|}.

Definition parse_query (t : string) : descriptor :=
  [("action", "parse"); ("format", "json"); ("page", t); ("prop", "wikitext")].

Definition D1 : descriptor := [("action", "query"); ("format", "json"); ("gaplimit", "10")].
Definition D2 : descriptor := [("gaplimit", "10"); ("action", "query"); ("format", "json")].

(** The tokens the walker holds against the sample wiki. *)
Definition held (w : world) (tok : json) : Prop := tok = JNull \/ tok = token.

(** A world whose cache has an entry for [D1]. *)
Definition cached_world : world := {|
  cache_dir := true;
  cache := {[ cache_key sample_host D1 := JStr "stored" ]};
  dirs := ∅; docs := ∅; stdout := []; stderr := []; log := []
|}.
End Sample.

(** ** [nesdev_pages.py]: search, fetch and save

    The script is handed the root of the repository and the constructor
    [Path] of [pathlib], which puts a path in normal form; paths are their
    text, and a path is absolute when it starts with a slash. *)

Module PagesCommands.

Record save_args : Type := {
  save_title : string;
  save_output_dir : option string;
  save_output_path : option string;
  save_slug : option string;
  save_author : json;
  save_date : option string
}.

Inductive command : Type :=
| List (args : NesdevPages.list_args)
| Search (term : string) (limit : Z) (output_format : string)
| Fetch (title content_format : string)
| Save (args : save_args).

(** [p.is_absolute()] *)
Definition is_absolute (p : string) : bool :=
  match p with
  | String c _ => Ascii.eqb c "/"
  | EmptyString => false
  end.

(** [if s:] for an optional string. *)
Definition given (s : option string) : option string :=
  match s with
  | Some t => if String.eqb t EmptyString then None else Some t
  | None => None
  end.

Section Commands.
Context (h : host) (REPO_ROOT : string) (Path : string -> string).

Definition default_output_dir : string :=
  path_join h (path_join h REPO_ROOT "assets") "nesdev".

Definition resolve_repo_path (path_str : option string) (default : string) : string :=
  match given path_str with
  | None => default
  | Some s =>
      let candidate := Path s in
      if is_absolute candidate then candidate else path_join h REPO_ROOT candidate
  end.

(** The body of the [for] loop of [command_search]. *)
Definition print_result (result : json) : M unit :=
  let* raw := lift (Py.get result "snippet" (JStr "")) in
  let* s1 := lift (Py.replace raw ("<span class=" +:+ Nesdev.q +:+ "searchmatch"
                                   +:+ Nesdev.q +:+ ">") "") in
  let snippet := PyStr.replace "</span>" "" s1 in
  let* title := lift (Py.subscript result "title") in
  let* size := lift (Py.get result "size" (JStr "?")) in
  print (format_value h title +:+ " (" +:+ format_value h size +:+ " bytes)") ;;
  (if negb (String.eqb snippet EmptyString) then print ("  " +:+ snippet) else ret tt).

(** [for result in results]: a list gives its items, an empty dictionary
    or string nothing; the keys of a dictionary and the characters of a
    string are strings, which have no [get]; other values cannot be
    iterated. *)
Definition print_results (results : json) : M unit :=
  match results with
  | JArr items => for_each print_result items
  | JObj [] | JStr EmptyString => ret tt
  | JObj _ | JStr _ => raise (PyError "AttributeError")
  | _ => raise (PyError "TypeError")
  end.

Definition command_search (term : string) (limit : Z) (output_format : string)
    (refresh : bool) : M unit :=
  let params : descriptor :=
    [("action", "query"); ("format", "json"); ("list", "search");
     ("srsearch", term); ("srlimit", PyStr.of_int limit)] in
  let* data := cached_request h params refresh in
  let* query := lift (Py.get data "query" (JObj [])) in
  let* results := lift (Py.get query "search" (JArr [])) in
  if String.eqb output_format "json" then
    match results with
    | JArr items => write (dump_indent2 h items) ;; write PyStr.nl
    | _ => raise Unmodelled
    end
  else print_results results.

Definition command_fetch (title content_format : string) (refresh : bool) : M unit :=
  let prop := if String.eqb content_format "wikitext" then "wikitext" else "text" in
  let params : descriptor :=
    [("action", "parse"); ("format", "json"); ("page", title); ("prop", prop)] in
  let* data := cached_request h params refresh in
  let* parsed := lift (Py.get data "parse" JNull) in
  if negb (Py.truthy parsed) then
    raise (WikiError (JStr "No parse data returned; ensure the title exists."))
  else if String.eqb content_format "wikitext" then
    let* holder := lift (Py.get parsed "wikitext" (JObj [])) in
    let* content := lift (Py.get holder "*" (JStr "")) in
    print (format_value h content)
  else
    let* holder := lift (Py.get parsed "text" (JObj [])) in
    let* content := lift (Py.get holder "*" (JStr "")) in
    print (format_value h content).

(** [command_save].  The directory of a path given with [--output-path]
    is not made by the code. *)
Definition command_save (args : save_args) (refresh : bool) : M unit :=
  let* fetched := fetch_wikitext h (save_title args) refresh in
  let parsed := fst fetched in
  let wikitext := snd fetched in
  let* slug :=
    lift (match given (save_slug args) with
          | Some s => title_to_slug (JStr s)
          | None => Py.bind (Nesdev.parsed_title parsed (save_title args)) title_to_slug
          end) in
  let output_dir := resolve_repo_path (save_output_dir args) default_output_dir in
  Nesdev.mkdir output_dir ;;
  let output_path :=
    match given (save_output_path args) with
    | Some _ =>
        resolve_repo_path (save_output_path args)
          (path_join h output_dir (slug +:+ ".wikitext"))
    | None => path_join h output_dir (slug +:+ ".wikitext")
    end in
  let* m_title := lift (Py.get parsed "title" JNull) in
  let* m_date :=
    match given (save_date args) with
    | Some d => ret d
    | None => Nesdev.today h
    end in
  let* source_slug :=
    lift (Py.bind (Nesdev.parsed_title parsed (save_title args)) title_to_slug) in
  let* m_pageid := lift (Py.get parsed "pageid" JNull) in
  let* m_revid := lift (Py.get parsed "revid" JNull) in
  let metadata : Dict.t json :=
    [("title", m_title);
     ("author", save_author args);
     ("date", JStr m_date);
     ("source", JStr ("https://www.nesdev.org/wiki/" +:+ source_slug));
     ("pageid", m_pageid);
     ("revid", m_revid)] in
  let front_matter := format_metadata_wikitext h metadata in
  let* content := lift (Py.rstrip_nl wikitext) in
  let document := front_matter +:+ PyStr.nl +:+ PyStr.nl +:+ content +:+ PyStr.nl in
  Nesdev.write_file h output_path document ;;
  print ("Wrote " +:+ output_path).

(** [main] with every subcommand; only [list] has a batch size to clamp. *)
Definition main (fuel : nat) (refresh : bool) (c : command) : world -> exit_status * world :=
  match c with
  | List args => NesdevPages.main h fuel args
  | Search term limit output_format =>
      run_command h (command_search term limit output_format refresh)
  | Fetch title content_format => run_command h (command_fetch title content_format refresh)
  | Save args => run_command h (command_save args refresh)
  end.
End Commands.
End PagesCommands.

(** A wiki that, seen through the cache store, answers every request for
    [g] pages with a continuation token and no page; [Inv] relates the
    world and the token the walker holds, as for [service]. *)
Definition stalls (h : host) (prefix : option string) (refresh : bool) (g : Z)
    (Inv : world -> json -> Prop) : Prop :=
  forall w token,
    Inv w token ->
    exists params data w' token',
      NesdevPages.page_query prefix g token = Ok params
      /\ cached_request h params refresh w = (Ok data, w')
      /\ NesdevPages.batch_pages data = Ok []
      /\ Py.get data "continue" JNull = Ok token'
      /\ Py.truthy token' = true
      /\ Inv w' token'.

(** Every character is printable ASCII, from the space to the tilde. *)
Fixpoint all_printable (s : string) : bool :=
  match s with
  | EmptyString => true
  | String c rest =>
      ((32 <=? N_of_ascii c) && (N_of_ascii c <=? 126))%N && all_printable rest
  end.

(** The arguments of [save] of [nesdev_pages.py] without [--slug]. *)
Definition without_slug (a : PagesCommands.save_args) : PagesCommands.save_args := {|
  PagesCommands.save_title := PagesCommands.save_title a;
  PagesCommands.save_output_dir := PagesCommands.save_output_dir a;
  PagesCommands.save_output_path := PagesCommands.save_output_path a;
  PagesCommands.save_slug := None;
  PagesCommands.save_author := PagesCommands.save_author a;
  PagesCommands.save_date := PagesCommands.save_date a
|}.

(** ** More sample wikis *)

Module Sample2.

Definition with_remote (r : list io -> descriptor -> http_outcome) (h : host) : host := {|
  sha1_hexdigest := sha1_hexdigest h;
  remote := r;
  request_url := request_url h;
  http_error_str := http_error_str h;
  json_error_str := json_error_str h;
  repr_compound := repr_compound h;
  utc_today := utc_today h;
  output_dir := output_dir h;
  path_join := path_join h;
  open_error := open_error h;
  dump_indent2 := dump_indent2 h;
  csv_row := csv_row h
|}.

Definition ok (body : json) : http_outcome :=
  Replied {| status_code := 200; headers := []; text := EmptyString;
             decoded := Some body |}.

(** A wiki that answers the first request and is out of reach afterwards. *)
Definition failing_wiki (history : list io) (p : descriptor) : http_outcome :=
  match history with
  | [] => Sample.wiki history p
  | _ => Unreachable "timed out"
  end.

Definition failing_host : host := with_remote failing_wiki Sample.sample_host.

(** A wiki that always sends a continuation token and never a page. *)
Definition stalling_wiki (history : list io) (p : descriptor) : http_outcome :=
  ok (JObj [("continue", Sample.token)]).

Definition stalling_host : host := with_remote stalling_wiki Sample.sample_host.

(** A wiki that sends three pages, whatever is asked, and no token. *)
Definition short_wiki (history : list io) (p : descriptor) : http_outcome :=
  ok (JObj [("query",
             JObj [("pages", JObj [Sample.page 3; Sample.page 1; Sample.page 2])])]).

Definition short_host : host := with_remote short_wiki Sample.sample_host.

(** A wiki whose pages have a title and numbers but no content. *)
Definition bare_wiki (history : list io) (p : descriptor) : http_outcome :=
  ok (JObj [("parse", JObj [("title", JStr "Bare"); ("pageid", JInt 1)])]).

Definition bare_host : host := with_remote bare_wiki Sample.sample_host.

(** A wiki whose pages have a null [wikitext]. *)
Definition null_wiki (history : list io) (p : descriptor) : http_outcome :=
  ok (JObj [("parse", JObj [("title", JStr "T"); ("wikitext", JNull)])]).

Definition null_host : host := with_remote null_wiki Sample.sample_host.



(** The repository root and the path constructor of the sample runs. *)
Definition REPO_ROOT : string := "/repo".

Definition Path (s : string) : string := s.

(** The sample host with its documents under the repository root. *)
Definition repo_host : host := {|
  sha1_hexdigest := sha1_hexdigest Sample.sample_host;
  remote := remote Sample.sample_host;
  request_url := request_url Sample.sample_host;
  http_error_str := http_error_str Sample.sample_host;
  json_error_str := json_error_str Sample.sample_host;
  repr_compound := repr_compound Sample.sample_host;
  utc_today := utc_today Sample.sample_host;
  output_dir := "/repo/assets/nesdev";
  path_join := path_join Sample.sample_host;
  open_error := open_error Sample.sample_host;
  dump_indent2 := dump_indent2 Sample.sample_host;
  csv_row := csv_row Sample.sample_host
|}.

(** The arguments of [save] when only the title is given. *)
Definition plain_save (title : string) : PagesCommands.save_args := {|
  PagesCommands.save_title := title;
  PagesCommands.save_output_dir := Some "/repo/assets/nesdev";
  PagesCommands.save_output_path := None;
  PagesCommands.save_slug := None;
  PagesCommands.save_author := JStr "NESDev contributors";
  PagesCommands.save_date := None
|}.

Definition renamed_save (title slug : string) : PagesCommands.save_args := {|
  PagesCommands.save_title := title;
  PagesCommands.save_output_dir := Some "/repo/assets/nesdev";
  PagesCommands.save_output_path := None;
  PagesCommands.save_slug := Some slug;
  PagesCommands.save_author := JStr "NESDev contributors";
  PagesCommands.save_date := Some "2020-02-02"
|}.

End Sample2.

(** * Properties *)

(** ** Strings *)

Arguments String.append !s1 s2 : simpl nomatch.

Section StringFacts.

Lemma append_assoc (a b c : string) : (a +:+ b) +:+ c = a +:+ (b +:+ c).
Proof. induction a as [|x a IH]; simpl; [reflexivity | now rewrite IH]. Qed.

Lemma append_nil_r (a : string) : a +:+ EmptyString = a.
Proof. induction a as [|x a IH]; simpl; [reflexivity | now rewrite IH]. Qed.

Lemma append_inj_l (a b c : string) : a +:+ b = a +:+ c -> b = c.
Proof. induction a as [|x a IH]; simpl; intros H; [exact H | inversion H; auto]. Qed.

Lemma append_length (a b : string) :
  String.length (a +:+ b) = (String.length a + String.length b)%nat.
Proof. induction a as [|x a IH]; simpl; [reflexivity | now rewrite IH]. Qed.

Lemma append_inj_r (a b c : string) : a +:+ c = b +:+ c -> a = b.
Proof.
  revert b. induction a as [|x a IH]; intros [|y b] H; simpl in H.
  - reflexivity.
  - apply (f_equal String.length) in H. simpl in H. rewrite append_length in H. lia.
  - apply (f_equal String.length) in H. simpl in H. rewrite append_length in H. lia.
  - inversion H; subst. f_equal. now apply IH.
Qed.

Lemma ascii_compare_lt_trans (a b c : ascii) :
  Ascii.compare a b = Lt -> Ascii.compare b c = Lt -> Ascii.compare a c = Lt.
Proof.
  unfold Ascii.compare. rewrite !N.compare_lt_iff. lia.
Qed.

Lemma ascii_compare_eq (a b : ascii) : Ascii.compare a b = Eq -> a = b.
Proof.
  unfold Ascii.compare. rewrite N.compare_eq_iff. intros H.
  rewrite <- (ascii_N_embedding a), <- (ascii_N_embedding b). now rewrite H.
Qed.

Lemma ascii_compare_refl (a : ascii) : Ascii.compare a a = Eq.
Proof. unfold Ascii.compare. apply N.compare_refl. Qed.

Lemma string_lt_trans (a b c : string) :
  PyStr.lt a b = true -> PyStr.lt b c = true -> PyStr.lt a c = true.
Proof.
  unfold PyStr.lt, String.ltb.
  revert b c. induction a as [|x a IH]; intros [|y b] [|z c]; simpl; try congruence.
  destruct (Ascii.compare x y) eqn:Hxy; try congruence;
    destruct (Ascii.compare y z) eqn:Hyz; try congruence.
  - apply ascii_compare_eq in Hxy, Hyz. subst. rewrite ascii_compare_refl. apply IH.
  - apply ascii_compare_eq in Hxy. subst. now rewrite Hyz.
  - apply ascii_compare_eq in Hyz. subst. now rewrite Hxy.
  - now rewrite (ascii_compare_lt_trans x y z).
Qed.

Lemma string_lt_irrefl (a : string) : PyStr.lt a a = false.
Proof.
  unfold PyStr.lt, String.ltb.
  replace (String.compare a a) with Eq; [reflexivity|].
  symmetry. induction a as [|x a IH]; simpl; [reflexivity|].
  now rewrite ascii_compare_refl.
Qed.

Lemma string_lt_total (a b : string) :
  PyStr.lt a b = false -> PyStr.lt b a = false -> a = b.
Proof.
  unfold PyStr.lt, String.ltb. rewrite (String.compare_antisym a b).
  destruct (String.compare b a) eqn:H; simpl; try congruence.
  intros _ _. symmetry. now apply String.compare_eq_iff.
Qed.

End StringFacts.

(** Spaces and underscores. *)

Lemma prefix_space (c : ascii) (s : string) :
  String.prefix " " (String c s) = Ascii.eqb c " ".
Proof.
  cbn [String.prefix]. destruct (ascii_dec " " c) as [<-|Hne].
  - rewrite Ascii.eqb_refl. destruct s; reflexivity.
  - symmetry. apply Ascii.eqb_neq. congruence.
Qed.

Lemma replace_space_cons (c : ascii) (s : string) :
  PyStr.replace " " "_" (String c s)
  = String (if Ascii.eqb c " " then "_"%char else c) (PyStr.replace " " "_" s).
Proof.
  unfold PyStr.replace. cbn [PyStr.replace_from]. rewrite prefix_space.
  destruct (Ascii.eqb c " "); reflexivity.
Qed.

Lemma contains_space_cons (c : ascii) (s : string) :
  PyStr.contains " " (String c s) = Ascii.eqb c " " || PyStr.contains " " s.
Proof. cbn [PyStr.contains]. now rewrite prefix_space. Qed.

Lemma replace_space_length (s : string) :
  String.length (PyStr.replace " " "_" s) = String.length s.
Proof.
  induction s as [|c s IH]; [reflexivity|].
  rewrite replace_space_cons. simpl. now rewrite IH.
Qed.

Lemma replace_space_clean (s : string) :
  PyStr.contains " " (PyStr.replace " " "_" s) = false.
Proof.
  induction s as [|c s IH]; [reflexivity|].
  rewrite replace_space_cons, contains_space_cons, IH.
  destruct (Ascii.eqb c " ") eqn:E; [reflexivity|]. now rewrite E.
Qed.

Lemma replace_space_id (s : string) :
  PyStr.contains " " s = false -> PyStr.replace " " "_" s = s.
Proof.
  induction s as [|c s IH]; [reflexivity|].
  rewrite contains_space_cons, replace_space_cons. intros H.
  apply orb_false_iff in H as [Hc Hs]. now rewrite Hc, (IH Hs).
Qed.

Lemma replace_space_underscored (s : string) :
  PyStr.replace " " "_" s = underscored s.
Proof.
  induction s as [|c s IH]; [reflexivity|].
  rewrite replace_space_cons, IH. reflexivity.
Qed.


(** ** [sorted] *)

Section SortFacts.
Context {A : Type} (lt : A -> A -> bool).

Lemma insert_perm (x : A) (l : list A) :
  Permutation (PySort.insert lt x l) (x :: l).
Proof.
  induction l as [|y l IH]; simpl; [reflexivity|].
  destruct (lt y x); [|reflexivity].
  rewrite IH. apply perm_swap.
Qed.

Lemma sorted_perm (l : list A) : Permutation (PySort.sorted lt l) l.
Proof.
  induction l as [|x l IH]; simpl; [reflexivity|].
  rewrite insert_perm. now constructor.
Qed.

Lemma sorted_length (l : list A) : length (PySort.sorted lt l) = length l.
Proof. apply Permutation_length, sorted_perm. Qed.

(** With a strict total order the result depends on the elements only. *)
Section Total.
Hypothesis lt_trans : forall a b c, lt a b = true -> lt b c = true -> lt a c = true.
Hypothesis lt_total : forall a b, lt a b = false -> lt b a = false -> a = b.
Hypothesis lt_irrefl : forall a, lt a a = false.

Lemma lt_asym (a b : A) : lt a b = true -> lt b a = false.
Proof.
  intros H. destruct (lt b a) eqn:E; [|reflexivity].
  rewrite <- (lt_irrefl a). symmetry. now apply (lt_trans a b a).
Qed.

Lemma lt_le_trans (a b c : A) : lt b a = false -> lt b c = true -> lt a c = true.
Proof.
  intros Hba Hbc. destruct (lt a b) eqn:Hab.
  - now apply (lt_trans a b c).
  - now rewrite (lt_total a b Hab Hba).
Qed.

Lemma insert_insert (x y : A) (l : list A) :
  PySort.insert lt x (PySort.insert lt y l) = PySort.insert lt y (PySort.insert lt x l).
Proof.
  induction l as [|z l IH]; simpl.
  - destruct (lt y x) eqn:Hyx, (lt x y) eqn:Hxy; try reflexivity.
    + rewrite (lt_asym y x Hyx) in Hxy. discriminate.
    + now rewrite (lt_total x y Hxy Hyx).
  - destruct (lt z y) eqn:Hzy, (lt z x) eqn:Hzx; simpl; rewrite ?Hzy, ?Hzx.
    + now rewrite IH.
    + now rewrite (lt_le_trans x z y Hzx Hzy).
    + now rewrite (lt_le_trans y z x Hzy Hzx).
    + destruct (lt y x) eqn:Hyx, (lt x y) eqn:Hxy; simpl; rewrite ?Hzx, ?Hzy;
        try reflexivity.
      * rewrite (lt_asym y x Hyx) in Hxy. discriminate.
      * now rewrite (lt_total x y Hxy Hyx).
Qed.

Lemma sorted_of_perm (l1 l2 : list A) :
  Permutation l1 l2 -> PySort.sorted lt l1 = PySort.sorted lt l2.
Proof.
  induction 1 as [|x l1 l2 _ IH|x y l|l1 l2 l3 _ IH1 _ IH2]; simpl.
  - reflexivity.
  - now rewrite IH.
  - apply insert_insert.
  - now rewrite IH1.
Qed.
End Total.
End SortFacts.

Lemma pair_lt_trans (a b c : string * string) :
  PySort.pair_lt a b = true -> PySort.pair_lt b c = true -> PySort.pair_lt a c = true.
Proof.
  destruct a as [a1 a2], b as [b1 b2], c as [c1 c2]. unfold PySort.pair_lt; simpl.
  destruct (String.eqb_spec a1 b1) as [->|Hab], (String.eqb_spec b1 c1) as [->|Hbc].
  - apply string_lt_trans.
  - auto.
  - destruct (String.eqb_spec a1 c1); [contradiction|]. auto.
  - intros H1 H2. pose proof (string_lt_trans _ _ _ H1 H2) as H3.
    destruct (String.eqb_spec a1 c1) as [->|]; [|exact H3].
    now rewrite string_lt_irrefl in H3.
Qed.

Lemma pair_lt_total (a b : string * string) :
  PySort.pair_lt a b = false -> PySort.pair_lt b a = false -> a = b.
Proof.
  destruct a as [a1 a2], b as [b1 b2]. unfold PySort.pair_lt; simpl.
  rewrite (String.eqb_sym b1 a1).
  destruct (String.eqb_spec a1 b1) as [->|Hab]; intros H1 H2.
  - f_equal. now apply string_lt_total.
  - exfalso. apply Hab. now apply string_lt_total.
Qed.

Lemma pair_lt_irrefl (a : string * string) : PySort.pair_lt a a = false.
Proof.
  destruct a as [a1 a2]. unfold PySort.pair_lt; simpl.
  rewrite String.eqb_refl. apply string_lt_irrefl.
Qed.

Lemma canonical_of_perm (D1 D2 : descriptor) :
  Permutation D1 D2 -> canonical D1 = canonical D2.
Proof.
  intros HP. unfold canonical. f_equal.
  apply sorted_of_perm.
  - exact pair_lt_trans.
  - exact pair_lt_total.
  - exact pair_lt_irrefl.
  - exact HP.
Qed.

(** ** [json.dumps] is injective on item lists *)

Section DumpsFacts.
Import PyStr JsonDumps Unescape.

Lemma read_char_escape (c : ascii) (r : string) :
  read_char (escape c +:+ r) = Some (c, r).
Proof. destruct c as [[] [] [] [] [] [] [] []]; reflexivity. Qed.

Lemma read_char_quote (r : string) : read_char (String dquote r) = None.
Proof. reflexivity. Qed.

Lemma escape_all_inj (s1 s2 r1 r2 : string) :
  escape_all s1 +:+ String dquote r1 = escape_all s2 +:+ String dquote r2 ->
  s1 = s2 /\ r1 = r2.
Proof.
  revert s2. induction s1 as [|c1 s1 IH]; intros [|c2 s2]; simpl; intros H.
  - inversion H. auto.
  - apply (f_equal read_char) in H. rewrite append_assoc, read_char_escape in H.
    discriminate.
  - apply (f_equal read_char) in H. rewrite append_assoc, read_char_escape in H.
    discriminate.
  - apply (f_equal read_char) in H. rewrite !append_assoc, !read_char_escape in H.
    inversion H as [[Hc Hr]]. destruct (IH _ Hr) as [-> ->]. auto.
Qed.

Ltac norm_app H := repeat (rewrite ?append_assoc in H; simpl in H).

Lemma dumps_item_inj (a b : string * string) (r1 r2 : string) :
  dumps_item a +:+ r1 = dumps_item b +:+ r2 -> a = b /\ r1 = r2.
Proof.
  destruct a as [k1 v1], b as [k2 v2]. unfold dumps_item, dumps_str.
  intros H. norm_app H. inversion H as [H1].
  apply escape_all_inj in H1 as [-> H2]. inversion H2 as [H3].
  apply escape_all_inj in H3 as [-> H4]. inversion H4. auto.
Qed.

Lemma dumps_item_head (a : string * string) (r : string) :
  exists r', dumps_item a +:+ r = String "["%char r'.
Proof. unfold dumps_item. simpl. rewrite append_assoc. simpl. eauto. Qed.

Lemma join_one (sep x : string) : join sep [x] = x.
Proof. reflexivity. Qed.

Lemma join_more (sep x y : string) (l : list string) :
  join sep (x :: y :: l) = x +:+ sep +:+ join sep (y :: l).
Proof. reflexivity. Qed.

(** The text after an item tells whether it was the last one. *)
Lemma join_items_tail (l : list (string * string)) :
  exists r, join "," (map dumps_item l) +:+ "]" = String "["%char r
            \/ (l = [] /\ r = EmptyString).
Proof.
  destruct l as [|a [|a' l]].
  - exists EmptyString. auto.
  - destruct (dumps_item_head a "]") as [r Hr]. exists r. left. exact Hr.
  - rewrite !map_cons, join_more, append_assoc.
    destruct (dumps_item_head a ("," +:+ join "," (dumps_item a' :: map dumps_item l) +:+ "]"))
      as [r Hr].
    exists r. left. exact Hr.
Qed.

Lemma join_items_inj (l1 l2 : list (string * string)) :
  join "," (map dumps_item l1) +:+ "]" = join "," (map dumps_item l2) +:+ "]" ->
  l1 = l2.
Proof.
  revert l2. induction l1 as [|a l1 IH]; intros [|b l2] H.
  - reflexivity.
  - exfalso. destruct (join_items_tail (b :: l2)) as [r [Hr|[Hr _]]]; [|discriminate].
    rewrite Hr in H. discriminate.
  - exfalso. destruct (join_items_tail (a :: l1)) as [r [Hr|[Hr _]]]; [|discriminate].
    rewrite Hr in H. discriminate.
  - destruct l1 as [|a' l1], l2 as [|b' l2]; rewrite ?map_cons, ?join_more in H;
      change (map dumps_item []) with (@nil string) in H; rewrite ?join_one in H;
      rewrite ?append_assoc in H; apply dumps_item_inj in H as [-> H].
    + reflexivity.
    + discriminate.
    + discriminate.
    + inversion H as [H']. f_equal. apply IH. rewrite map_cons. exact H'.
Qed.

Lemma dumps_items_inj (l1 l2 : list (string * string)) :
  dumps_items l1 = dumps_items l2 -> l1 = l2.
Proof.
  unfold dumps_items. simpl. intros H. inversion H as [H']. now apply join_items_inj.
Qed.
End DumpsFacts.

Lemma canonical_inj (D1 D2 : descriptor) :
  canonical D1 = canonical D2 -> Permutation D1 D2.
Proof.
  intros H. apply dumps_items_inj in H.
  rewrite <- (sorted_perm PySort.pair_lt D1), <- (sorted_perm PySort.pair_lt D2).
  now rewrite H.
Qed.

(** ** The cache key *)

Lemma dict_wf_items {V : Type} (d : Dict.t V) : dict_wf d -> List.NoDup d.
Proof.
  unfold dict_wf, Dict.keys. intros H. now apply List.NoDup_map_inv in H.
Qed.

Lemma same_pairs_perm (D1 D2 : descriptor) :
  dict_wf D1 -> dict_wf D2 -> same_pairs D1 D2 -> Permutation D1 D2.
Proof.
  intros H1 H2 HS. apply Permutation.NoDup_Permutation; auto using dict_wf_items.
  intros [k v]. apply HS.
Qed.

Lemma perm_same_pairs (D1 D2 : descriptor) : Permutation D1 D2 -> same_pairs D1 D2.
Proof.
  intros HP k v. split; intros Hin.
  - now apply (Permutation_in _ HP).
  - now apply (Permutation_in _ (Permutation_sym HP)).
Qed.

(** C2.  Two request descriptors with the same key/value pairs have the same
    cache key whatever the insertion order; two descriptors with different
    key/value pairs have different canonical serialisations, so that their
    cache keys can only agree through a collision of the digest on these two
    serialisations. *)
Theorem cache_key_same_pairs (h : host) (D1 D2 : descriptor) :
  dict_wf D1 -> dict_wf D2 ->
  (same_pairs D1 D2 -> cache_key h D1 = cache_key h D2)
  /\ (~ same_pairs D1 D2 ->
      canonical D1 <> canonical D2
      /\ (cache_key h D1 = cache_key h D2 ->
          sha1_hexdigest h (canonical D1) = sha1_hexdigest h (canonical D2))).
Proof.
  intros W1 W2. split.
  - intros HS. unfold cache_key. cbv zeta.
    now rewrite (canonical_of_perm D1 D2 (same_pairs_perm D1 D2 W1 W2 HS)).
  - intros HN. split.
    + intros HC. apply HN, perm_same_pairs, canonical_inj, HC.
    + unfold cache_key. cbv zeta. apply append_inj_r.
Qed.

Lemma cache_key_same_pairs_witness :
  dict_wf Sample.D1 /\ dict_wf Sample.D2
  /\ cache_key Sample.sample_host Sample.D1 = cache_key Sample.sample_host Sample.D2.
Proof.
  assert (W1 : dict_wf Sample.D1).
  { unfold dict_wf. simpl.
    repeat (constructor; [simpl; intuition discriminate|]). constructor. }
  assert (W2 : dict_wf Sample.D2).
  { unfold dict_wf. simpl.
    repeat (constructor; [simpl; intuition discriminate|]). constructor. }
  split; [exact W1|]. split; [exact W2|].
  apply (proj1 (cache_key_same_pairs Sample.sample_host Sample.D1 Sample.D2 W1 W2)).
  intros k v. unfold Sample.D1, Sample.D2. simpl. tauto.
Defined.

(** ** The cache store *)

Section CacheFacts.
Context (h : host).

Lemma only_stderr_eprint (s : string) : only_stderr (eprint s).
Proof. intros w. exists [s +:+ PyStr.nl]. reflexivity. Qed.

Lemma only_stderr_ret : only_stderr (ret tt).
Proof. intros w. exists []. unfold ret. rewrite app_nil_r. now destruct w. Qed.

Lemma only_stderr_seq (c1 c2 : M unit) :
  only_stderr c1 -> only_stderr c2 -> only_stderr (c1 ;; c2).
Proof.
  intros H1 H2 w. unfold bind. destruct (H1 w) as [e1 ->].
  destruct (H2 (set_stderr (stderr w ++ e1) w)) as [e2 ->].
  exists (e1 ++ e2)%list. unfold set_stderr. simpl. now rewrite app_assoc.
Qed.

Lemma only_stderr_for_each {A : Type} (body : A -> M unit) (l : list A) :
  (forall x, only_stderr (body x)) -> only_stderr (for_each body l).
Proof.
  intros Hb. induction l as [|x l IH]; simpl.
  - apply only_stderr_ret.
  - now apply only_stderr_seq.
Qed.

(** Reporting an HTTP error writes to the error stream only. *)
Lemma log_http_error_frame (params : descriptor) (resp : response) :
  only_stderr (log_http_error h params resp).
Proof.
  unfold log_http_error.
  repeat (apply only_stderr_seq || apply only_stderr_eprint || apply only_stderr_for_each
          || intros ?).
Qed.

(** A hit: the stored body, one cache read, nothing else. *)
Lemma cached_request_hit (params : descriptor) (w : world) (body : json) :
  cache w !! cache_key h params = Some body ->
  cached_request h params false w
  = (Ok body, set_log (log w ++ [CacheRead (cache_key h params)]) (set_cache_dir true w)).
Proof.
  intros Hc. unfold cached_request, bind, ensure_cache_dir, cache_exists, cache_load.
  simpl. rewrite Hc. rewrite bool_decide_eq_true_2 by eauto. simpl. now rewrite ?Hc.
Qed.

(** What a live call does, by the answer of the wiki. *)
Lemma cached_request_live (params : descriptor) (refresh : bool) (w : world) :
  live h params refresh w ->
  cached_request h params refresh w
  = match remote h (log w) params with
    | Unreachable why => (Err (RequestException why), after_get params w)
    | Replied resp =>
        match raise_for_status h params resp with
        | Err e =>
            (Err e, snd (log_http_error h params resp (after_get params w)))
        | Ok _ =>
            match response_json h resp with
            | Err e => (Err e, after_get params w)
            | Ok data =>
                match Py.contains "error" data with
                | Err e => (Err e, after_get params w)
                | Ok true =>
                    match Py.bind (Py.subscript data "error")
                            (fun env => Py.get env "info" (JStr "Unknown MediaWiki error")) with
                    | Ok info => (Err (WikiError info), after_get params w)
                    | Err e => (Err e, after_get params w)
                    end
                | Ok false =>
                    (Ok data,
                     set_cache (<[cache_key h params := data]> (cache w)) (after_get params w))
                end
            end
        end
    end.
Proof.
  intros Hl.
  assert (Hmiss : (if negb refresh then cache_exists (cache_key h params) else ret false)
                    (set_cache_dir true w) = (Ok false, set_cache_dir true w)).
  { destruct Hl as [->|Hn]; [reflexivity|].
    destruct refresh; [reflexivity|]. simpl. unfold cache_exists. simpl.
    rewrite Hn. rewrite bool_decide_eq_false_2; [reflexivity|].
    intros [? ?]; discriminate. }
  unfold cached_request, bind at 1, ensure_cache_dir. unfold bind at 1. rewrite Hmiss.
  unfold bind at 1, requests_get. simpl.
  destruct (remote h (log w) params) as [why|resp]; [reflexivity|].
  fold (after_get params w).
  destruct (raise_for_status h params resp) as [[]|e].
  - unfold bind, lift. destruct (response_json h resp) as [data|e]; [|reflexivity].
    destruct (Py.contains "error" data) as [[|]|e]; [| reflexivity | reflexivity].
    destruct (Py.subscript data "error") as [env|e]; simpl; [|reflexivity].
    destruct (Py.get env "info" (JStr "Unknown MediaWiki error")); reflexivity.
  - unfold bind. destruct (log_http_error_frame params resp (after_get params w)) as [err ->].
    reflexivity.
Qed.

(** Every call is a hit or a live call. *)
Lemma hit_or_live (params : descriptor) (refresh : bool) (w : world) :
  (refresh = false /\ exists body, cache w !! cache_key h params = Some body)
  \/ live h params refresh w.
Proof.
  destruct refresh; [right; now left|].
  destruct (cache w !! cache_key h params) as [body|] eqn:E.
  - left. eauto.
  - right. now right.
Qed.
End CacheFacts.

Section CacheContract.
Context (h : host).

(** Every call, summed up: what it leaves alone, and the two ways it goes. *)
Lemma cached_request_outcome (params : descriptor) (refresh : bool) (w : world) :
  forall r w', cached_request h params refresh w = (r, w') ->
  dirs w' = dirs w /\ docs w' = docs w /\ stdout w' = stdout w /\ cache_dir w' = true
  /\ ((refresh = false
       /\ exists body, cache w !! cache_key h params = Some body /\ r = Ok body
          /\ cache w' = cache w /\ stderr w' = stderr w
          /\ log w' = (log w ++ [CacheRead (cache_key h params)])%list)
      \/ (live h params refresh w
          /\ log w' = (log w ++ [HttpGet params])%list
          /\ ((exists e, r = Err e /\ cache w' = cache w)
              \/ (exists data resp, r = Ok data
                  /\ cache w' = <[cache_key h params := data]> (cache w)
                  /\ stderr w' = stderr w
                  /\ remote h (log w) params = Replied resp
                  /\ raise_for_status h params resp = Ok tt
                  /\ decoded resp = Some data
                  /\ Py.contains "error" data = Ok false)))).
Proof.
  intros r w' H.
  destruct (hit_or_live h params refresh w) as [[-> [body Hb]]|Hl].
  - rewrite (cached_request_hit h params w body Hb) in H. inversion H; subst; clear H.
    simpl. repeat split; try reflexivity. left. split; [reflexivity|].
    exists body. repeat split; auto.
  - rewrite (cached_request_live h params refresh w Hl) in H.
    assert (Herr : forall e, (r, w') = (Err e, after_get params w) ->
      dirs w' = dirs w /\ docs w' = docs w /\ stdout w' = stdout w /\ cache_dir w' = true
      /\ log w' = (log w ++ [HttpGet params])%list /\ r = Err e /\ cache w' = cache w).
    { intros e He. inversion He; subst. simpl. repeat split; reflexivity. }
    assert (Hfin : forall e,
      dirs w' = dirs w /\ docs w' = docs w /\ stdout w' = stdout w /\ cache_dir w' = true
      /\ log w' = (log w ++ [HttpGet params])%list /\ r = Err e /\ cache w' = cache w ->
      dirs w' = dirs w /\ docs w' = docs w /\ stdout w' = stdout w /\ cache_dir w' = true
      /\ ((refresh = false
           /\ exists body, cache w !! cache_key h params = Some body /\ r = Ok body
              /\ cache w' = cache w /\ stderr w' = stderr w
              /\ log w' = (log w ++ [CacheRead (cache_key h params)])%list)
          \/ (live h params refresh w
              /\ log w' = (log w ++ [HttpGet params])%list
              /\ ((exists e, r = Err e /\ cache w' = cache w)
                  \/ (exists data resp, r = Ok data
                      /\ cache w' = <[cache_key h params := data]> (cache w)
                      /\ stderr w' = stderr w
                      /\ remote h (log w) params = Replied resp
                      /\ raise_for_status h params resp = Ok tt
                      /\ decoded resp = Some data
                      /\ Py.contains "error" data = Ok false))))).
    { intros e (H1 & H2 & H3 & H4 & H5 & H6 & H7). repeat split; auto.
      right. repeat split; auto. left. eauto. }
    destruct (remote h (log w) params) as [why|resp] eqn:Hr.
    { symmetry in H. eapply Hfin, Herr, H. }
    destruct (raise_for_status h params resp) as [[]|e] eqn:Hs.
    2:{ destruct (log_http_error_frame h params resp (after_get params w)) as [err Herr'].
        rewrite Herr' in H. simpl in H. inversion H; subst. apply (Hfin e). simpl.
        repeat split; reflexivity. }
    unfold response_json in H. destruct (decoded resp) as [data|] eqn:Hd.
    2:{ symmetry in H. eapply Hfin, Herr, H. }
    destruct (Py.contains "error" data) as [[|]|e] eqn:Hc.
    + destruct (Py.bind _ _) in H; symmetry in H; eapply Hfin, Herr, H.
    + inversion H; subst. simpl. repeat split; try reflexivity.
      right. repeat split; auto. right. exists data, resp. repeat split; auto.
    + symmetry in H. eapply Hfin, Herr, H.
Qed.

Lemma network_requests_app (w w' : world) (e : io) :
  log w' = (log w ++ [e])%list ->
  network_requests w' = (network_requests w + (if is_get e then 1 else 0))%nat.
Proof.
  intros H. unfold network_requests. rewrite H, List.filter_app, length_app. simpl.
  destruct (is_get e); simpl; lia.
Qed.
End CacheContract.

(** C3.  A call without [refresh] that finds an entry under the key returns
    the stored body and makes no network request.  A call with [refresh]
    never reads the cache: its result does not depend on what the cache
    holds and its only access is one request to the wiki; when it succeeds
    the entry holds the fresh body when the call returns.  Two calls without
    [refresh], one after the other, make at most one network request, and
    when both return they return the same body. *)
Theorem cached_request_cache_contract (h : host) (params : descriptor) (w : world) :
  (forall body, cache w !! cache_key h params = Some body ->
     exists w', cached_request h params false w = (Ok body, w')
       /\ network_requests w' = network_requests w
       /\ cache w' = cache w)
  /\ (forall c,
        fst (cached_request h params true (set_cache c w))
        = fst (cached_request h params true w))
  /\ (forall r w', cached_request h params true w = (r, w') ->
        log w' = (log w ++ [HttpGet params])%list
        /\ forall data, r = Ok data ->
             cache w' !! cache_key h params = Some data
             /\ cache w' = <[cache_key h params := data]> (cache w)
             /\ exists resp, remote h (log w) params = Replied resp
                             /\ decoded resp = Some data)
  /\ (forall r w', twice h params w = (r, w') ->
        (network_requests w' <= network_requests w + 1)%nat
        /\ forall b1 b2, r = Ok (b1, b2) -> b1 = b2).
Proof.
  split; [|split; [|split]].
  - intros body Hb. eexists. split; [apply (cached_request_hit h params w body Hb)|].
    split; [|reflexivity].
    unfold network_requests. simpl. rewrite List.filter_app, length_app. simpl. lia.
  - intros c.
    rewrite (cached_request_live h params true (set_cache c w)) by now left.
    rewrite (cached_request_live h params true w) by now left.
    change (log (set_cache c w)) with (log w).
    destruct (remote h (log w) params) as [why|resp]; [reflexivity|].
    destruct (raise_for_status h params resp) as [[]|e]; [|reflexivity].
    destruct (response_json h resp) as [data|e]; [|reflexivity].
    destruct (Py.contains "error" data) as [[|]|e]; try reflexivity.
    destruct (Py.bind _ _); reflexivity.
  - intros r w' H.
    destruct (cached_request_outcome h params true w r w' H)
      as (_ & _ & _ & _ & [[Hf _]|(_ & Hlog & Hres)]); [discriminate|].
    split; [exact Hlog|]. intros data ->.
    destruct Hres as [(e & He & _)|(data' & resp & Hd & Hc & _ & Hr & _ & Hdec & _)];
      [discriminate|].
    inversion Hd; subst data'. rewrite Hc. split; [apply lookup_insert_eq|].
    split; [reflexivity|]. eauto.
  - intros r w' H. unfold twice, bind in H.
    destruct (cached_request h params false w) as [r1 w1] eqn:H1.
    destruct (cached_request_outcome h params false w r1 w1 H1)
      as (_ & _ & _ & _ & [(_ & body & Hb & -> & Hc1 & _ & Hl1)|(_ & Hl1 & Hres)]).
    + assert (Hb1 : cache w1 !! cache_key h params = Some body) by now rewrite Hc1.
      rewrite (cached_request_hit h params w1 body Hb1) in H.
      unfold ret in H. inversion H; subst; clear H. split.
      * unfold network_requests. simpl.
        rewrite Hl1, !List.filter_app, !length_app. simpl. lia.
      * intros b1 b2 Hr. now inversion Hr.
    + destruct Hres as [(e & -> & _)|(data & resp & -> & Hc1 & _)].
      * pose proof (network_requests_app w w1 _ Hl1) as Hn. simpl in Hn.
        inversion H; subst; clear H. split; [lia|intros b1 b2 Hr; discriminate].
      * assert (Hb1 : cache w1 !! cache_key h params = Some data)
          by (rewrite Hc1; apply lookup_insert_eq).
        rewrite (cached_request_hit h params w1 data Hb1) in H.
        unfold ret in H. inversion H; subst; clear H. split.
        -- unfold network_requests. simpl.
           rewrite Hl1, !List.filter_app, !length_app. simpl. lia.
        -- intros b1 b2 Hr. now inversion Hr.
Qed.

Lemma cached_request_cache_contract_witness :
  cache Sample.cached_world !! cache_key Sample.sample_host Sample.D1 = Some (JStr "stored")
  /\ exists w',
       cached_request Sample.sample_host Sample.D1 false Sample.cached_world
       = (Ok (JStr "stored"), w')
       /\ network_requests w' = network_requests Sample.cached_world
       /\ cache w' = cache Sample.cached_world.
Proof.
  assert (Hc : cache Sample.cached_world !! cache_key Sample.sample_host Sample.D1
               = Some (JStr "stored")) by apply lookup_singleton_eq.
  split; [exact Hc|].
  exact (proj1 (cached_request_cache_contract Sample.sample_host Sample.D1
                  Sample.cached_world) (JStr "stored") Hc).
Defined.




(** ** The pagination walker *)

(** C7.  With a limit of zero or less the walker yields no record and leaves
    the world as it found it: no network request, no cache read, not even
    the cache directory is made.  This holds for every prefix, batch size,
    refresh flag and amount of fuel. *)
Theorem iter_pages_nonpositive_limit (h : host) (fuel : nat) (prefix : option string)
    (limit batch_size : Z) (refresh : bool) (w : world) :
  limit <= 0 ->
  NesdevPages.iter_pages h fuel prefix limit batch_size refresh w
  = ([], NesdevPages.Exhausted, w).
Proof.
  intros Hl. unfold NesdevPages.iter_pages.
  assert (Hc : (0 <? limit) = false) by (apply Z.ltb_ge; lia).
  destruct fuel; simpl; now rewrite Hc.
Qed.

Lemma iter_pages_nonpositive_limit_witness :
  -3 <= 0
  /\ NesdevPages.iter_pages Sample.sample_host 0 (Some "PPU") (-3) 10 true Sample.empty_world
     = ([], NesdevPages.Exhausted, Sample.empty_world).
Proof.
  split; [lia|].
  apply (iter_pages_nonpositive_limit Sample.sample_host 0 (Some "PPU") (-3) 10 true
           Sample.empty_world).
  lia.
Defined.

(** C6.  The batch size the user gives is clamped before the walker sees
    it: above 500 it becomes 500, at zero or below it becomes 1, and from 1
    to 500 it is kept; [main] hands the clamped value to [iter_pages]. *)
Theorem clamp_batch_size_used (h : host) (fuel : nat) (args : NesdevPages.list_args)
    (w : world) (batch : Z) :
  (500 < batch -> NesdevPages.clamp_batch_size batch = 500)
  /\ (batch <= 0 -> NesdevPages.clamp_batch_size batch = 1)
  /\ (1 <= batch <= 500 -> NesdevPages.clamp_batch_size batch = batch)
  /\ NesdevPages.main h fuel args w
     = match NesdevPages.iter_pages h fuel (NesdevPages.arg_prefix args)
               (NesdevPages.arg_limit args)
               (NesdevPages.clamp_batch_size (NesdevPages.arg_batch_size args))
               (NesdevPages.arg_refresh args) w with
       | (pages_list, NesdevPages.Exhausted, w') =>
           run_command h
             (NesdevPages.output_list h pages_list (NesdevPages.arg_output_format args)) w'
       | (_, NesdevPages.Raised e, w') => handle h (Err e) w'
       | (_, NesdevPages.OutOfFuel, w') => (Running, w')
       end.
Proof.
  unfold NesdevPages.clamp_batch_size, NesdevPages.MAX_BATCH_SIZE.
  repeat split; try lia.
  unfold NesdevPages.main, NesdevPages.command_list, run_command. simpl.
  destruct (NesdevPages.iter_pages _ _ _ _ _ _ _) as [[pages_list [| e |]] w']; try reflexivity.
  destruct (NesdevPages.output_list _ _ _ _); reflexivity.
Qed.

Lemma clamp_batch_size_used_witness :
  (500 < 9000 /\ NesdevPages.clamp_batch_size 9000 = 500)
  /\ (-4 <= 0 /\ NesdevPages.clamp_batch_size (-4) = 1)
  /\ (1 <= 37 <= 500 /\ NesdevPages.clamp_batch_size 37 = 37).
Proof.
  pose (a := {| NesdevPages.arg_prefix := None; NesdevPages.arg_limit := 50;
                NesdevPages.arg_batch_size := 9000;
                NesdevPages.arg_output_format := "text";
                NesdevPages.arg_refresh := false |}).
  split; [|split].
  - split; [lia|].
    apply (proj1 (clamp_batch_size_used Sample.sample_host 0 a Sample.empty_world 9000)). lia.
  - split; [lia|].
    apply (proj1 (proj2 (clamp_batch_size_used Sample.sample_host 0 a Sample.empty_world (-4)))).
    lia.
  - split; [lia|].
    apply (proj1 (proj2 (proj2 (clamp_batch_size_used Sample.sample_host 0 a
                                  Sample.empty_world 37)))).
    lia.
Defined.

(** ** The document writer *)

Section DocumentFacts.
Context (h : host).

Lemma metadata_lines_spec (metadata : Dict.t json) :
  metadata_lines h metadata = spec_metadata_lines h metadata.
Proof.
  unfold spec_metadata_lines. induction metadata as [|[k v] rest IH]; simpl; [reflexivity|].
  destruct (is_none v); simpl; now rewrite IH.
Qed.

Lemma join_lines (lines : list string) (last : string) :
  PyStr.join PyStr.nl (lines ++ [last])%list = lines_text lines +:+ last.
Proof.
  induction lines as [|x rest IH]; [reflexivity|].
  change ((x :: rest) ++ [last])%list with (x :: (rest ++ [last]))%list.
  destruct (rest ++ [last])%list as [|y l] eqn:E.
  - destruct rest; discriminate.
  - change (PyStr.join PyStr.nl (x :: y :: l))
      with (x +:+ PyStr.nl +:+ PyStr.join PyStr.nl (y :: l)).
    rewrite IH. simpl. now rewrite ?append_assoc.
Qed.

Lemma format_metadata_wikitext_spec (metadata : Dict.t json) :
  format_metadata_wikitext h metadata = spec_block h metadata.
Proof.
  unfold format_metadata_wikitext, spec_block. cbv zeta.
  change (["{{Page metadata"] ++ metadata_lines h metadata ++ ["}}"])%list
    with (("{{Page metadata" :: metadata_lines h metadata) ++ ["}}"])%list.
  rewrite join_lines, metadata_lines_spec. simpl. now rewrite ?append_assoc.
Qed.

Lemma rstrip_nl_split (s : string) :
  exists n, s = PyStr.rstrip_nl s +:+ newlines n.
Proof.
  induction s as [|c s [n IH]]; simpl.
  - exists O. reflexivity.
  - destruct (PyStr.rstrip_nl s) as [|d r] eqn:E.
    + destruct (Ascii.eqb_spec c PyStr.newline) as [->|Hc].
      * exists (S n). simpl in *. now f_equal.
      * exists n. simpl in *. now f_equal.
    + exists n. simpl in *. now f_equal.
Qed.

Lemma rstrip_nl_no_trailing (s t : string) :
  PyStr.rstrip_nl s <> t +:+ PyStr.nl.
Proof.
  revert t. induction s as [|c s IH]; intros t; simpl.
  - destruct t; discriminate.
  - destruct (PyStr.rstrip_nl s) as [|d r] eqn:E.
    + destruct (Ascii.eqb_spec c PyStr.newline) as [->|Hc].
      * destruct t; discriminate.
      * destruct t as [|x [|y t]]; simpl; try discriminate.
        intros H. inversion H. contradiction.
    + destruct t as [|x t]; simpl; [discriminate|].
      intros H. inversion H as [[Hx Ht]]. apply (IH t). exact Ht.
Qed.

Lemma metadata_line_present (metadata : Dict.t json) (k : string) (v : json) :
  In (k, v) metadata -> is_none v = false ->
  In (" | " +:+ k +:+ " = " +:+ format_value h v) (spec_metadata_lines h metadata).
Proof.
  intros Hin Hv. unfold spec_metadata_lines.
  apply (in_map (fun kv => " | " +:+ fst kv +:+ " = " +:+ format_value h (snd kv))
           _ (k, v)).
  apply List.filter_In. split; [exact Hin|]. simpl. now rewrite Hv.
Qed.
End DocumentFacts.

(** What [fetch_wikitext] returns is a parse object and a value that is
    not null. *)
Lemma fetch_wikitext_parsed (h : host) (title : string) (refresh : bool) (w w1 : world)
    (parsed wikitext : json) :
  fetch_wikitext h title refresh w = (Ok (parsed, wikitext), w1) ->
  (exists d, parsed = JObj d) /\ is_none wikitext = false.
Proof.
  unfold fetch_wikitext, bind, lift, raise, ret.
  destruct (cached_request h _ refresh w) as [[data|e] w0]; [|discriminate].
  destruct (Py.get data "parse" JNull) as [p|e]; [|discriminate].
  destruct (negb (Py.truthy p)); [discriminate|].
  destruct (Py.get p "wikitext" (JObj [])) as [wt|e] eqn:Hwt; [|discriminate].
  destruct (Py.get wt "*" JNull) as [star|e]; [|discriminate].
  destruct (is_none star) eqn:Hn; [discriminate|].
  intros H. inversion H; subst. split; [|exact Hn].
  destruct parsed; try discriminate. eauto.
Qed.

(** The save, once the page is fetched: the document is written at the
    slug of the page's title under the output directory, when the file can
    be opened there. *)
Lemma save_wikitext_document_run (h : host) (title : string) (refresh : bool)
    (w w1 : world) (parsed : json) (text t : string) :
  fetch_wikitext h title refresh w = (Ok (parsed, JStr text), w1) ->
  wiki_title parsed title = Some t ->
  let dir := output_dir h in
  let path := path_join h dir (underscored t +:+ ".wikitext") in
  let made := set_dirs ({[dir]} ∪ dirs w1) w1 in
  Nesdev.save_wikitext_document h title refresh w
  = match open_error h ({[dir]} ∪ dirs w1) path with
    | None =>
        (Ok path,
         set_docs (<[path := spec_document h
                               (document_metadata parsed (JStr "NESDev contributors")
                                  (utc_today h (log w1)) t) text]> (docs w1)) made)
    | Some name => (Err (PyError name), made)
    end.
Proof.
  intros Hf Ht dir path made.
  unfold Nesdev.save_wikitext_document. unfold bind at 1. rewrite Hf.
  simpl fst. simpl snd.
  destruct parsed as [| | | | |d]; try discriminate.
  assert (Hpt : Nesdev.parsed_title (JObj d) title = Ok (JStr t)).
  { unfold Nesdev.parsed_title, Py.get. simpl in Ht.
    destruct (Dict.get "title" d) as [[| | |t'| |]|]; try discriminate; now inversion Ht. }
  rewrite Hpt. simpl Py.bind. unfold title_to_slug, Py.replace.
  rewrite replace_space_underscored.
  unfold bind, lift, Nesdev.mkdir, Nesdev.write_file, Nesdev.today, ret, Py.get, Py.rstrip_nl.
  simpl dirs. simpl log. simpl docs. fold dir. fold path.
  rewrite format_metadata_wikitext_spec.
  destruct (open_error h ({[dir]} ∪ dirs w1) path); reflexivity.
Qed.

(** What a save that returns has done. *)
Lemma save_wikitext_document_ok (h : host) (title : string) (refresh : bool)
    (w : world) (path : string) (w' : world) :
  Nesdev.save_wikitext_document h title refresh w = (Ok path, w') ->
  exists parsed text w1 t,
    fetch_wikitext h title refresh w = (Ok (parsed, JStr text), w1)
    /\ wiki_title parsed title = Some t
    /\ path = path_join h (output_dir h) (underscored t +:+ ".wikitext")
    /\ open_error h ({[output_dir h]} ∪ dirs w1) path = None
    /\ w' = set_docs (<[path := spec_document h
                                  (document_metadata parsed (JStr "NESDev contributors")
                                     (utc_today h (log w1)) t) text]> (docs w1))
              (set_dirs ({[output_dir h]} ∪ dirs w1) w1).
Proof.
  intros H.
  destruct (fetch_wikitext h title refresh w) as [[[parsed wikitext]|e] w1] eqn:Hf.
  2:{ unfold Nesdev.save_wikitext_document in H. unfold bind at 1 in H.
      rewrite Hf in H. discriminate. }
  destruct (fetch_wikitext_parsed h title refresh w w1 parsed wikitext Hf) as [[d ->] Hn].
  assert (Ht : exists t, wiki_title (JObj d) title = Some t).
  { simpl. destruct (Dict.get "title" d) as [[| | |t| |]|] eqn:E; eauto;
      exfalso; unfold Nesdev.save_wikitext_document in H; unfold bind at 1 in H;
      rewrite Hf in H; simpl fst in H; unfold Nesdev.parsed_title, Py.get in H;
      rewrite E in H; discriminate. }
  destruct Ht as [t Ht].
  assert (Hw : exists text, wikitext = JStr text).
  { destruct wikitext as [| | |text| |]; eauto;
      exfalso; unfold Nesdev.save_wikitext_document in H; unfold bind at 1 in H;
      rewrite Hf in H; simpl fst in H; simpl snd in H;
      assert (Hpt : Nesdev.parsed_title (JObj d) title = Ok (JStr t))
        by (unfold Nesdev.parsed_title, Py.get; simpl in Ht;
            destruct (Dict.get "title" d) as [[| | |t'| |]|]; try discriminate;
            now inversion Ht);
      rewrite Hpt in H;
      unfold bind, lift, Nesdev.mkdir, Nesdev.today, Py.get, Py.rstrip_nl in H;
      simpl in H; discriminate. }
  destruct Hw as [text ->].
  rewrite (save_wikitext_document_run h title refresh w w1 (JObj d) text t Hf Ht) in H.
  cbv zeta in H.
  destruct (open_error h _ _) eqn:Ho; [discriminate|].
  inversion H; subst. exists (JObj d), text, w1, t. repeat split; auto.
Qed.

(** C5.  The saved document is the metadata block (one [ | key = value]
    line for each entry that is not null, in insertion order, between
    [{{Page metadata] and [}}]), one blank line, the markup without its
    trailing newlines, and one newline.  The trimmed markup is the markup
    less a run of newlines and does not end with one.  The file a save
    writes holds that document for the metadata of the page: the title,
    page id and revision id the wiki gave, the author, the date of the
    save and the source URL, and the markup the wiki gave.  A title
    [Foo Bar] and an author [X] give the lines [ | title = Foo Bar] and
    [ | author = X]. *)
Theorem saved_document_layout (h : host) (metadata : Dict.t json) (markup : string) :
  format_metadata_wikitext h metadata +:+ PyStr.nl +:+ PyStr.nl
    +:+ PyStr.rstrip_nl markup +:+ PyStr.nl
  = spec_document h metadata markup
  /\ (exists n, markup = PyStr.rstrip_nl markup +:+ newlines n)
  /\ (forall t, PyStr.rstrip_nl markup <> t +:+ PyStr.nl)
  /\ (forall k v, In (k, v) metadata -> is_none v = false ->
        In (" | " +:+ k +:+ " = " +:+ format_value h v) (spec_metadata_lines h metadata))
  /\ (forall title refresh w path w',
        Nesdev.save_wikitext_document h title refresh w = (Ok path, w') ->
        exists parsed text w1 t,
          fetch_wikitext h title refresh w = (Ok (parsed, JStr text), w1)
          /\ wiki_title parsed title = Some t
          /\ path = path_join h (output_dir h) (underscored t +:+ ".wikitext")
          /\ docs w' !! path
             = Some (spec_document h
                       (document_metadata parsed (JStr "NESDev contributors")
                          (utc_today h (log w1)) t) text))
  /\ format_metadata_wikitext h
       [("title", JStr "Foo Bar"); ("author", JStr "X"); ("date", JStr "2024-01-01")]
     = "{{Page metadata" +:+ PyStr.nl +:+ " | title = Foo Bar" +:+ PyStr.nl
       +:+ " | author = X" +:+ PyStr.nl +:+ " | date = 2024-01-01" +:+ PyStr.nl +:+ "}}".
Proof.
  split; [|split; [|split; [|split; [|split]]]].
  - rewrite format_metadata_wikitext_spec. reflexivity.
  - apply rstrip_nl_split.
  - apply rstrip_nl_no_trailing.
  - apply metadata_line_present.
  - intros title refresh w path w' H.
    destruct (save_wikitext_document_ok h title refresh w path w' H)
      as (parsed & text & w1 & t & Hf & Ht & Hp & _ & ->).
    exists parsed, text, w1, t. split; [exact Hf|]. split; [exact Ht|].
    split; [exact Hp|]. simpl. apply lookup_insert_eq.
  - reflexivity.
Qed.

Lemma saved_document_layout_witness :
  (In ("author", JStr "X") [("title", JStr "Foo Bar"); ("author", JStr "X")]
   /\ is_none (JStr "X") = false
   /\ In " | author = X"
        (spec_metadata_lines Sample.sample_host
           [("title", JStr "Foo Bar"); ("author", JStr "X")]))
  /\ exists w',
       Nesdev.save_wikitext_document Sample.sample_host "Foo Bar" false Sample.empty_world
       = (Ok "assets/nesdev/Foo_Bar.wikitext", w')
       /\ docs w' !! "assets/nesdev/Foo_Bar.wikitext"
          = Some ("{{Page metadata" +:+ PyStr.nl
                  +:+ " | title = Foo Bar" +:+ PyStr.nl
                  +:+ " | author = NESDev contributors" +:+ PyStr.nl
                  +:+ " | date = 2024-01-01" +:+ PyStr.nl
                  +:+ " | source = https://www.nesdev.org/wiki/Foo_Bar" +:+ PyStr.nl
                  +:+ " | pageid = 7" +:+ PyStr.nl
                  +:+ " | revid = 9" +:+ PyStr.nl
                  +:+ "}}" +:+ PyStr.nl
                  +:+ PyStr.nl
                  +:+ "Some text" +:+ PyStr.nl).
Proof.
  split.
  - assert (Hin : In ("author", JStr "X") [("title", JStr "Foo Bar"); ("author", JStr "X")])
      by (simpl; auto).
    split; [exact Hin|]. split; [reflexivity|].
    exact (proj1 (proj2 (proj2 (proj2 (saved_document_layout Sample.sample_host
             [("title", JStr "Foo Bar"); ("author", JStr "X")] EmptyString))))
             "author" (JStr "X") Hin eq_refl).
  - destruct (Nesdev.save_wikitext_document Sample.sample_host "Foo Bar" false
                Sample.empty_world) as [r w'] eqn:E.
    assert (Hr : r = Ok "assets/nesdev/Foo_Bar.wikitext").
    { change r with (fst (r, w')). rewrite <- E. vm_compute. reflexivity. }
    subst r. exists w'. split; [reflexivity|].
    destruct (proj1 (proj2 (proj2 (proj2 (proj2 (saved_document_layout Sample.sample_host
                [] EmptyString))))) "Foo Bar" false Sample.empty_world _ w' E)
      as (parsed & text & w1 & t & Hf & Ht & Hp & Hd).
    assert (Hfetch : fetch_wikitext Sample.sample_host "Foo Bar" false Sample.empty_world
                     = (Ok (entry (Sample.parse_reply "Foo Bar") "parse",
                            JStr ("Some text" +:+ PyStr.nl +:+ PyStr.nl)),
                        set_cache {[cache_key Sample.sample_host (Sample.parse_query "Foo Bar")
                                    := Sample.parse_reply "Foo Bar"]}
                          (after_get (Sample.parse_query "Foo Bar") Sample.empty_world)))
      by (vm_compute; reflexivity).
    rewrite Hfetch in Hf. inversion Hf; subst parsed text w1.
    vm_compute in Ht. inversion Ht; subst t.
    rewrite Hd. vm_compute. reflexivity.
Defined.

(** ** Search, save and grab *)

Section Frames.
Context (h : host).

Lemma keeps_docs_ret {A : Type} (a : A) : keeps_docs (ret a).
Proof. intros w r w' H. inversion H. auto. Qed.

Lemma keeps_docs_raise {A : Type} (e : exn) : keeps_docs (@raise A e).
Proof. intros w r w' H. inversion H. auto. Qed.

Lemma keeps_docs_lift {A : Type} (x : result A) : keeps_docs (lift x).
Proof. intros w r w' H. inversion H. auto. Qed.

Lemma keeps_docs_write (s : string) : keeps_docs (write s).
Proof. intros w r w' H. inversion H. auto. Qed.

Lemma keeps_docs_print (s : string) : keeps_docs (print s).
Proof. apply keeps_docs_write. Qed.

Lemma keeps_docs_bind {A B : Type} (c : M A) (k : A -> M B) :
  keeps_docs c -> (forall a, keeps_docs (k a)) -> keeps_docs (bind c k).
Proof.
  intros Hc Hk w r w' H. unfold bind in H.
  destruct (c w) as [[a|e] w1] eqn:E.
  - destruct (Hc _ _ _ E) as [H1 H2]. destruct (Hk a _ _ _ H) as [H3 H4].
    split; congruence.
  - inversion H; subst. exact (Hc _ _ _ E).
Qed.

Lemma keeps_docs_cached_request (params : descriptor) (refresh : bool) :
  keeps_docs (cached_request h params refresh).
Proof.
  intros w r w' H.
  destruct (cached_request_outcome h params refresh w r w' H) as (H1 & H2 & _). auto.
Qed.

Lemma keeps_docs_search_pages (term : string) (limit : Z) (refresh : bool) :
  keeps_docs (Nesdev.search_pages h term limit refresh).
Proof.
  unfold Nesdev.search_pages.
  apply keeps_docs_bind; [apply keeps_docs_cached_request|]. intros data.
  apply keeps_docs_bind; [apply keeps_docs_lift|]. intros query.
  apply keeps_docs_lift.
Qed.

Lemma keeps_docs_fetch_wikitext (title : string) (refresh : bool) :
  keeps_docs (fetch_wikitext h title refresh).
Proof.
  unfold fetch_wikitext.
  apply keeps_docs_bind; [apply keeps_docs_cached_request|]. intros data.
  apply keeps_docs_bind; [apply keeps_docs_lift|]. intros parsed.
  destruct (negb (Py.truthy parsed)); [apply keeps_docs_raise|].
  apply keeps_docs_bind; [apply keeps_docs_lift|]. intros wt.
  apply keeps_docs_bind; [apply keeps_docs_lift|]. intros wikitext.
  destruct (is_none wikitext); [apply keeps_docs_raise | apply keeps_docs_ret].
Qed.

Lemma keeps_docs_print_result (idx : Z) (result : json) :
  keeps_docs (Nesdev.print_result h idx result).
Proof.
  unfold Nesdev.print_result.
  apply keeps_docs_bind; [apply keeps_docs_lift|]. intros t.
  apply keeps_docs_bind; [apply keeps_docs_lift|]. intros raw.
  apply keeps_docs_bind; [apply keeps_docs_lift|]. intros s1.
  apply keeps_docs_bind; [apply keeps_docs_lift|]. intros slug.
  apply keeps_docs_bind; [apply keeps_docs_print|]. intros _.
  apply keeps_docs_bind.
  { destruct (negb _); [apply keeps_docs_print | apply keeps_docs_ret]. }
  intros _.
  apply keeps_docs_bind; [apply keeps_docs_print|]. intros _.
  apply keeps_docs_print.
Qed.

Lemma keeps_docs_print_results_from (results : list json) (idx : Z) :
  keeps_docs (Nesdev.print_results_from h idx results).
Proof.
  revert idx. induction results as [|r rest IH]; intros idx; simpl.
  - apply keeps_docs_ret.
  - apply keeps_docs_bind; [apply keeps_docs_print_result|]. intros _. apply IH.
Qed.

Lemma keeps_docs_print_search_results (results : json) :
  keeps_docs (Nesdev.print_search_results h results).
Proof.
  unfold Nesdev.print_search_results.
  destruct (negb (Py.truthy results)); [apply keeps_docs_print|].
  destruct results; try apply keeps_docs_raise. apply keeps_docs_print_results_from.
Qed.

(** Well-formed results are all printed. *)
Lemma print_result_ok (idx : Z) (result : json) (w : world) :
  is_search_result result = true ->
  exists w', Nesdev.print_result h idx result w = (Ok tt, w').
Proof.
  destruct result as [| | | | |d]; simpl; try discriminate.
  unfold Nesdev.print_result, bind, lift, Py.subscript, Py.get, title_to_slug, print, write.
  destruct (Dict.get "title" d) as [[| | |t| |]|]; try discriminate.
  destruct (Dict.get "snippet" d) as [[| | |s| |]|]; try discriminate; intros _; simpl.
  - destruct (negb _); simpl; eauto.
  - eauto.
Qed.

Lemma print_results_from_ok (results : list json) (idx : Z) (w : world) :
  forallb is_search_result results = true ->
  exists w', Nesdev.print_results_from h idx results w = (Ok tt, w').
Proof.
  revert idx w. induction results as [|r rest IH]; intros idx w; simpl.
  - intros _. eexists. reflexivity.
  - intros H. apply andb_prop in H as [Hr Hrest]. unfold bind.
    destruct (print_result_ok idx r w Hr) as [w1 ->]. apply IH, Hrest.
Qed.
End Frames.

(** The only file a search may write is the cache entry of its request. *)
Lemma search_pages_cache (h : host) (term : string) (limit : Z) (refresh : bool)
    (w w1 : world) (r : result json) :
  Nesdev.search_pages h term limit refresh w = (r, w1) ->
  cache w1 = cache w
  \/ exists data,
       cache w1
       = <[cache_key h [("action", "query"); ("format", "json"); ("list", "search");
                        ("srsearch", term); ("srlimit", PyStr.of_int limit)] := data]>
           (cache w).
Proof.
  unfold Nesdev.search_pages, bind at 1. intros H.
  destruct (cached_request h _ refresh w) as [r0 w0] eqn:Hc.
  assert (Hw : w1 = w0).
  { destruct r0 as [data|e]; [|now inversion H].
    unfold bind, lift in H. destruct (Py.get data "query" (JObj [])); now inversion H. }
  subst w0.
  destruct (cached_request_outcome h _ refresh w _ _ Hc)
    as (_ & _ & _ & _ & [(_ & body & _ & _ & Hk & _)|(_ & _ & [(e & _ & Hk)|Hok])]).
  - now left.
  - now left.
  - destruct Hok as (data & resp & _ & Hk & _). right. now exists data.
Qed.

(** C9 as it is stated fails where it says that no file at all is written:
    with an empty cache the search of [grab] stores the answer of the wiki,
    an empty result list, in a new cache file, and [main] exits with 0. *)
Lemma grab_no_results_counterexample :
  fst (Nesdev.search_pages Sample.sample_host "nothing" 20 false Sample.empty_world)
  = Ok (JArr [])
  /\ fst (Nesdev.main Sample.sample_host false (Nesdev.Grab "nothing" 20 (Some 5))
            Sample.empty_world) = Exit 0
  /\ cache Sample.empty_world
       !! cache_key Sample.sample_host
            [("action", "query"); ("format", "json"); ("list", "search");
             ("srsearch", "nothing"); ("srlimit", "20")] = None
  /\ cache (snd (Nesdev.main Sample.sample_host false (Nesdev.Grab "nothing" 20 (Some 5))
                   Sample.empty_world))
       !! cache_key Sample.sample_host
            [("action", "query"); ("format", "json"); ("list", "search");
             ("srsearch", "nothing"); ("srlimit", "20")]
     = Some (Sample.search_reply "nothing").
Proof.
  split; [vm_compute; reflexivity|]. split; [vm_compute; reflexivity|].
  split; [apply lookup_empty|]. vm_compute. reflexivity.
Qed.

(** C9, amended.  When the search returns no result, [grab] returns
    normally and [main] exits with 0 whatever the pick is: the pick is not
    looked at, the only output is the line that says so, no document is
    written and no output directory is made.  The only file that may have
    been written is the cache entry of the search request. *)
Theorem grab_no_results (h : host) (term : string) (limit : Z) (pick : option Z)
    (refresh : bool) (w w1 : world) :
  Nesdev.search_pages h term limit refresh w = (Ok (JArr []), w1) ->
  Nesdev.command_grab h term limit pick refresh w
  = (Ok tt, set_stdout (stdout w1 ++ ["No results found." +:+ PyStr.nl]) w1)
  /\ Nesdev.main h refresh (Nesdev.Grab term limit pick) w
     = (Exit 0, set_stdout (stdout w1 ++ ["No results found." +:+ PyStr.nl]) w1)
  /\ docs w1 = docs w /\ dirs w1 = dirs w
  /\ (cache w1 = cache w
      \/ exists data,
           cache w1
           = <[cache_key h [("action", "query"); ("format", "json"); ("list", "search");
                            ("srsearch", term); ("srlimit", PyStr.of_int limit)] := data]>
               (cache w)).
Proof.
  intros Hs.
  assert (Hg : Nesdev.command_grab h term limit pick refresh w
               = (Ok tt, set_stdout (stdout w1 ++ ["No results found." +:+ PyStr.nl]) w1)).
  { unfold Nesdev.command_grab, bind at 1. rewrite Hs. reflexivity. }
  split; [exact Hg|]. split; [|split; [|split]].
  - unfold Nesdev.main, run_command. rewrite Hg. reflexivity.
  - exact (proj1 (keeps_docs_search_pages h term limit refresh w _ _ Hs)).
  - exact (proj2 (keeps_docs_search_pages h term limit refresh w _ _ Hs)).
  - exact (search_pages_cache h term limit refresh w w1 _ Hs).
Qed.

Lemma grab_no_results_witness :
  exists w1,
    Nesdev.search_pages Sample.sample_host "nothing" 20 false Sample.empty_world
    = (Ok (JArr []), w1)
    /\ Nesdev.main Sample.sample_host false (Nesdev.Grab "nothing" 20 (Some 5))
         Sample.empty_world
       = (Exit 0, set_stdout (stdout w1 ++ ["No results found." +:+ PyStr.nl]) w1).
Proof.
  destruct (Nesdev.search_pages Sample.sample_host "nothing" 20 false Sample.empty_world)
    as [r w1] eqn:E.
  assert (Hr : r = Ok (JArr [])).
  { change r with (fst (r, w1)). rewrite <- E. vm_compute. reflexivity. }
  subst r. exists w1. split; [reflexivity|].
  exact (proj1 (proj2 (grab_no_results Sample.sample_host "nothing" 20 (Some 5) false
                         Sample.empty_world w1 E))).
Defined.

(** C8 as the specification states it fails on an empty result list: a
    pick of 5 is greater than the number of results, which is 0, and [grab]
    returns normally with exit code 0, reporting no error. *)
Lemma grab_pick_out_of_range_counterexample :
  fst (Nesdev.search_pages Sample.sample_host "nothing" 20 false Sample.empty_world)
  = Ok (JArr [])
  /\ Z.of_nat (length (@nil json)) < 5
  /\ fst (Nesdev.command_grab Sample.sample_host "nothing" 20 (Some 5) false
            Sample.empty_world) = Ok tt
  /\ fst (Nesdev.main Sample.sample_host false (Nesdev.Grab "nothing" 20 (Some 5))
            Sample.empty_world) = Exit 0
  /\ stderr (snd (Nesdev.main Sample.sample_host false (Nesdev.Grab "nothing" 20 (Some 5))
                    Sample.empty_world)) = [].
Proof.
  split; [vm_compute; reflexivity|]. split; [simpl; lia|].
  split; [vm_compute; reflexivity|]. split; vm_compute; reflexivity.
Qed.

(** C8, amended.  For every non-empty list of search results and every pick
    that is out of range (zero, negative, or greater than the number of
    results), [grab] raises the [WikiError] that names the pick and the
    number of results, [main] reports it on the error stream and exits with
    1, and no document is written and no output directory is made. *)
Theorem grab_pick_out_of_range (h : host) (term : string) (limit pick : Z)
    (refresh : bool) (w w1 : world) (items : list json) :
  Nesdev.search_pages h term limit refresh w = (Ok (JArr items), w1) ->
  items <> [] ->
  forallb is_search_result items = true ->
  pick <= 0 \/ Z.of_nat (length items) < pick ->
  exists w2,
    Nesdev.command_grab h term limit (Some pick) refresh w
    = (Err (WikiError (JStr (pick_message pick (Z.of_nat (length items))))), w2)
    /\ docs w2 = docs w /\ dirs w2 = dirs w
    /\ Nesdev.main h refresh (Nesdev.Grab term limit (Some pick)) w
       = (Exit 1,
          set_stderr (stderr w2 ++ [("Error: "
                        +:+ pick_message pick (Z.of_nat (length items))) +:+ PyStr.nl]) w2).
Proof.
  intros Hs Hne Hwf Hp.
  destruct (print_results_from_ok h items 1 w1 Hwf) as [w2 Hpr].
  assert (Hg : Nesdev.command_grab h term limit (Some pick) refresh w
               = (Err (WikiError (JStr (pick_message pick (Z.of_nat (length items))))), w2)).
  { unfold Nesdev.command_grab, bind at 1. rewrite Hs.
    unfold bind at 1, Nesdev.print_search_results.
    destruct items as [|r items]; [contradiction|].
    change (negb (Py.truthy (JArr (r :: items)))) with false. cbv iota.
    rewrite Hpr. unfold bind, lift, Nesdev.len.
    assert (Hc : (pick - 1 <? 0) || (Z.of_nat (length (r :: items)) <=? pick - 1) = true).
    { apply orb_true_iff. destruct Hp; [left; apply Z.ltb_lt | right; apply Z.leb_le]; lia. }
    rewrite Hc. reflexivity. }
  exists w2. split; [exact Hg|].
  assert (Hd : docs w2 = docs w /\ dirs w2 = dirs w).
  { destruct (keeps_docs_search_pages h term limit refresh w _ _ Hs) as [H1 H2].
    assert (Hk : keeps_docs (Nesdev.print_search_results h (JArr items))).
    { apply keeps_docs_print_search_results. }
    unfold Nesdev.print_search_results in Hk.
    destruct items as [|r items]; [contradiction|].
    change (negb (Py.truthy (JArr (r :: items)))) with false in Hk. cbv iota in Hk.
    destruct (Hk _ _ _ Hpr) as [H3 H4]. split; congruence. }
  destruct Hd as [Hd1 Hd2]. split; [exact Hd1|]. split; [exact Hd2|].
  unfold Nesdev.main, run_command. rewrite Hg. reflexivity.
Qed.

Lemma grab_pick_out_of_range_witness :
  exists w1 items,
    Nesdev.search_pages Sample.sample_host "PPU" 20 false Sample.empty_world
    = (Ok (JArr items), w1)
    /\ items <> [] /\ forallb is_search_result items = true
    /\ (3 <= 0 \/ Z.of_nat (length items) < 3)
    /\ fst (Nesdev.main Sample.sample_host false (Nesdev.Grab "PPU" 20 (Some 3))
              Sample.empty_world) = Exit 1.
Proof.
  destruct (Nesdev.search_pages Sample.sample_host "PPU" 20 false Sample.empty_world)
    as [r w1] eqn:E.
  assert (Hr : r = Ok (JArr [Sample.hit "PPU registers"; Sample.hit "PPU scrolling"])).
  { change r with (fst (r, w1)). rewrite <- E. vm_compute. reflexivity. }
  subst r. exists w1, [Sample.hit "PPU registers"; Sample.hit "PPU scrolling"].
  assert (H1 : [Sample.hit "PPU registers"; Sample.hit "PPU scrolling"] <> []) by discriminate.
  assert (H2 : forallb is_search_result
                 [Sample.hit "PPU registers"; Sample.hit "PPU scrolling"] = true)
    by reflexivity.
  assert (H3 : 3 <= 0 \/ Z.of_nat (length
                 [Sample.hit "PPU registers"; Sample.hit "PPU scrolling"]) < 3)
    by (right; simpl; lia).
  split; [reflexivity|]. split; [exact H1|]. split; [exact H2|]. split; [exact H3|].
  destruct (grab_pick_out_of_range Sample.sample_host "PPU" 20 3 false Sample.empty_world
              w1 _ E H1 H2 H3) as (w2 & _ & _ & _ & ->).
  reflexivity.
Defined.

(** A save whose fetch fails stops there. *)
Lemma save_stops_at_fetch (h : host) (title : string) (refresh : bool) (w w1 : world)
    (e : exn) :
  fetch_wikitext h title refresh w = (Err e, w1) ->
  Nesdev.save_wikitext_document h title refresh w = (Err e, w1)
  /\ docs w1 = docs w /\ dirs w1 = dirs w.
Proof.
  intros Hf. split.
  - unfold Nesdev.save_wikitext_document, bind at 1. now rewrite Hf.
  - exact (keeps_docs_fetch_wikitext h title refresh w _ _ Hf).
Qed.

Lemma fetch_wikitext_lacking (h : host) (title : string) (refresh : bool) (w w1 : world)
    (data : json) :
  cached_request h [("action", "parse"); ("format", "json"); ("page", title);
                    ("prop", "wikitext")] refresh w = (Ok data, w1) ->
  lacks_wikitext data ->
  exists msg, fetch_wikitext h title refresh w = (Err (WikiError (JStr msg)), w1).
Proof.
  intros Hc Hl. unfold fetch_wikitext, bind at 1. rewrite Hc.
  unfold bind, lift.
  destruct Hl as [d Hp|d p Hp Hf|d p Hp Hw|d p wt Hp Hw Hs|d p wt Hp Hw Hs];
    simpl; rewrite Hp.
  - eexists. reflexivity.
  - rewrite Hf. eexists. reflexivity.
  - destruct (Py.truthy (JObj p)); simpl; [|eexists; reflexivity].
    rewrite Hw. simpl. eexists. reflexivity.
  - destruct (Py.truthy (JObj p)); simpl; [|eexists; reflexivity].
    rewrite Hw. simpl. rewrite Hs. simpl. eexists. reflexivity.
  - destruct (Py.truthy (JObj p)); simpl; [|eexists; reflexivity].
    rewrite Hw. simpl. rewrite Hs. simpl. eexists. reflexivity.
Qed.

Lemma fetch_wikitext_misshapen (h : host) (title : string) (refresh : bool) (w w1 : world)
    (data : json) :
  cached_request h [("action", "parse"); ("format", "json"); ("page", title);
                    ("prop", "wikitext")] refresh w = (Ok data, w1) ->
  misshapen data ->
  fetch_wikitext h title refresh w = (Err (PyError "AttributeError"), w1).
Proof.
  intros Hc Hm. unfold fetch_wikitext, bind at 1. rewrite Hc.
  unfold bind, lift.
  destruct Hm as [data Hn|d p Hp Ht Hn|d p wt Hp Hne Hw Hn].
  - destruct data as [| | | | |d]; try reflexivity. exfalso. exact (Hn d eq_refl).
  - simpl. rewrite Hp, Ht. simpl.
    destruct p as [| | | | |m]; try reflexivity. exfalso. exact (Hn m eq_refl).
  - simpl. rewrite Hp.
    assert (Ht : Py.truthy (JObj p) = true) by (destruct p; [contradiction | reflexivity]).
    rewrite Ht. simpl. rewrite Hw.
    destruct wt as [| | | | |m]; try reflexivity. exfalso. exact (Hn m eq_refl).
Qed.

(** Every body lacks the wikitext, is misshapen, or has the wikitext. *)
Lemma body_kinds (data : json) :
  lacks_wikitext data \/ misshapen data \/ has_wikitext data.
Proof.
  destruct data as [| | | | |d];
    try (right; left; apply body_not_object; intros d' Hd; discriminate).
  destruct (Dict.get "parse" d) as [p|] eqn:Hp; [|left; now apply no_parse].
  destruct (Py.truthy p) eqn:Ht; [|left; now apply (empty_parse d p)].
  destruct p as [| | | | |m];
    try (right; left; apply (parse_not_object d _ Hp Ht); intros m' Hm; discriminate).
  assert (Hne : m <> []) by (destruct m; [discriminate | discriminate]).
  destruct (Dict.get "wikitext" m) as [wt|] eqn:Hw; [|left; now apply (no_wikitext d m)].
  destruct wt as [| | | | |o];
    try (right; left; apply (wikitext_not_object d m _ Hp Hne Hw); intros o' Ho;
         discriminate).
  destruct (Dict.get "*" o) as [star|] eqn:Hs; [|left; now apply (no_star d m o)].
  destruct star;
    try (right; right; exists d, m, o; eexists; repeat split; eauto; discriminate).
  left. now apply (null_star d m o).
Qed.

(** C10 as it is stated fails when the wikitext entry of the parse object
    is null: the parse object has no wikitext [*] entry, and
    [fetch_wikitext] raises an [AttributeError], which [main] does not
    handle, and no [WikiError]. *)
Lemma save_without_wikitext_counterexample :
  let body := [("parse", JObj [("title", JStr "T"); ("wikitext", JNull)])] in
  fst (cached_request Sample2.null_host (Sample.parse_query "T") false Sample.empty_world)
  = Ok (JObj body)
  /\ (exists p, Dict.get "parse" body = Some (JObj p)
                /\ forall wt star, ~ (Dict.get "wikitext" p = Some (JObj wt)
                                      /\ Dict.get "*" wt = Some star))
  /\ fst (fetch_wikitext Sample2.null_host "T" false Sample.empty_world)
     = Err (PyError "AttributeError")
  /\ fst (Nesdev.main Sample2.null_host false (Nesdev.Save "T") Sample.empty_world)
     = Traceback (PyError "AttributeError").
Proof.
  cbv zeta. split; [vm_compute; reflexivity|]. split.
  - eexists. split; [reflexivity|]. intros wt star [Hw _]. discriminate.
  - split; vm_compute; reflexivity.
Qed.

(** C10, amended.  When the body of the answer is an object without a
    [parse] entry (or with an empty or null one), or its parse object has no
    [wikitext] entry, or its wikitext object has no [*] entry (or a null
    one), [fetch_wikitext] raises a [WikiError], the save raises it in turn
    before anything is written, [main] exits with 1, and no document and no
    output directory is made.  When the body, a [parse] entry that is not
    empty, or the [wikitext] entry is not an object, [fetch_wikitext] raises
    an [AttributeError] instead, [main] ends with a traceback, and nothing
    is written either.  Every body is of one of these two kinds or has the
    wikitext.  More generally a save whose fetch fails in any way writes
    nothing. *)
Theorem save_without_wikitext (h : host) (title : string) (refresh : bool) (w w1 : world) :
  (forall data,
     cached_request h [("action", "parse"); ("format", "json"); ("page", title);
                       ("prop", "wikitext")] refresh w = (Ok data, w1) ->
     lacks_wikitext data ->
     exists msg,
       fetch_wikitext h title refresh w = (Err (WikiError (JStr msg)), w1)
       /\ Nesdev.save_wikitext_document h title refresh w = (Err (WikiError (JStr msg)), w1)
       /\ docs w1 = docs w /\ dirs w1 = dirs w
       /\ Nesdev.main h refresh (Nesdev.Save title) w
          = (Exit 1, set_stderr (stderr w1 ++ [("Error: " +:+ msg) +:+ PyStr.nl]) w1))
  /\ (forall data,
        cached_request h [("action", "parse"); ("format", "json"); ("page", title);
                          ("prop", "wikitext")] refresh w = (Ok data, w1) ->
        misshapen data ->
        fetch_wikitext h title refresh w = (Err (PyError "AttributeError"), w1)
        /\ Nesdev.save_wikitext_document h title refresh w
           = (Err (PyError "AttributeError"), w1)
        /\ docs w1 = docs w /\ dirs w1 = dirs w
        /\ Nesdev.main h refresh (Nesdev.Save title) w
           = (Traceback (PyError "AttributeError"), w1))
  /\ (forall data, lacks_wikitext data \/ misshapen data \/ has_wikitext data)
  /\ (forall data, has_wikitext data -> ~ lacks_wikitext data /\ ~ misshapen data)
  /\ (forall e,
        fetch_wikitext h title refresh w = (Err e, w1) ->
        Nesdev.save_wikitext_document h title refresh w = (Err e, w1)
        /\ docs w1 = docs w /\ dirs w1 = dirs w).
Proof.
  split; [|split; [|split; [|split]]].
  - intros data Hc Hl.
    destruct (fetch_wikitext_lacking h title refresh w w1 data Hc Hl) as [msg Hf].
    destruct (save_stops_at_fetch h title refresh w w1 _ Hf) as (Hs & Hd1 & Hd2).
    exists msg. repeat split; auto.
    unfold Nesdev.main, run_command, Nesdev.command_save, bind. rewrite Hs. reflexivity.
  - intros data Hc Hm.
    pose proof (fetch_wikitext_misshapen h title refresh w w1 data Hc Hm) as Hf.
    destruct (save_stops_at_fetch h title refresh w w1 _ Hf) as (Hs & Hd1 & Hd2).
    repeat split; auto.
    unfold Nesdev.main, run_command, Nesdev.command_save, bind. rewrite Hs. reflexivity.
  - apply body_kinds.
  - intros data (d & p & wt & star & -> & Hp & Hne & Hw & Hs & Hn). split.
    + intros Hl. inversion Hl as [d' Hp'|d' p' Hp' Ht|d' p' Hp' Hw'|d' p' wt' Hp' Hw' Hs'
                                 |d' p' wt' Hp' Hw' Hs']; subst; rewrite Hp in Hp'.
      * discriminate.
      * inversion Hp'; subst. destruct p; [contradiction | discriminate].
      * inversion Hp'; subst. rewrite Hw in Hw'. discriminate.
      * inversion Hp'; subst. rewrite Hw in Hw'. inversion Hw'; subst.
        rewrite Hs in Hs'. discriminate.
      * inversion Hp'; subst. rewrite Hw in Hw'. inversion Hw'; subst.
        rewrite Hs in Hs'. inversion Hs'; subst. contradiction.
    + intros Hm. inversion Hm as [data' Hn'|d' p' Hp' Ht Hn'|d' p' wt' Hp' Hne' Hw' Hn'];
        subst.
      * exact (Hn' d eq_refl).
      * rewrite Hp in Hp'. inversion Hp'; subst. exact (Hn' p eq_refl).
      * rewrite Hp in Hp'. inversion Hp'; subst. rewrite Hw in Hw'. inversion Hw'; subst.
        exact (Hn' wt eq_refl).
  - intros e. apply save_stops_at_fetch.
Qed.

Lemma save_without_wikitext_witness :
  exists data w1,
    cached_request Sample.sample_host (Sample.parse_query "Missing") false Sample.empty_world
    = (Ok data, w1)
    /\ lacks_wikitext data
    /\ fst (Nesdev.save_wikitext_document Sample.sample_host "Missing" false
              Sample.empty_world)
       = Err (WikiError (JStr "No parse data returned; ensure the title exists."))
    /\ docs w1 = docs Sample.empty_world.
Proof.
  destruct (cached_request Sample.sample_host (Sample.parse_query "Missing") false
              Sample.empty_world) as [r w1] eqn:E.
  assert (Hr : r = Ok (JObj [("warnings", JObj [])])).
  { change r with (fst (r, w1)). rewrite <- E. vm_compute. reflexivity. }
  subst r. exists (JObj [("warnings", JObj [])]), w1.
  assert (Hl : lacks_wikitext (JObj [("warnings", JObj [])])) by (apply no_parse; reflexivity).
  split; [reflexivity|]. split; [exact Hl|].
  destruct (proj1 (save_without_wikitext Sample.sample_host "Missing" false
                     Sample.empty_world w1) _ E Hl) as (msg & Hf & Hs & Hd & _).
  split; [|exact Hd].
  rewrite Hs. simpl.
  assert (Hm : fst (fetch_wikitext Sample.sample_host "Missing" false Sample.empty_world)
               = Err (WikiError (JStr "No parse data returned; ensure the title exists.")))
    by (vm_compute; reflexivity).
  rewrite Hf in Hm. simpl in Hm. inversion Hm. reflexivity.
Defined.

(** ** The order of a batch *)

Section KeySort.
Context {A : Type} (f : A -> Z).

Local Abbreviation lt := (by_key f).

Lemma insert_key_sorted (x : A) (l : list A) :
  StronglySorted (fun a b => f a <= f b) l ->
  StronglySorted (fun a b => f a <= f b) (PySort.insert lt x l).
Proof.
  induction 1 as [|y l Hs IH Hy]; simpl.
  - repeat constructor.
  - unfold lt at 1. destruct (Z.ltb_spec (f y) (f x)) as [Hlt|Hge].
    + constructor; [exact IH|].
      apply (Permutation_Forall (Permutation_sym (insert_perm lt x l))).
      constructor; [lia | exact Hy].
    + constructor; [now constructor|].
      constructor; [exact Hge|].
      eapply List.Forall_impl; [|exact Hy]. simpl. intros a Ha. lia.
Qed.

Lemma sorted_key_sorted (l : list A) :
  StronglySorted (fun a b => f a <= f b) (PySort.sorted lt l).
Proof.
  induction l as [|x l IH]; simpl; [constructor | now apply insert_key_sorted].
Qed.

Lemma insert_key_stable (k : Z) (x : A) (l : list A) :
  List.filter (fun a => f a =? k) (PySort.insert lt x l)
  = List.filter (fun a => f a =? k) (x :: l).
Proof.
  induction l as [|y l IH]; [reflexivity|].
  simpl. unfold lt at 1. destruct (Z.ltb_spec (f y) (f x)) as [Hlt|Hge]; [|reflexivity].
  simpl. rewrite IH. simpl.
  destruct (Z.eqb_spec (f x) k) as [Hx|Hx], (Z.eqb_spec (f y) k) as [Hy|Hy];
    try reflexivity. lia.
Qed.

Lemma sorted_key_stable (k : Z) (l : list A) :
  List.filter (fun a => f a =? k) (PySort.sorted lt l)
  = List.filter (fun a => f a =? k) l.
Proof.
  induction l as [|x l IH]; [reflexivity|].
  simpl PySort.sorted. rewrite insert_key_stable. simpl. now rewrite IH.
Qed.
End KeySort.

Lemma combine_keys_snd (pages : list json) :
  map snd (combine (map key_of pages) pages) = pages.
Proof. induction pages as [|p l IH]; simpl; [reflexivity | now rewrite IH]. Qed.

Lemma combine_keys_agree (pages : list json) :
  Forall (fun kp => fst kp = key_of (snd kp)) (combine (map key_of pages) pages).
Proof. induction pages as [|p l IH]; simpl; constructor; auto. Qed.

Lemma strongly_sorted_snd (l : list (Z * json)) :
  Forall (fun kp => fst kp = key_of (snd kp)) l ->
  StronglySorted (fun a b => fst a <= fst b) l ->
  StronglySorted (fun a b => key_of a <= key_of b) (map snd l).
Proof.
  intros Hk Hs. induction Hs as [|x l Hs IH Hx]; simpl; [constructor|].
  inversion Hk as [|? ? Hkx Hkl]; subst. constructor; [now apply IH|].
  apply List.Forall_map. rewrite List.Forall_forall in Hx, Hkl |- *.
  intros y Hy. simpl. rewrite <- Hkx, <- (Hkl y Hy). now apply Hx.
Qed.

Lemma filter_snd (k : Z) (l : list (Z * json)) :
  Forall (fun kp => fst kp = key_of (snd kp)) l ->
  List.filter (fun p => key_of p =? k) (map snd l)
  = map snd (List.filter (fun kp => fst kp =? k) l).
Proof.
  induction 1 as [|x l Hx Hl IH]; simpl; [reflexivity|].
  rewrite <- Hx. destruct (fst x =? k); simpl; now rewrite IH.
Qed.

(** The order in which a batch is yielded. *)
Lemma sort_pages_stable_sorted (pages : list json) :
  stable_sorted pages (sort_pages pages).
Proof.
  unfold sort_pages.
  pose proof (sorted_perm NesdevPages.key_lt (combine (map key_of pages) pages)) as HP.
  assert (Hk : Forall (fun kp => fst kp = key_of (snd kp))
                 (PySort.sorted NesdevPages.key_lt (combine (map key_of pages) pages))).
  { apply (Permutation_Forall (Permutation_sym HP)), combine_keys_agree. }
  split; [|split].
  - rewrite <- (combine_keys_snd pages) at 1. apply Permutation_map, Permutation_sym, HP.
  - apply strongly_sorted_snd; [exact Hk|]. apply (sorted_key_sorted fst).
  - intros k. rewrite (filter_snd k _ Hk).
    change NesdevPages.key_lt with (by_key (@fst Z json)).
    rewrite (sorted_key_stable fst k).
    rewrite <- (filter_snd k _ (combine_keys_agree pages)).
    now rewrite combine_keys_snd.
Qed.

Lemma sort_pages_length (pages : list json) :
  length (sort_pages pages) = length pages.
Proof.
  destruct (sort_pages_stable_sorted pages) as [HP _].
  symmetry. apply Permutation_length, HP.
Qed.

(** ** One batch *)

Lemma is_page_key (page : json) :
  is_page page = true -> NesdevPages.sort_key page = Ok (JInt (key_of page)).
Proof.
  unfold is_page, key_of, page_key.
  destruct (NesdevPages.sort_key page) as [[| | n | | |]|]; try discriminate.
  reflexivity.
Qed.

Lemma is_page_record (page : json) :
  is_page page = true -> NesdevPages.record_of page = Ok (the_record page).
Proof.
  unfold is_page, the_record.
  destruct (page_key page); [|discriminate].
  destruct (NesdevPages.record_of page); [reflexivity | discriminate].
Qed.

Lemma sort_keys_ok (pages : list json) :
  forallb is_page pages = true ->
  Py.mapM NesdevPages.sort_key pages = Ok (map (fun p => JInt (key_of p)) pages).
Proof.
  induction pages as [|p l IH]; simpl; [reflexivity|].
  intros H. apply andb_prop in H as [Hp Hl].
  rewrite (is_page_key p Hp). simpl. now rewrite (IH Hl).
Qed.

Lemma int_keys_ok (pages : list json) :
  Py.mapM Py.as_int (map (fun p => JInt (key_of p)) pages) = Ok (map key_of pages).
Proof. induction pages as [|p l IH]; simpl; [reflexivity | now rewrite IH]. Qed.

Lemma sorted_by_key_ok (pages : list json) :
  forallb is_page pages = true ->
  NesdevPages.sorted_by_key pages = Ok (sort_pages pages).
Proof.
  intros H. unfold NesdevPages.sorted_by_key.
  rewrite (sort_keys_ok pages H). simpl. rewrite int_keys_ok. reflexivity.
Qed.

Lemma batch_pages_ok (data : json) (pages : list json) :
  body_pages data = Some pages -> forallb is_page pages = true ->
  NesdevPages.batch_pages data = Ok (sort_pages pages).
Proof.
  unfold body_pages, NesdevPages.batch_pages. intros Hb Hp.
  destruct data as [| | | | |d]; try discriminate. simpl.
  destruct (Dict.get "query" d) as [[| | | | |query]|]; try discriminate. simpl.
  destruct (Dict.get "pages" query) as [[| | | | |pgs]|]; try discriminate. simpl.
  inversion Hb; subst. now apply sorted_by_key_ok.
Qed.

Lemma body_token_get (data : json) (pages : list json) :
  body_pages data = Some pages ->
  Py.get data "continue" JNull = Ok (body_token data).
Proof.
  destruct data; simpl; try discriminate. reflexivity.
Qed.

Lemma sort_pages_all_pages (pages : list json) :
  forallb is_page pages = true -> forallb is_page (sort_pages pages) = true.
Proof.
  intros H. destruct (sort_pages_stable_sorted pages) as [HP _].
  apply forallb_forall. intros p Hin.
  rewrite forallb_forall in H. apply H.
  apply (Permutation_in _ (Permutation_sym HP)), Hin.
Qed.

(** A batch that fits in what remains is yielded whole. *)
Lemma emit_all (limit : Z) (pages : list json) (fetched : Z) :
  forallb is_page pages = true ->
  fetched + Z.of_nat (length pages) <= limit ->
  NesdevPages.emit limit pages fetched
  = (map the_record pages, fetched + Z.of_nat (length pages), None).
Proof.
  revert fetched. induction pages as [|p l IH]; intros fetched Hp Hl.
  - simpl. now rewrite Z.add_0_r.
  - simpl in Hp. apply andb_prop in Hp as [Hp Hrest].
    cbn [NesdevPages.emit]. rewrite (is_page_record p Hp).
    destruct (Z.leb_spec limit (fetched + 1)) as [Hstop|Hgo].
    + assert (l = []) as -> by (destruct l; [reflexivity | simpl in Hl; lia]).
      reflexivity.
    + rewrite (IH (fetched + 1) Hrest) by (simpl length in Hl; lia).
      simpl length. do 2 f_equal. lia.
Qed.

(** ** Counting the batches *)

Lemma rounds_zero (remaining batch_size : Z) :
  0 < batch_size -> remaining <= 0 -> rounds remaining batch_size = O.
Proof.
  intros Hb Hr. unfold rounds.
  assert ((remaining + batch_size - 1) / batch_size <= 0); [|lia].
  assert (remaining + batch_size - 1 < batch_size) by lia.
  assert ((remaining + batch_size - 1) / batch_size < 1); [|lia].
  apply Z.div_lt_upper_bound; lia.
Qed.

Lemma rounds_step (remaining batch_size : Z) :
  0 < batch_size -> 0 < remaining ->
  rounds remaining batch_size
  = S (rounds (remaining - Z.min batch_size remaining) batch_size).
Proof.
  intros Hb Hr. unfold rounds.
  destruct (Z.le_gt_cases remaining batch_size) as [Hle|Hgt].
  - rewrite Z.min_r by lia. replace (remaining - remaining) with 0 by lia.
    replace ((0 + batch_size - 1) / batch_size) with 0
      by (symmetry; apply Z.div_small; lia).
    replace ((remaining + batch_size - 1) / batch_size) with 1; [reflexivity|].
    apply (Z.div_unique_pos _ _ 1 (remaining - 1)); lia.
  - rewrite Z.min_l by lia.
    replace (remaining + batch_size - 1)
      with ((remaining - batch_size + batch_size - 1) + 1 * batch_size) by lia.
    rewrite Z.div_add by lia.
    assert (0 <= (remaining - batch_size + batch_size - 1) / batch_size)
      by (apply Z.div_pos; lia).
    lia.
Qed.

(** ** The descriptor of a batch *)

Lemma dict_get_set {V : Type} (k k' : string) (v : V) (d : Dict.t V) :
  Dict.get k (Dict.set k' v d) = if String.eqb k k' then Some v else Dict.get k d.
Proof.
  induction d as [|[k0 v0] d IH]; simpl.
  - reflexivity.
  - destruct (String.eqb_spec k' k0) as [->|Hne]; simpl.
    + destruct (String.eqb k k0); reflexivity.
    + rewrite IH. destruct (String.eqb_spec k k0) as [->|Hk]; [|reflexivity].
      destruct (String.eqb_spec k0 k') as [->|]; [contradiction | reflexivity].
Qed.

Lemma dict_get_update {V : Type} (k : string) (other d : Dict.t V) :
  Dict.get k other = None -> Dict.get k (Dict.update d other) = Dict.get k d.
Proof.
  unfold Dict.update. revert d. induction other as [|[k0 v0] other IH]; intros d; simpl.
  - reflexivity.
  - destruct (String.eqb_spec k k0) as [->|Hne]; [discriminate|]. intros H.
    rewrite (IH _ H), dict_get_set.
    destruct (String.eqb_spec k k0); [contradiction | reflexivity].
Qed.

Lemma str_members_get (k : string) (d : Dict.t json) (r : descriptor) :
  Py.str_members d = Some r -> Dict.get k d = None -> Dict.get k r = None.
Proof.
  revert r. induction d as [|[k0 v0] d IH]; intros r; simpl.
  - intros H _. inversion H. reflexivity.
  - destruct v0; try discriminate.
    destruct (Py.str_members d) as [r'|]; [|discriminate].
    intros H. inversion H; subst. simpl.
    destruct (String.eqb k k0); [discriminate|]. now apply IH.
Qed.

(** A token that has no [gaplimit] of its own leaves the requested size
    in the descriptor. *)
Lemma page_query_gaplimit (prefix : option string) (g : Z) (token : json)
    (params : descriptor) :
  NesdevPages.page_query prefix g token = Ok params ->
  (forall d, token = JObj d -> Dict.get "gaplimit" d = None) ->
  Dict.get "gaplimit" params = Some (PyStr.of_int g).
Proof.
  unfold NesdevPages.page_query. intros H Htok.
  set (base := match prefix with
               | Some p => if String.eqb p EmptyString then _ else _
               | None => _
               end) in H.
  assert (Hbase : Dict.get "gaplimit" base = Some (PyStr.of_int g)).
  { unfold base. destruct prefix as [p|]; [|reflexivity].
    destruct (String.eqb p EmptyString); reflexivity. }
  destruct (Py.truthy token).
  - unfold Py.as_descriptor in H. destruct token as [| | | | |d]; try discriminate.
    destruct (Py.str_members d) as [r|] eqn:Hr; [|discriminate].
    simpl in H. inversion H; subst.
    rewrite dict_get_update; [exact Hbase|].
    apply (str_members_get _ d r Hr), Htok. reflexivity.
  - inversion H; subst. exact Hbase.
Qed.

(** ** The walk *)

Section Walk.
Context (h : host) (prefix : option string) (refresh : bool) (limit batch_size : Z).
Context (Inv : world -> json -> Prop) (P : json -> Prop).
Hypothesis batch_pos : 0 < batch_size.
Hypothesis served : service h prefix refresh batch_size Inv P.

Lemma walk_service (fuel : nat) :
  forall (fetched : Z) (token : json) (w : world),
    Inv w token ->
    (rounds (limit - fetched) batch_size <= fuel)%nat ->
    exists requests bodies w',
      NesdevPages.walk h fuel prefix limit batch_size refresh fetched token w
      = (map the_record (yielded bodies), NesdevPages.Exhausted, w')
      /\ serve_all h refresh requests w = (Ok bodies, w')
      /\ Forall2 (asks_for prefix) requests
           (batch_sizes (length requests) batch_size (limit - fetched))
      /\ Forall2 exact_batch
           (batch_sizes (length bodies) batch_size (limit - fetched)) bodies
      /\ Forall P bodies
      /\ length requests = length bodies
      /\ Forall (fun b => has_token b = true) (List.removelast bodies)
      /\ (length bodies = rounds (limit - fetched) batch_size
          \/ ((length bodies < rounds (limit - fetched) batch_size)%nat
              /\ bodies <> []
              /\ has_token (List.last bodies JNull) = false))
      /\ Z.of_nat (length (yielded bodies))
         = Z.min (Z.max 0 (limit - fetched)) (Z.of_nat (length bodies) * batch_size).
Proof.
  induction fuel as [|fuel IH]; intros fetched token w HI Hfuel.
  - (* no fuel: the limit is reached already *)
    assert (Hdone : limit - fetched <= 0).
    { destruct (Z.le_gt_cases (limit - fetched) 0) as [|Hpos]; [assumption|].
      rewrite (rounds_step _ _ batch_pos Hpos) in Hfuel. lia. }
    exists [], [], w. simpl.
    replace (fetched <? limit) with false by (symmetry; apply Z.ltb_ge; lia).
    rewrite (rounds_zero _ _ batch_pos Hdone).
    repeat split; try constructor; auto. lia.
  - destruct (Z.le_gt_cases (limit - fetched) 0) as [Hdone|Hpos].
    + exists [], [], w. simpl.
      replace (fetched <? limit) with false by (symmetry; apply Z.ltb_ge; lia).
      rewrite (rounds_zero _ _ batch_pos Hdone).
      repeat split; try constructor; auto. lia.
    + set (g := Z.min batch_size (limit - fetched)) in *.
      assert (Hg : 0 < g <= batch_size) by (unfold g; lia).
      destruct (served w token g HI Hg)
        as (params & data & w1 & Hq & Hc & (pages & Hbody & Hlen & Hpages) & HP & HI1).
      assert (Hpo : pages_of data = pages) by (unfold pages_of; now rewrite Hbody).
      assert (Hstep := rounds_step _ _ batch_pos Hpos). fold g in Hstep.
      assert (Hemit : NesdevPages.emit limit (sort_pages pages) fetched
                      = (map the_record (sort_pages pages), fetched + g, None)).
      { rewrite emit_all.
        - rewrite sort_pages_length, Hlen. reflexivity.
        - now apply sort_pages_all_pages.
        - rewrite sort_pages_length, Hlen. unfold g. lia. }
      assert (Hwalk : NesdevPages.walk h (S fuel) prefix limit batch_size refresh
                        fetched token w
                      = if negb (Py.truthy (body_token data))
                        then (map the_record (sort_pages pages), NesdevPages.Exhausted, w1)
                        else
                          let '(out', e, w2) :=
                            NesdevPages.walk h fuel prefix limit batch_size refresh
                              (fetched + g) (body_token data) w1 in
                          ((map the_record (sort_pages pages) ++ out')%list, e, w2)).
      { cbn [NesdevPages.walk].
        replace (fetched <? limit) with true by (symmetry; apply Z.ltb_lt; lia).
        fold g. rewrite Hq, Hc, (batch_pages_ok data pages Hbody Hpages), Hemit.
        rewrite (body_token_get data pages Hbody). reflexivity. }
      destruct (Py.truthy (body_token data)) eqn:Htok.
      * (* the body has a token: the walk goes on *)
        assert (Hfuel' : (rounds (limit - (fetched + g)) batch_size <= fuel)%nat).
        { replace (limit - (fetched + g)) with (limit - fetched - g) by lia. lia. }
        destruct (IH (fetched + g) (body_token data) w1 HI1 Hfuel')
          as (requests & bodies & w' & Hw & Hs & Hr & He & HPs & Hl & Ht & Hend & Hcount).
        replace (limit - (fetched + g)) with (limit - fetched - g) in * by lia.
        exists (params :: requests), (data :: bodies), w'.
        split; [|split; [|split; [|split; [|split; [|split; [|split; [|split]]]]]]].
        -- rewrite Hwalk. simpl negb. cbv iota. rewrite Hw.
           unfold yielded. simpl flat_map. rewrite Hpo, map_app. reflexivity.
        -- simpl. unfold bind at 1. rewrite Hc. unfold bind at 1. rewrite Hs. reflexivity.
        -- simpl. constructor; [exists token; exact Hq | exact Hr].
        -- simpl. constructor; [exists pages; auto | exact He].
        -- constructor; assumption.
        -- simpl. now rewrite Hl.
        -- destruct bodies as [|b bodies]; [constructor|].
           change (List.removelast (data :: b :: bodies))
             with (data :: List.removelast (b :: bodies)).
           constructor; [exact Htok | exact Ht].
        -- rewrite Hstep. destruct Hend as [Hend|(Hend & Hne & Hlast)].
           ++ left. simpl. now rewrite Hend.
           ++ right. split; [simpl; lia|]. split; [discriminate|].
              destruct bodies as [|b bodies]; [contradiction|exact Hlast].
        -- unfold yielded in *. simpl flat_map. rewrite length_app, Hpo, sort_pages_length.
           rewrite Nat2Z.inj_add, Hlen, Hcount. simpl length. unfold g. lia.
      * (* no token: the walk stops here *)
        exists [params], [data], w1.
        split; [|split; [|split; [|split; [|split; [|split; [|split; [|split]]]]]]].
        -- rewrite Hwalk. simpl negb. cbv iota.
           unfold yielded. simpl flat_map. rewrite Hpo, app_nil_r. reflexivity.
        -- simpl. unfold bind at 1. rewrite Hc. reflexivity.
        -- simpl. constructor; [exists token; exact Hq | constructor].
        -- simpl. constructor; [exists pages; auto | constructor].
        -- constructor; [assumption | constructor].
        -- reflexivity.
        -- constructor.
        -- rewrite Hstep. simpl length.
           destruct (rounds (limit - fetched - g) batch_size) as [|n] eqn:Hn.
           ++ left. reflexivity.
           ++ right. split; [lia|]. split; [discriminate|].
              simpl. unfold has_token. exact Htok.
        -- unfold yielded. simpl flat_map. rewrite app_nil_r, Hpo, sort_pages_length, Hlen.
           simpl length. unfold g. lia.
Qed.
End Walk.

Lemma serve_all_log (h : host) (refresh : bool) (requests : list descriptor) :
  forall (w w' : world) (bodies : list json),
    serve_all h refresh requests w = (Ok bodies, w') ->
    length (log w') = (length (log w) + length requests)%nat.
Proof.
  induction requests as [|p rest IH]; intros w w' bodies H; simpl in H.
  - inversion H. simpl. lia.
  - unfold bind at 1 in H.
    destruct (cached_request h p refresh w) as [[body|e] w1] eqn:Hc; [|discriminate].
    unfold bind at 1 in H.
    destruct (serve_all h refresh rest w1) as [[bs|e] w2] eqn:Hs; [|discriminate].
    inversion H; subst. rewrite (IH _ _ _ Hs).
    destruct (cached_request_outcome h p refresh w _ _ Hc)
      as (_ & _ & _ & _ & [(_ & b & _ & _ & _ & _ & Hl)|(_ & Hl & _)]);
      rewrite Hl, length_app; simpl; lia.
Qed.

Lemma rounds_cover (limit batch_size : Z) :
  0 < batch_size -> limit <= Z.of_nat (rounds limit batch_size) * batch_size.
Proof.
  intros Hb. unfold rounds.
  destruct (Z.le_gt_cases limit 0) as [Hl|Hl].
  - assert (0 <= Z.of_nat (Z.to_nat ((limit + batch_size - 1) / batch_size))) by lia. nia.
  - assert (Hq : 0 <= (limit + batch_size - 1) / batch_size) by (apply Z.div_pos; lia).
    rewrite Z2Nat.id by exact Hq.
    pose proof (Z.div_mod (limit + batch_size - 1) batch_size ltac:(lia)) as Hd.
    pose proof (Z.mod_pos_bound (limit + batch_size - 1) batch_size Hb) as Hm.
    nia.
Qed.

Lemma rounds_short (limit batch_size : Z) (m : nat) :
  0 < batch_size -> (m < rounds limit batch_size)%nat -> Z.of_nat m * batch_size < limit.
Proof.
  intros Hb Hm. unfold rounds in Hm.
  assert (Hq : 0 < (limit + batch_size - 1) / batch_size) by lia.
  assert (Hm' : Z.of_nat m + 1 <= (limit + batch_size - 1) / batch_size) by lia.
  pose proof (Z.div_mod (limit + batch_size - 1) batch_size ltac:(lia)) as Hd.
  pose proof (Z.mod_pos_bound (limit + batch_size - 1) batch_size Hb) as Hmod.
  nia.
Qed.

Lemma last_forall {A : Type} (Q : A -> Prop) (l : list A) (d : A) :
  Forall Q l -> l <> [] -> Q (List.last l d).
Proof.
  induction 1 as [|x l Hx Hl IH]; [contradiction|]. intros _.
  destruct l as [|y l]; [exact Hx|]. apply IH. discriminate.
Qed.

(** ** The sample wiki is a synthetic one *)

Lemma sample_page_is_page (i : Z) : is_page (snd (Sample.page i)) = true.
Proof. reflexivity. Qed.

Lemma sample_batch_exact (n : nat) (start : Z) :
  exact_batch (Z.of_nat n) (Sample.batch n start).
Proof.
  exists (map (fun k => snd (Sample.page (start + Z.of_nat k))) (seq 0 n)).
  split; [|split].
  - unfold Sample.batch, body_pages. simpl. unfold Dict.values. now rewrite map_map.
  - now rewrite length_map, length_seq.
  - apply forallb_forall. intros p Hin. apply in_map_iff in Hin as (k & <- & _).
    apply sample_page_is_page.
Qed.

Lemma sample_service :
  service Sample.sample_host None true 10 Sample.held (fun b => has_token b = true).
Proof.
  intros w tok g Hheld Hg.
  assert (Hcases : exists n, g = Z.of_nat n /\ (1 <= n <= 10)%nat)
    by (exists (Z.to_nat g); lia).
  destruct Hcases as (n & -> & Hn).
  assert (Hq : exists params,
            NesdevPages.page_query None (Z.of_nat n) tok = Ok params
            /\ Sample.wiki (log w) params
               = Replied {| status_code := 200; headers := []; text := EmptyString;
                            decoded := Some (Sample.batch n
                                               (1000 * Z.of_nat (length (log w)))) |}).
  { destruct Hheld as [->| ->];
      do 11 (destruct n as [|n]; [try lia; eexists; split; reflexivity|]); lia. }
  destruct Hq as (params & Hq & Hwiki).
  exists params, (Sample.batch n (1000 * Z.of_nat (length (log w)))).
  eexists. split; [exact Hq|]. split; [|split; [|split]].
  - rewrite (cached_request_live Sample.sample_host params true w) by now left.
    change (remote Sample.sample_host) with Sample.wiki. rewrite Hwiki. reflexivity.
  - apply sample_batch_exact.
  - reflexivity.
  - right. reflexivity.
Qed.

(** The record the walker yields for a page is its Page Record. *)
Lemma the_record_spec (page : json) :
  is_page page = true -> the_record page = page_record_of page.
Proof.
  unfold is_page, the_record. destruct (page_key page); [|discriminate].
  unfold NesdevPages.record_of, page_record_of, Py.subscript, Py.get, entry.
  destruct page as [| | | | |d]; try discriminate. simpl.
  destruct (Dict.get "pageid" d); [|discriminate]. simpl.
  destruct (Dict.get "title" d); [|discriminate]. reflexivity.
Qed.

Lemma yielded_batches (bodies : list json) :
  yielded bodies = concat (sorted_batches bodies).
Proof. apply flat_map_concat_map. Qed.

Lemma sorted_batches_stable (bodies : list json) :
  Forall2 (fun b batch => stable_sorted (pages_of b) batch) bodies (sorted_batches bodies).
Proof.
  induction bodies as [|b l IH]; simpl; constructor; auto.
  apply sort_pages_stable_sorted.
Qed.

Lemma yielded_records (sizes : list Z) (bodies : list json) :
  Forall2 exact_batch sizes bodies ->
  map the_record (yielded bodies) = map page_record_of (concat (sorted_batches bodies)).
Proof.
  intros H. rewrite <- yielded_batches. unfold yielded.
  induction H as [|g b sizes bodies (pages & Hb & _ & Hp) _ IH]; [reflexivity|].
  simpl. rewrite !map_app, IH. f_equal.
  apply map_ext_in. intros p Hin. apply the_record_spec.
  assert (Hpo : pages_of b = pages) by (unfold pages_of; now rewrite Hb).
  rewrite Hpo in Hin.
  pose proof (sort_pages_all_pages pages Hp) as Hall.
  rewrite forallb_forall in Hall. now apply Hall.
Qed.

(** C1 as it is stated fails where it says that the 37 records come in
    sorted order: only the pages of one batch are sorted.  The sample wiki
    answers every request with exactly the number of pages asked for and a
    continuation token; the tenth record of the walk, the last of the first
    batch, has a key above that of the eleventh, the first of the second
    batch. *)
Lemma pagination_walk_counterexample :
  service Sample.sample_host None true 10 Sample.held (fun b => has_token b = true)
  /\ (let out := fst (fst (NesdevPages.iter_pages Sample.sample_host 4 None 37 10 true
                             Sample.empty_world)) in
      length out = 37%nat
      /\ out !! 9%nat = Some (page_record_of (snd (Sample.page 0)))
      /\ out !! 10%nat = Some (page_record_of (snd (Sample.page 1009))))
  /\ page_key (snd (Sample.page 0)) = Some 0
  /\ page_key (snd (Sample.page 1009)) = Some (-1009)
  /\ -1009 < 0.
Proof.
  split; [exact sample_service|].
  split; [cbv zeta; repeat split; vm_compute; reflexivity|].
  split; [reflexivity|]. split; [reflexivity | lia].
Qed.

(** C1, amended.  Take a limit and a batch size above zero, enough fuel, and
    a wiki that answers, through the cache store, every request for [g]
    pages with exactly [g] pages.

    - When every answer carries a continuation token the walker yields
      exactly [limit] Page Records (the [pageid] and [title] of the page
      and its [touched] time, or [unknown]) and makes exactly
      [ceil(limit / batch_size)] batch requests, the one made when
      [fetched] records are out asking for [min(batch_size, limit -
      fetched)] pages.
    - The records come batch after batch, in the order of the requests; the
      records of one batch come in the order of their sort key, which is
      the [index] of the page, or its [pageid] when it has no [index], and
      pages with the same key keep their order.  Nothing is sorted across
      batches.
    - When answers may lack the token the walker stops at the first answer
      without one: every earlier answer had a token, and when that happens
      before the last batch the records are fewer than [limit].
    - A request for [g] pages is a descriptor built by the walker for [g]
      and the token it holds; its [gaplimit] is the text of [g] unless the
      token has a [gaplimit] of its own.
    - For a limit of 37 and a batch size of 10 there are 4 batches, of 10,
      10, 10 and 7 pages. *)
Theorem pagination_walk (h : host) (prefix : option string) (refresh : bool)
    (limit batch_size : Z) (Inv : world -> json -> Prop) (w : world) (fuel : nat) :
  0 < limit -> 0 < batch_size -> Inv w JNull ->
  (rounds limit batch_size <= fuel)%nat ->
  (service h prefix refresh batch_size Inv (fun b => has_token b = true) ->
   exists requests bodies batches w',
     NesdevPages.iter_pages h fuel prefix limit batch_size refresh w
     = (map page_record_of (concat batches), NesdevPages.Exhausted, w')
     /\ Forall2 (fun b batch => stable_sorted (pages_of b) batch) bodies batches
     /\ length (concat batches) = Z.to_nat limit
     /\ serve_all h refresh requests w = (Ok bodies, w')
     /\ length requests = rounds limit batch_size
     /\ length (log w') = (length (log w) + rounds limit batch_size)%nat
     /\ Forall2 (asks_for prefix) requests
          (batch_sizes (rounds limit batch_size) batch_size limit)
     /\ Forall2 exact_batch (batch_sizes (rounds limit batch_size) batch_size limit) bodies)
  /\ (service h prefix refresh batch_size Inv (fun _ => True) ->
      exists requests bodies batches w',
        NesdevPages.iter_pages h fuel prefix limit batch_size refresh w
        = (map page_record_of (concat batches), NesdevPages.Exhausted, w')
        /\ Forall2 (fun b batch => stable_sorted (pages_of b) batch) bodies batches
        /\ serve_all h refresh requests w = (Ok bodies, w')
        /\ length requests = length bodies
        /\ Forall2 (asks_for prefix) requests
             (batch_sizes (length requests) batch_size limit)
        /\ Forall (fun b => has_token b = true) (List.removelast bodies)
        /\ ((length bodies = rounds limit batch_size
             /\ length (concat batches) = Z.to_nat limit)
            \/ ((length bodies < rounds limit batch_size)%nat
                /\ has_token (List.last bodies JNull) = false
                /\ Z.of_nat (length (concat batches))
                   = Z.of_nat (length bodies) * batch_size
                /\ Z.of_nat (length (concat batches)) < limit)))
  /\ (forall g token params,
        NesdevPages.page_query prefix g token = Ok params ->
        (forall d, token = JObj d -> Dict.get "gaplimit" d = None) ->
        Dict.get "gaplimit" params = Some (PyStr.of_int g))
  /\ (forall pages, stable_sorted pages (sort_pages pages))
  /\ (forall d i, Dict.get "pageid" d <> None -> Dict.get "index" d = Some (JInt i) ->
        page_key (JObj d) = Some i)
  /\ (forall d n, Dict.get "index" d = None -> Dict.get "pageid" d = Some (JInt n) ->
        page_key (JObj d) = Some n)
  /\ rounds 37 10 = 4%nat
  /\ batch_sizes 4 10 37 = [10; 10; 10; 7].
Proof.
  intros Hlimit Hbatch HI Hfuel.
  assert (Hfuel' : (rounds (limit - 0) batch_size <= fuel)%nat) by now rewrite Z.sub_0_r.
  split; [|split; [|split; [|split; [|split; [|split; [|split]]]]]].
  - intros Hserv.
    destruct (walk_service h prefix refresh limit batch_size Inv _ Hbatch Hserv fuel
                0 JNull w HI Hfuel')
      as (requests & bodies & w' & Hw & Hs & Hr & He & HP & Hl & _ & Hend & Hcount).
    rewrite Z.sub_0_r in *.
    assert (Hfull : length bodies = rounds limit batch_size).
    { destruct Hend as [Hend|(_ & Hne & Hlast)]; [exact Hend|].
      pose proof (last_forall _ bodies JNull HP Hne) as Ht. simpl in Ht. congruence. }
    exists requests, bodies, (sorted_batches bodies), w'.
    split; [unfold NesdevPages.iter_pages; rewrite Hw; now rewrite (yielded_records _ _ He)|].
    split; [apply sorted_batches_stable|].
    split.
    { rewrite <- yielded_batches.
      pose proof (rounds_cover limit batch_size Hbatch). rewrite Hfull in Hcount. lia. }
    split; [exact Hs|]. split; [congruence|].
    split; [rewrite (serve_all_log h refresh requests w w' bodies Hs); lia|].
    split; [now rewrite <- Hfull, <- Hl | now rewrite <- Hfull].
  - intros Hserv.
    destruct (walk_service h prefix refresh limit batch_size Inv _ Hbatch Hserv fuel
                0 JNull w HI Hfuel')
      as (requests & bodies & w' & Hw & Hs & Hr & He & HP & Hl & Ht & Hend & Hcount).
    rewrite Z.sub_0_r in *.
    exists requests, bodies, (sorted_batches bodies), w'.
    split; [unfold NesdevPages.iter_pages; rewrite Hw; now rewrite (yielded_records _ _ He)|].
    split; [apply sorted_batches_stable|].
    split; [exact Hs|].
    split; [exact Hl|]. split; [exact Hr|]. split; [exact Ht|].
    rewrite <- yielded_batches.
    destruct Hend as [Hend|(Hend & Hne & Hlast)].
    + left. split; [exact Hend|].
      pose proof (rounds_cover limit batch_size Hbatch). rewrite Hend in Hcount. lia.
    + right. split; [exact Hend|]. split; [exact Hlast|].
      pose proof (rounds_short limit batch_size _ Hbatch Hend). lia.
  - apply page_query_gaplimit.
  - apply sort_pages_stable_sorted.
  - intros d i Hp Hi. unfold page_key, NesdevPages.sort_key.
    destruct (Dict.get "pageid" d); [|contradiction]. now rewrite Hi.
  - intros d n Hi Hp. unfold page_key, NesdevPages.sort_key. now rewrite Hp, Hi.
  - reflexivity.
  - reflexivity.
Qed.

Lemma pagination_walk_witness :
  0 < 37 /\ 0 < 10 /\ Sample.held Sample.empty_world JNull
  /\ (rounds 37 10 <= 4)%nat
  /\ exists (requests : list descriptor) (bodies : list json) (batches : list (list json))
            (w' : world),
       NesdevPages.iter_pages Sample.sample_host 4 None 37 10 true Sample.empty_world
       = (map page_record_of (concat batches), NesdevPages.Exhausted, w')
       /\ Forall2 (fun b batch => stable_sorted (pages_of b) batch) bodies batches
       /\ length (concat batches) = 37%nat
       /\ length requests = 4%nat
       /\ length (log w') = 4%nat
       /\ map page_record_of (concat batches) !! 0%nat
          = Some {| NesdevPages.pageid := JInt 9;
                    NesdevPages.title := JStr "Page 9";
                    NesdevPages.touched := JStr "unknown" |}.
Proof.
  assert (H1 : 0 < 37) by lia.
  assert (H2 : 0 < 10) by lia.
  assert (H3 : Sample.held Sample.empty_world JNull) by (left; reflexivity).
  assert (H4 : (rounds 37 10 <= 4)%nat) by (vm_compute; lia).
  split; [exact H1|]. split; [exact H2|]. split; [exact H3|]. split; [exact H4|].
  destruct (proj1 (pagination_walk Sample.sample_host None true 37 10 Sample.held
                     Sample.empty_world 4 H1 H2 H3 H4) sample_service)
    as (requests & bodies & batches & w' & Hw & Hb & Hn & _ & Hr & Hl & _).
  exists requests, bodies, batches, w'. split; [exact Hw|]. split; [exact Hb|].
  split; [exact Hn|]. split; [exact Hr|]. split; [exact Hl|].
  change (map page_record_of (concat batches))
    with (fst (fst (map page_record_of (concat batches), NesdevPages.Exhausted, w'))).
  rewrite <- Hw. vm_compute. reflexivity.
Defined.

(** ** The tools at work on the sample wiki *)

(** A limit of 37 with batches of 10: 37 records from four requests. *)
Example sample_walk :
  let '(out, ending, w') :=
    NesdevPages.iter_pages Sample.sample_host 4 None 37 10 true Sample.empty_world in
  (length out, ending, map requested (log w'))
  = (37%nat, NesdevPages.Exhausted, [Some "10"; Some "10"; Some "10"; Some "7"]).
Proof. vm_compute. reflexivity. Qed.

(** Each batch comes out sorted by [index], here the reverse of [pageid]. *)
Example sample_walk_order :
  map NesdevPages.pageid
    (firstn 3 (fst (fst (NesdevPages.iter_pages Sample.sample_host 4 None 37 10 true
                           Sample.empty_world))))
  = [JInt 9; JInt 8; JInt 7].
Proof. vm_compute. reflexivity. Qed.

(** Without a token in the first answer the walker would stop there; one
    unit of fuel is not enough for the sample wiki, which always sends one. *)
Example sample_walk_out_of_fuel :
  snd (fst (NesdevPages.iter_pages Sample.sample_host 1 None 37 10 true Sample.empty_world))
  = NesdevPages.OutOfFuel.
Proof. vm_compute. reflexivity. Qed.

(** [grab] with a pick in range saves the document of that result. *)
Example sample_grab_saves :
  let '(status, w') :=
    Nesdev.main Sample.sample_host false (Nesdev.Grab "PPU" 20 (Some 1))
      Sample.empty_world in
  status = Exit 0
  /\ docs w' !! "assets/nesdev/PPU_registers.wikitext"
     = Some ("{{Page metadata" +:+ PyStr.nl
             +:+ " | title = PPU registers" +:+ PyStr.nl
             +:+ " | author = NESDev contributors" +:+ PyStr.nl
             +:+ " | date = 2024-01-01" +:+ PyStr.nl
             +:+ " | source = https://www.nesdev.org/wiki/PPU_registers" +:+ PyStr.nl
             +:+ " | pageid = 7" +:+ PyStr.nl
             +:+ " | revid = 9" +:+ PyStr.nl
             +:+ "}}" +:+ PyStr.nl
             +:+ PyStr.nl
             +:+ "Some text" +:+ PyStr.nl).
Proof. vm_compute. split; reflexivity. Qed.

(** An HTTP error is reported and nothing is cached or saved. *)
Example sample_save_http_error :
  let '(status, w') :=
    Nesdev.main Sample.sample_host false (Nesdev.Save "Gone") Sample.empty_world in
  status = Exit 1 /\ cache w' = ∅ /\ docs w' = ∅.
Proof. vm_compute. repeat split; reflexivity. Qed.

(** * More properties of the code *)

(** ** Slugs *)

(** X1.  The slug of a title has the length of the title and no space; a
    title without a space is its own slug, so that the slug of a slug is
    the slug; a title that is not a string raises [AttributeError]. *)
Theorem title_to_slug_spec (t : string) (v : json) :
  (exists slug,
     title_to_slug (JStr t) = Ok slug
     /\ String.length slug = String.length t
     /\ PyStr.contains " " slug = false
     /\ title_to_slug (JStr slug) = Ok slug)
  /\ (PyStr.contains " " t = false -> title_to_slug (JStr t) = Ok t)
  /\ ((forall s, v <> JStr s) -> title_to_slug v = Err (PyError "AttributeError")).
Proof.
  split; [|split].
  - exists (PyStr.replace " " "_" t). split; [reflexivity|].
    split; [apply replace_space_length|]. split; [apply replace_space_clean|].
    unfold title_to_slug, Py.replace.
    now rewrite (replace_space_id _ (replace_space_clean t)).
  - intros H. unfold title_to_slug, Py.replace. now rewrite (replace_space_id t H).
  - intros H. destruct v; try reflexivity. now destruct (H s).
Qed.

Lemma title_to_slug_spec_witness :
  PyStr.contains " " "PPU_registers" = false
  /\ title_to_slug (JStr "PPU_registers") = Ok "PPU_registers"
  /\ title_to_slug (JInt 7) = Err (PyError "AttributeError").
Proof.
  assert (H : PyStr.contains " " "PPU_registers" = false) by reflexivity.
  split; [exact H|]. split.
  - exact (proj1 (proj2 (title_to_slug_spec "PPU_registers" (JInt 7))) H).
  - apply (proj2 (proj2 (title_to_slug_spec "PPU_registers" (JInt 7)))).
    intros s. discriminate.
Defined.

(** ** The report of an HTTP error *)

Lemma set_stderr_twice (a b : list string) (w : world) :
  set_stderr b (set_stderr a w) = set_stderr b w.
Proof. reflexivity. Qed.

Lemma for_each_eprint_lines {A : Type} (f : A -> string) (l : list A) (w : world) :
  for_each (fun x => eprint (f x)) l w
  = (Ok tt, set_stderr (stderr w ++ map (fun x => f x +:+ PyStr.nl) l)%list w).
Proof.
  revert w. induction l as [|x l IH]; intros w; simpl.
  - unfold ret. rewrite app_nil_r. now destruct w.
  - unfold bind, eprint. rewrite IH. simpl. rewrite set_stderr_twice.
    now rewrite <- app_assoc.
Qed.

Lemma substring_length (n : nat) (s : string) :
  String.length (String.substring 0 n s) = Nat.min n (String.length s).
Proof.
  revert n. induction s as [|c s IH]; intros [|n]; simpl; try reflexivity.
  now rewrite IH.
Qed.

Lemma substring_all (n : nat) (s : string) :
  (String.length s <= n)%nat -> String.substring 0 n s = s.
Proof.
  revert n. induction s as [|c s IH]; intros [|n]; simpl; intros H;
    try reflexivity; try lia.
  f_equal. apply IH. lia.
Qed.

(** X2.  [log_http_error] always returns and writes to the error stream
    only: one line with the status and the URL, the line that announces the
    headers, one line for each header in order, the line that announces the
    body, and the body as [truncate_body] leaves it; that is four lines
    more than there are headers.  Cache, documents, standard output and
    the log of requests are as before. *)
Theorem log_http_error_effect (h : host) (params : descriptor) (resp : response)
    (w : world) :
  let lines :=
    (["HTTP error " +:+ PyStr.of_int (status_code resp) +:+ " for "
        +:+ request_url h params +:+ PyStr.nl;
      "Response headers:" +:+ PyStr.nl]
     ++ map (fun kv => ("  " +:+ fst kv +:+ ": " +:+ snd kv) +:+ PyStr.nl) (headers resp)
     ++ ["Response body:" +:+ PyStr.nl;
         truncate_body (text resp) +:+ PyStr.nl])%list in
  log_http_error h params resp w = (Ok tt, set_stderr (stderr w ++ lines)%list w)
  /\ length lines = (4 + length (headers resp))%nat.
Proof.
  cbv zeta. split.
  - unfold log_http_error, bind, eprint. simpl.
    rewrite (for_each_eprint_lines (fun kv => "  " +:+ fst kv +:+ ": " +:+ snd kv)).
    simpl. rewrite !set_stderr_twice. f_equal. f_equal.
    rewrite <- !app_assoc. simpl. rewrite !append_assoc. reflexivity.
  - simpl. rewrite length_app, length_map. simpl. lia.
Qed.

(** X3.  The body shown in the report is never longer than 2018
    characters: a body of at most 2000 characters is shown whole, a longer
    one is cut to its first 2000 characters, followed by a line end and the
    mark [...[truncated]...]. *)
Theorem truncate_body_bound (content : string) :
  (String.length (truncate_body content) <= 2018)%nat
  /\ ((String.length content <= 2000)%nat -> truncate_body content = content)
  /\ ((2000 < String.length content)%nat ->
      truncate_body content
      = String.substring 0 2000 content +:+ PyStr.nl +:+ "...[truncated]..."
      /\ String.length (truncate_body content) = 2018%nat).
Proof.
  unfold truncate_body.
  destruct (Nat.ltb_spec 2000 (String.length content)) as [Hlong|Hshort].
  - assert (Hlen : String.length (String.substring 0 2000 content +:+ PyStr.nl
                                  +:+ "...[truncated]...") = 2018%nat).
    { rewrite !append_length, substring_length. simpl String.length. lia. }
    split; [lia|]. split; [lia|]. intros _. split; [reflexivity | exact Hlen].
  - split; [lia|]. split; [reflexivity|]. lia.
Qed.

Lemma truncate_body_bound_witness :
  (String.length "not found" <= 2000)%nat /\ truncate_body "not found" = "not found".
Proof.
  assert (H : (String.length "not found" <= 2000)%nat) by (simpl; lia).
  split; [exact H|].
  exact (proj1 (proj2 (truncate_body_bound "not found")) H).
Defined.

(** ** More on the cache store *)

(** X4.  A call of [cached_request] leaves every cache entry but that of
    its own key as it was, makes the cache directory, and touches neither
    the saved documents, the output directories nor standard output.  When
    it returns a body, the entry of its key holds that body and nothing was
    written to the error stream. *)
Theorem cached_request_own_entry (h : host) (params : descriptor) (refresh : bool)
    (w w' : world) (r : result json) :
  cached_request h params refresh w = (r, w') ->
  (forall k, k <> cache_key h params -> cache w' !! k = cache w !! k)
  /\ cache_dir w' = true
  /\ docs w' = docs w /\ dirs w' = dirs w /\ stdout w' = stdout w
  /\ (forall data, r = Ok data ->
        cache w' !! cache_key h params = Some data /\ stderr w' = stderr w).
Proof.
  intros H.
  destruct (cached_request_outcome h params refresh w r w' H)
    as (Hdirs & Hdocs & Hout & Hdir & Hcases).
  assert (Hcache : cache w' = cache w
                   \/ exists data, r = Ok data
                        /\ cache w' = <[cache_key h params := data]> (cache w)).
  { destruct Hcases as [(_ & body & _ & _ & Hc & _)|(_ & _ & [(e & _ & Hc)|Hok])];
      [now left | now left |].
    destruct Hok as (data & resp & Hr & Hc & _). right. eauto. }
  split; [|split; [exact Hdir|split; [exact Hdocs|split; [exact Hdirs|split; [exact Hout|]]]]].
  - intros k Hk. destruct Hcache as [->|(data & _ & ->)]; [reflexivity|].
    apply lookup_insert_ne. congruence.
  - intros data ->.
    destruct Hcases as [(_ & body & Hb & Hr & Hc & He & _)|(_ & _ & [(e & Hr & _)|Hok])].
    + inversion Hr; subst. rewrite Hc. auto.
    + discriminate.
    + destruct Hok as (data' & resp & Hr & Hc & He & _). inversion Hr; subst.
      rewrite Hc. split; [apply lookup_insert_eq | exact He].
Qed.

Lemma cached_request_own_entry_witness :
  exists w',
    cached_request Sample.sample_host (Sample.parse_query "PPU") false Sample.empty_world
    = (Ok (Sample.parse_reply "PPU"), w')
    /\ cache w' !! cache_key Sample.sample_host (Sample.parse_query "PPU")
       = Some (Sample.parse_reply "PPU")
    /\ docs w' = docs Sample.empty_world.
Proof.
  destruct (cached_request Sample.sample_host (Sample.parse_query "PPU") false
              Sample.empty_world) as [r w'] eqn:E.
  assert (Hr : r = Ok (Sample.parse_reply "PPU")).
  { change r with (fst (r, w')). rewrite <- E. vm_compute. reflexivity. }
  subst r. exists w'. split; [reflexivity|].
  destruct (cached_request_own_entry Sample.sample_host _ false _ w' _ E)
    as (_ & _ & Hd & _ & _ & Hok).
  split; [exact (proj1 (Hok _ eq_refl)) | exact Hd].
Defined.

(** X5.  Once a call has returned a body, a later call without [refresh]
    for a descriptor with the same pairs, in whatever order they were
    inserted, is served from the cache: it returns that body and makes no
    network request. *)
Theorem cache_hit_any_order (h : host) (D1 D2 : descriptor) (refresh : bool)
    (w w1 : world) (body : json) :
  cached_request h D1 refresh w = (Ok body, w1) ->
  dict_wf D1 -> dict_wf D2 -> same_pairs D1 D2 ->
  exists w2,
    cached_request h D2 false w1 = (Ok body, w2)
    /\ network_requests w2 = network_requests w1
    /\ cache w2 = cache w1.
Proof.
  intros H W1 W2 HS.
  assert (Hkey : cache_key h D2 = cache_key h D1).
  { unfold cache_key. cbv zeta.
    now rewrite (canonical_of_perm D1 D2 (same_pairs_perm D1 D2 W1 W2 HS)). }
  assert (Hentry : cache w1 !! cache_key h D2 = Some body).
  { rewrite Hkey.
    destruct (cached_request_outcome h D1 refresh w _ _ H)
      as (_ & _ & _ & _ & [(_ & b & Hb & Hr & Hc & _)|(_ & _ & [(e & Hr & _)|Hok])]).
    - inversion Hr; subst. now rewrite Hc.
    - discriminate.
    - destruct Hok as (data & resp & Hr & Hc & _). inversion Hr; subst.
      rewrite Hc. apply lookup_insert_eq. }
  eexists. split; [apply (cached_request_hit h D2 w1 body Hentry)|].
  split; [|reflexivity].
  unfold network_requests. simpl. rewrite List.filter_app, length_app. simpl. lia.
Qed.

Lemma cache_hit_any_order_witness :
  exists body w1 w2,
    cached_request Sample.sample_host Sample.D1 true Sample.empty_world = (Ok body, w1)
    /\ dict_wf Sample.D1 /\ dict_wf Sample.D2 /\ same_pairs Sample.D1 Sample.D2
    /\ cached_request Sample.sample_host Sample.D2 false w1 = (Ok body, w2)
    /\ network_requests w2 = network_requests w1.
Proof.
  destruct (cached_request Sample.sample_host Sample.D1 true Sample.empty_world)
    as [r w1] eqn:E.
  assert (Hr : exists body, r = Ok body).
  { change r with (fst (r, w1)). rewrite <- E. vm_compute. eauto. }
  destruct Hr as [body ->].
  assert (W1 : dict_wf Sample.D1).
  { unfold dict_wf. simpl.
    repeat (constructor; [simpl; intuition discriminate|]). constructor. }
  assert (W2 : dict_wf Sample.D2).
  { unfold dict_wf. simpl.
    repeat (constructor; [simpl; intuition discriminate|]). constructor. }
  assert (HS : same_pairs Sample.D1 Sample.D2).
  { intros k v. unfold Sample.D1, Sample.D2. simpl. tauto. }
  destruct (cache_hit_any_order Sample.sample_host Sample.D1 Sample.D2 true
              Sample.empty_world w1 body E W1 W2 HS) as (w2 & H2 & Hn & _).
  exists body, w1, w2. auto 10.
Defined.

(** ** More on the pagination walker *)

Lemma emit_count (limit : Z) (pages : list json) :
  forall fetched out fetched' stop,
    NesdevPages.emit limit pages fetched = (out, fetched', stop) ->
    fetched' = fetched + Z.of_nat (length out)
    /\ (fetched < limit -> fetched' <= limit).
Proof.
  induction pages as [|p l IH]; intros fetched out fetched' stop H; cbn [NesdevPages.emit] in H.
  - inversion H; subst. simpl. lia.
  - destruct (NesdevPages.record_of p) as [r|e].
    + destruct (Z.leb_spec limit (fetched + 1)) as [Hstop|Hgo].
      * inversion H; subst. simpl. lia.
      * destruct (NesdevPages.emit limit l (fetched + 1)) as [[out1 f1] s1] eqn:E.
        inversion H; subst. destruct (IH _ _ _ _ E) as [Hf Hl]. simpl length. lia.
    + inversion H; subst. simpl. lia.
Qed.

Lemma walk_count (h : host) (prefix : option string) (limit batch_size : Z)
    (refresh : bool) (fuel : nat) :
  forall fetched token w,
    Z.of_nat (length (fst (fst (NesdevPages.walk h fuel prefix limit batch_size refresh
                                  fetched token w))))
    <= Z.max 0 (limit - fetched).
Proof.
  induction fuel as [|fuel IH]; intros fetched token w; cbn [NesdevPages.walk].
  - destruct (fetched <? limit); simpl; lia.
  - destruct (Z.ltb_spec fetched limit) as [Hlt|Hge]; [|simpl; lia].
    destruct (NesdevPages.page_query _ _ _) as [params|e]; [|simpl; lia].
    destruct (cached_request h params refresh w) as [[data|e] w1]; [|simpl; lia].
    destruct (NesdevPages.batch_pages data) as [sorted_pages|e]; [|simpl; lia].
    destruct (NesdevPages.emit limit sorted_pages fetched) as [[out fetched'] stop] eqn:E.
    destruct (emit_count _ _ _ _ _ _ E) as [Hf Hl]. specialize (Hl Hlt).
    destruct stop as [e|]; [simpl; lia|].
    destruct (Py.get data "continue" JNull) as [tok|e]; [|simpl; lia].
    destruct (negb (Py.truthy tok)); [simpl; lia|].
    specialize (IH fetched' tok w1).
    destruct (NesdevPages.walk h fuel prefix limit batch_size refresh fetched' tok w1)
      as [[out' e'] w2].
    simpl in IH |- *. rewrite length_app. lia.
Qed.

(** X6.  Whatever the wiki answers and however much fuel there is, the
    walker never yields more records than the limit, and none when the
    limit is not positive. *)
Theorem iter_pages_at_most_limit (h : host) (fuel : nat) (prefix : option string)
    (limit batch_size : Z) (refresh : bool) (w : world) :
  Z.of_nat (length (fst (fst (NesdevPages.iter_pages h fuel prefix limit batch_size
                                refresh w))))
  <= Z.max 0 limit.
Proof.
  unfold NesdevPages.iter_pages.
  pose proof (walk_count h prefix limit batch_size refresh fuel 0 JNull w) as H.
  now rewrite Z.sub_0_r in H.
Qed.

Lemma walk_frame (h : host) (prefix : option string) (limit batch_size : Z)
    (refresh : bool) (fuel : nat) :
  forall fetched token w out e w',
    NesdevPages.walk h fuel prefix limit batch_size refresh fetched token w = (out, e, w') ->
    stdout w' = stdout w /\ docs w' = docs w /\ dirs w' = dirs w.
Proof.
  induction fuel as [|fuel IH]; intros fetched token w out e w' H;
    cbn [NesdevPages.walk] in H.
  - destruct (fetched <? limit); inversion H; auto.
  - destruct (fetched <? limit); [|inversion H; auto].
    destruct (NesdevPages.page_query _ _ _) as [params|e0]; [|inversion H; auto].
    destruct (cached_request h params refresh w) as [r w1] eqn:Hc.
    destruct (cached_request_outcome h params refresh w r w1 Hc)
      as (Hdirs & Hdocs & Hout & _).
    assert (Hsame : stdout w1 = stdout w /\ docs w1 = docs w /\ dirs w1 = dirs w) by auto.
    destruct r as [data|e0]; [|inversion H; subst; exact Hsame].
    destruct (NesdevPages.batch_pages data) as [sorted_pages|e0];
      [|inversion H; subst; exact Hsame].
    destruct (NesdevPages.emit limit sorted_pages fetched) as [[out1 fetched'] stop].
    destruct stop as [e0|]; [inversion H; subst; exact Hsame|].
    destruct (Py.get data "continue" JNull) as [tok|e0];
      [|inversion H; subst; exact Hsame].
    destruct (negb (Py.truthy tok)); [inversion H; subst; exact Hsame|].
    destruct (NesdevPages.walk h fuel prefix limit batch_size refresh fetched' tok w1)
      as [[out' e'] w2] eqn:Hw.
    inversion H; subst. destruct (IH _ _ _ _ _ _ Hw) as (H1 & H2 & H3).
    destruct Hsame as (H4 & H5 & H6). repeat split; congruence.
Qed.

(** X7.  The [list] command prints nothing unless the whole walk
    succeeded: when the walker raises, at the first batch or at a later
    one, the records it had yielded are dropped, standard output is as it
    was, and [main] ends as its handlers decide for that exception, with
    exit code 1 and the message on the error stream for a request or wiki
    error.  No document is written either way. *)
Theorem list_prints_nothing_on_error (h : host) (fuel : nat)
    (args : NesdevPages.list_args) (w w' : world)
    (out : list NesdevPages.page_record) (e : exn) :
  NesdevPages.iter_pages h fuel (NesdevPages.arg_prefix args) (NesdevPages.arg_limit args)
    (NesdevPages.clamp_batch_size (NesdevPages.arg_batch_size args))
    (NesdevPages.arg_refresh args) w = (out, NesdevPages.Raised e, w') ->
  NesdevPages.main h fuel args w = handle h (Err e) w'
  /\ stdout (snd (NesdevPages.main h fuel args w)) = stdout w
  /\ docs (snd (NesdevPages.main h fuel args w)) = docs w
  /\ (handled e = true ->
      fst (NesdevPages.main h fuel args w) = Exit 1
      /\ stderr (snd (NesdevPages.main h fuel args w))
         = (stderr w' ++ [("Error: " +:+ exn_str h e) +:+ PyStr.nl])%list).
Proof.
  intros H.
  assert (Hm : NesdevPages.main h fuel args w = handle h (Err e) w').
  { unfold NesdevPages.main, NesdevPages.command_list. simpl. now rewrite H. }
  destruct (walk_frame h _ _ _ _ fuel 0 JNull w _ _ _ H) as (Hout & Hdocs & _).
  rewrite Hm. split; [reflexivity|]. unfold handle.
  destruct (handled e); simpl; repeat split; auto; discriminate.
Qed.

Lemma list_prints_nothing_on_error_witness :
  exists w',
    let args := {| NesdevPages.arg_prefix := None; NesdevPages.arg_limit := 5;
                   NesdevPages.arg_batch_size := 2;
                   NesdevPages.arg_output_format := "text";
                   NesdevPages.arg_refresh := true |} in
    NesdevPages.iter_pages Sample2.failing_host 3 None 5 (NesdevPages.clamp_batch_size 2)
      true Sample.empty_world
    = (map the_record (sort_pages (pages_of (Sample.batch 2 0))),
       NesdevPages.Raised (RequestException "timed out"), w')
    /\ fst (NesdevPages.main Sample2.failing_host 3 args Sample.empty_world) = Exit 1
    /\ stdout (snd (NesdevPages.main Sample2.failing_host 3 args Sample.empty_world)) = [].
Proof.
  destruct (NesdevPages.iter_pages Sample2.failing_host 3 None 5
              (NesdevPages.clamp_batch_size 2) true Sample.empty_world)
    as [[out e] w'] eqn:E.
  assert (Hr : (out, e) = (map the_record (sort_pages (pages_of (Sample.batch 2 0))),
                           NesdevPages.Raised (RequestException "timed out"))).
  { change (out, e) with (fst (out, e, w')). rewrite <- E. vm_compute. reflexivity. }
  inversion Hr; subst. exists w'. cbv zeta. split; [reflexivity|].
  destruct (list_prints_nothing_on_error Sample2.failing_host 3
              {| NesdevPages.arg_prefix := None; NesdevPages.arg_limit := 5;
                 NesdevPages.arg_batch_size := 2;
                 NesdevPages.arg_output_format := "text";
                 NesdevPages.arg_refresh := true |}
              Sample.empty_world w' _ _ E) as (_ & Hout & _ & Herr).
  split; [exact (proj1 (Herr eq_refl)) | exact Hout].
Defined.

Lemma emit_firstn (limit : Z) (pages : list json) :
  forall fetched,
    forallb is_page pages = true -> fetched < limit ->
    exists fetched',
      NesdevPages.emit limit pages fetched
      = (map the_record (firstn (Z.to_nat (limit - fetched)) pages), fetched', None).
Proof.
  induction pages as [|p l IH]; intros fetched Hp Hlt.
  - exists fetched. simpl. now rewrite firstn_nil.
  - simpl in Hp. apply andb_prop in Hp as [Hp Hrest].
    cbn [NesdevPages.emit]. rewrite (is_page_record p Hp).
    replace (Z.to_nat (limit - fetched)) with (S (Z.to_nat (limit - (fetched + 1)))) by lia.
    destruct (Z.leb_spec limit (fetched + 1)) as [Hstop|Hgo].
    + exists (fetched + 1). replace (Z.to_nat (limit - (fetched + 1))) with O by lia.
      reflexivity.
    + destruct (IH (fetched + 1) Hrest Hgo) as [f' ->]. exists f'. reflexivity.
Qed.

(** X8.  When the first answer carries no continuation token the walker
    makes that one request and yields the pages of the answer in sorted
    order, cut at the limit: all of them when they are fewer than the
    limit, the first [limit] otherwise, whatever number was asked for.  In
    particular an answer with neither [query] nor [continue] ends the walk
    with no record. *)
Theorem iter_pages_single_answer (h : host) (fuel : nat) (prefix : option string)
    (limit batch_size : Z) (refresh : bool) (w w1 : world) (params : descriptor)
    (data : json) :
  0 < limit ->
  NesdevPages.page_query prefix (Z.min batch_size limit) JNull = Ok params ->
  cached_request h params refresh w = (Ok data, w1) ->
  (forall sorted_pages token,
     NesdevPages.batch_pages data = Ok sorted_pages ->
     forallb is_page sorted_pages = true ->
     Py.get data "continue" JNull = Ok token -> Py.truthy token = false ->
     NesdevPages.iter_pages h (S fuel) prefix limit batch_size refresh w
     = (map the_record (firstn (Z.to_nat limit) sorted_pages), NesdevPages.Exhausted, w1))
  /\ (forall d,
        data = JObj d -> Dict.get "query" d = None -> Dict.get "continue" d = None ->
        NesdevPages.iter_pages h (S fuel) prefix limit batch_size refresh w
        = ([], NesdevPages.Exhausted, w1)).
Proof.
  intros Hlimit Hq Hc.
  assert (Hgen : forall sorted_pages token,
     NesdevPages.batch_pages data = Ok sorted_pages ->
     forallb is_page sorted_pages = true ->
     Py.get data "continue" JNull = Ok token -> Py.truthy token = false ->
     NesdevPages.iter_pages h (S fuel) prefix limit batch_size refresh w
     = (map the_record (firstn (Z.to_nat limit) sorted_pages), NesdevPages.Exhausted, w1)).
  { intros sorted_pages token Hb Hp Ht Hf.
    unfold NesdevPages.iter_pages. cbn [NesdevPages.walk].
    replace (0 <? limit) with true by (symmetry; apply Z.ltb_lt; lia).
    rewrite Z.sub_0_r, Hq, Hc, Hb.
    destruct (emit_firstn limit sorted_pages 0 Hp Hlimit) as [f' ->].
    rewrite Z.sub_0_r, Ht, Hf. reflexivity. }
  split; [exact Hgen|].
  intros d -> Hquery Hcont.
  rewrite (Hgen [] JNull).
  - now destruct (Z.to_nat limit).
  - unfold NesdevPages.batch_pages. simpl. rewrite Hquery. reflexivity.
  - reflexivity.
  - simpl. now rewrite Hcont.
  - reflexivity.
Qed.

Lemma iter_pages_single_answer_witness :
  exists params data w1 sorted_pages,
    0 < 2
    /\ NesdevPages.page_query None (Z.min 10 2) JNull = Ok params
    /\ cached_request Sample2.short_host params true Sample.empty_world = (Ok data, w1)
    /\ NesdevPages.batch_pages data = Ok sorted_pages
    /\ forallb is_page sorted_pages = true
    /\ NesdevPages.iter_pages Sample2.short_host 1 None 2 10 true Sample.empty_world
       = (map the_record (firstn 2 sorted_pages), NesdevPages.Exhausted, w1)
    /\ map NesdevPages.pageid (map the_record (firstn 2 sorted_pages)) = [JInt 3; JInt 2].
Proof.
  destruct (NesdevPages.page_query None (Z.min 10 2) JNull) as [params|e] eqn:Hq;
    [|discriminate].
  destruct (cached_request Sample2.short_host params true Sample.empty_world)
    as [r w1] eqn:Hc.
  assert (Hr : exists data sorted_pages,
            r = Ok data /\ NesdevPages.batch_pages data = Ok sorted_pages
            /\ forallb is_page sorted_pages = true
            /\ Py.get data "continue" JNull = Ok JNull
            /\ map NesdevPages.pageid (map the_record (firstn 2 sorted_pages))
               = [JInt 3; JInt 2]).
  { change r with (fst (r, w1)). rewrite <- Hc. inversion Hq; subst.
    eexists _, _. split; [vm_compute; reflexivity|].
    split; [vm_compute; reflexivity|]. split; [vm_compute; reflexivity|].
    split; vm_compute; reflexivity. }
  destruct Hr as (data & sorted_pages & -> & Hb & Hp & Ht & Hids).
  assert (H0 : 0 < 2) by lia.
  exists params, data, w1, sorted_pages.
  split; [exact H0|]. split; [reflexivity|]. split; [exact Hc|].
  split; [exact Hb|]. split; [exact Hp|]. split; [|exact Hids].
  exact (proj1 (iter_pages_single_answer Sample2.short_host 0 None 2 10 true
                  Sample.empty_world w1 params data H0 Hq Hc)
           sorted_pages JNull Hb Hp Ht eq_refl).
Defined.

Lemma walk_stalls (h : host) (prefix : option string) (refresh : bool)
    (limit batch_size : Z) (Inv : world -> json -> Prop) :
  0 < limit ->
  stalls h prefix refresh (Z.min batch_size limit) Inv ->
  forall fuel token w,
    Inv w token ->
    exists w',
      NesdevPages.walk h fuel prefix limit batch_size refresh 0 token w
      = ([], NesdevPages.OutOfFuel, w')
      /\ length (log w') = (length (log w) + fuel)%nat.
Proof.
  intros Hlimit Hstall. induction fuel as [|fuel IH]; intros token w HI.
  - exists w. cbn [NesdevPages.walk].
    replace (0 <? limit) with true by (symmetry; apply Z.ltb_lt; lia).
    split; [reflexivity | lia].
  - destruct (Hstall w token HI) as (params & data & w1 & token' & Hq & Hc & Hb & Ht & Htr & HI1).
    destruct (IH token' w1 HI1) as (w' & Hw & Hlog).
    exists w'. cbn [NesdevPages.walk].
    replace (0 <? limit) with true by (symmetry; apply Z.ltb_lt; lia).
    rewrite Z.sub_0_r, Hq, Hc, Hb. cbn [NesdevPages.emit]. rewrite Ht, Htr.
    cbn [negb]. rewrite Hw. split; [reflexivity|].
    rewrite Hlog.
    destruct (cached_request_outcome h params refresh w _ _ Hc)
      as (_ & _ & _ & _ & [(_ & b & _ & _ & _ & _ & Hl)|(_ & Hl & _)]);
      rewrite Hl, length_app; simpl; lia.
Qed.

(** X9.  The loop has no guard against batches without pages: against a
    wiki that answers every request with a continuation token and no page,
    the walker yields nothing and never returns.  For every amount of fuel
    the model runs out of it, having made one request for each unit. *)
Theorem iter_pages_stalls (h : host) (prefix : option string) (refresh : bool)
    (limit batch_size : Z) (Inv : world -> json -> Prop) (w : world) (fuel : nat) :
  0 < limit -> Inv w JNull ->
  stalls h prefix refresh (Z.min batch_size limit) Inv ->
  exists w',
    NesdevPages.iter_pages h fuel prefix limit batch_size refresh w
    = ([], NesdevPages.OutOfFuel, w')
    /\ length (log w') = (length (log w) + fuel)%nat.
Proof.
  intros Hlimit HI Hstall. unfold NesdevPages.iter_pages.
  exact (walk_stalls h prefix refresh limit batch_size Inv Hlimit Hstall fuel JNull w HI).
Qed.

Lemma sample_stalls : stalls Sample2.stalling_host None true (Z.min 10 5) Sample.held.
Proof.
  intros w token Hheld.
  assert (Hq : exists params,
            NesdevPages.page_query None (Z.min 10 5) token = Ok params).
  { destruct Hheld as [->| ->]; eexists; reflexivity. }
  destruct Hq as [params Hq].
  exists params, (JObj [("continue", Sample.token)]). eexists. exists Sample.token.
  split; [exact Hq|]. split; [|split; [reflexivity|split; [reflexivity|split]]].
  - rewrite (cached_request_live Sample2.stalling_host params true w) by now left.
    reflexivity.
  - reflexivity.
  - right. reflexivity.
Qed.

Lemma iter_pages_stalls_witness :
  0 < 5 /\ Sample.held Sample.empty_world JNull
  /\ exists w',
       NesdevPages.iter_pages Sample2.stalling_host 7 None 5 10 true Sample.empty_world
       = ([], NesdevPages.OutOfFuel, w')
       /\ length (log w') = 7%nat.
Proof.
  assert (H0 : 0 < 5) by lia.
  assert (H1 : Sample.held Sample.empty_world JNull) by (left; reflexivity).
  split; [exact H0|]. split; [exact H1|].
  exact (iter_pages_stalls Sample2.stalling_host None true 5 10 Sample.held
           Sample.empty_world 7 H0 H1 sample_stalls).
Defined.

(** ** The descriptor of a batch, continued *)

Lemma dict_get_update_in {V : Type} (k : string) (v : V) (other d : Dict.t V) :
  dict_wf other -> Dict.get k other = Some v ->
  Dict.get k (Dict.update d other) = Some v.
Proof.
  unfold Dict.update, dict_wf, Dict.keys.
  revert d. induction other as [|[k0 v0] other IH]; intros d Hwf; simpl.
  - discriminate.
  - inversion Hwf as [|? ? Hnotin Hrest]; subst.
    destruct (String.eqb_spec k k0) as [->|Hne].
    + intros Hv. inversion Hv; subst.
      assert (Hnone : Dict.get k0 other = None).
      { clear -Hnotin. induction other as [|[k1 v1] other IH]; simpl; [reflexivity|].
        destruct (String.eqb_spec k0 k1) as [->|Hne].
        - exfalso. apply Hnotin. now left.
        - apply IH. intros Hin. apply Hnotin. now right. }
      pose proof (dict_get_update k0 other (Dict.set k0 v d) Hnone) as Hup.
      unfold Dict.update in Hup. rewrite Hup, dict_get_set, String.eqb_refl. reflexivity.
    + intros Hv. now apply IH.
Qed.

Lemma str_members_keys (d : Dict.t json) (r : descriptor) :
  Py.str_members d = Some r -> Dict.keys r = Dict.keys d.
Proof.
  revert r. induction d as [|[k v] d IH]; intros r; simpl.
  - intros H. now inversion H.
  - destruct v; try discriminate.
    destruct (Py.str_members d) as [r'|]; [|discriminate].
    intros H. inversion H; subst. simpl. f_equal. now apply IH.
Qed.

Lemma str_members_get_some (k s : string) (d : Dict.t json) (r : descriptor) :
  Py.str_members d = Some r -> Dict.get k d = Some (JStr s) -> Dict.get k r = Some s.
Proof.
  revert r. induction d as [|[k0 v0] d IH]; intros r; simpl.
  - discriminate.
  - destruct v0; try discriminate.
    destruct (Py.str_members d) as [r'|]; [|discriminate].
    intros H. inversion H; subst. simpl.
    destruct (String.eqb k k0).
    + intros Hv. now inversion Hv.
    + now apply IH.
Qed.

(** X10.  The descriptor of a batch carries every field of the
    continuation token the walker holds, with the value of the token, and
    each of the walker's own fields that the token does not name:
    [action], [format], [prop], [generator], the [gaplimit], and the
    [gapprefix] when a prefix was given.  An empty prefix is sent like no
    prefix at all. *)
Theorem page_query_fields (prefix : option string) (g : Z) (d : Dict.t json)
    (params : descriptor) :
  NesdevPages.page_query prefix g (JObj d) = Ok params ->
  d <> [] -> dict_wf d ->
  (forall k s, Dict.get k d = Some (JStr s) -> Dict.get k params = Some s)
  /\ (forall k, Dict.get k d = None ->
        Dict.get k params
        = Dict.get k ([("action", "query"); ("format", "json"); ("prop", "info");
                       ("generator", "allpages"); ("gaplimit", PyStr.of_int g)]
                      ++ match prefix with
                         | Some p => if String.eqb p EmptyString then []
                                     else [("gapprefix", p)]
                         | None => []
                         end)%list)
  /\ NesdevPages.page_query (Some EmptyString) g (JObj d)
     = NesdevPages.page_query None g (JObj d).
Proof.
  intros H Hne Hwf. unfold NesdevPages.page_query in H.
  assert (Htruthy : Py.truthy (JObj d) = true) by (destruct d; [contradiction | reflexivity]).
  rewrite Htruthy in H. unfold Py.as_descriptor in H.
  destruct (Py.str_members d) as [r|] eqn:Hr; [|discriminate].
  simpl in H. inversion H as [Hp]; clear H.
  assert (Hwf_r : dict_wf r).
  { unfold dict_wf. rewrite (str_members_keys d r Hr). exact Hwf. }
  split; [|split].
  - intros k s Hk. apply dict_get_update_in; [exact Hwf_r|].
    exact (str_members_get_some k s d r Hr Hk).
  - intros k Hk. rewrite dict_get_update by exact (str_members_get k d r Hr Hk).
    destruct prefix as [p|]; [|reflexivity].
    destruct (String.eqb p EmptyString); reflexivity.
  - reflexivity.
Qed.

Lemma page_query_fields_witness :
  exists params,
    NesdevPages.page_query (Some "PPU") 10 Sample.token = Ok params
    /\ Dict.get "gapcontinue" params = Some "next"
    /\ Dict.get "gapprefix" params = Some "PPU"
    /\ Dict.get "gaplimit" params = Some "10".
Proof.
  destruct (NesdevPages.page_query (Some "PPU") 10 Sample.token) as [params|e] eqn:Hq;
    [|discriminate].
  exists params. split; [reflexivity|].
  assert (Hne : [("gapcontinue", JStr "next"); ("continue", JStr "gapcontinue||")] <> [])
    by discriminate.
  assert (Hwf : dict_wf [("gapcontinue", JStr "next"); ("continue", JStr "gapcontinue||")]).
  { unfold dict_wf. simpl.
    repeat (constructor; [simpl; intuition discriminate|]). constructor. }
  destruct (page_query_fields (Some "PPU") 10 _ params Hq Hne Hwf) as (Htok & Hown & _).
  split; [apply Htok; reflexivity|].
  split; [rewrite Hown; reflexivity | rewrite Hown; reflexivity].
Defined.

(** ** The text that is hashed *)

Lemma all_printable_app (a b : string) :
  all_printable (a +:+ b) = all_printable a && all_printable b.
Proof.
  induction a as [|c a IH]; simpl; [reflexivity|]. rewrite IH. now rewrite andb_assoc.
Qed.

Lemma escape_printable (c : ascii) : all_printable (JsonDumps.escape c) = true.
Proof. destruct c as [[] [] [] [] [] [] [] []]; reflexivity. Qed.

Lemma escape_all_printable (s : string) : all_printable (JsonDumps.escape_all s) = true.
Proof.
  induction s as [|c s IH]; simpl; [reflexivity|].
  now rewrite all_printable_app, escape_printable, IH.
Qed.

Lemma dumps_item_printable (kv : string * string) :
  all_printable (JsonDumps.dumps_item kv) = true.
Proof.
  unfold JsonDumps.dumps_item, JsonDumps.dumps_str.
  repeat (rewrite ?all_printable_app; cbn [all_printable]).
  rewrite !escape_all_printable. reflexivity.
Qed.

Lemma join_items_printable (items : list (string * string)) :
  all_printable (PyStr.join "," (map JsonDumps.dumps_item items)) = true.
Proof.
  induction items as [|a [|b l] IH].
  - reflexivity.
  - apply dumps_item_printable.
  - rewrite !map_cons, join_more, !all_printable_app, dumps_item_printable.
    rewrite map_cons in IH. rewrite IH. reflexivity.
Qed.

(** X11.  The text that [cache_key] hashes, the serialisation of the
    sorted items, is printable ASCII whatever the keys and values are:
    [json.dumps] escapes every other character.  Its UTF-8 encoding is
    therefore the text itself, one byte for each character. *)
Theorem canonical_is_ascii (params : descriptor) :
  all_printable (canonical params) = true.
Proof.
  unfold canonical, JsonDumps.dumps_items.
  rewrite !all_printable_app, join_items_printable. reflexivity.
Qed.

(** ** More on saving *)

(** A fetch that returns has returned what the body of the answer gives,
    in the world the cache store left. *)
Lemma fetch_wikitext_body (h : host) (title : string) (refresh : bool) (w w1 : world)
    (r : result (json * json)) :
  fetch_wikitext h title refresh w = (r, w1) ->
  exists rb,
    cached_request h [("action", "parse"); ("format", "json"); ("page", title);
                      ("prop", "wikitext")] refresh w = (rb, w1)
    /\ forall refresh' w' w1',
         cached_request h [("action", "parse"); ("format", "json"); ("page", title);
                           ("prop", "wikitext")] refresh' w' = (rb, w1') ->
         fetch_wikitext h title refresh' w' = (r, w1').
Proof.
  unfold fetch_wikitext. unfold bind at 1. intros H.
  destruct (cached_request h _ refresh w) as [rb w0] eqn:Hc.
  exists rb.
  assert (Hw : w1 = w0 /\ forall refresh' w' w1',
             cached_request h [("action", "parse"); ("format", "json"); ("page", title);
                               ("prop", "wikitext")] refresh' w' = (rb, w1') ->
             fetch_wikitext h title refresh' w' = (r, w1')).
  { unfold fetch_wikitext. destruct rb as [data|e].
    - unfold bind, lift, raise, ret in H.
      destruct (Py.get data "parse" JNull) as [a|e] eqn:E1.
      2: { inversion H; subst. split; [reflexivity|]. intros ? ? ? Hc'.
           unfold bind, lift, raise, ret. now rewrite Hc', E1. }
      destruct (negb (Py.truthy a)) eqn:E2.
      { inversion H; subst. split; [reflexivity|]. intros ? ? ? Hc'.
        unfold bind, lift, raise, ret. now rewrite Hc', E1, E2. }
      destruct (Py.get a "wikitext" (JObj [])) as [a0|e] eqn:E3.
      2: { inversion H; subst. split; [reflexivity|]. intros ? ? ? Hc'.
           unfold bind, lift, raise, ret. now rewrite Hc', E1, E2, E3. }
      destruct (Py.get a0 "*" JNull) as [a1|e] eqn:E4.
      2: { inversion H; subst. split; [reflexivity|]. intros ? ? ? Hc'.
           unfold bind, lift, raise, ret. now rewrite Hc', E1, E2, E3, E4. }
      destruct (is_none a1) eqn:E5.
      + inversion H; subst. split; [reflexivity|]. intros ? ? ? Hc'.
        unfold bind, lift, raise, ret. now rewrite Hc', E1, E2, E3, E4, E5.
      + inversion H; subst. split; [reflexivity|]. intros ? ? ? Hc'.
        unfold bind, lift, raise, ret. now rewrite Hc', E1, E2, E3, E4, E5.
    - inversion H; subst. split; [reflexivity|]. intros ? ? ? Hc'.
      unfold bind at 1. now rewrite Hc'. }
  destruct Hw as [-> Hw]. split; [reflexivity | exact Hw].
Qed.

(** The body a fetch that returns was given is in the cache afterwards. *)
Lemma fetch_wikitext_cached (h : host) (title : string) (refresh : bool) (w w1 : world)
    (fetched : json * json) :
  fetch_wikitext h title refresh w = (Ok fetched, w1) ->
  stdout w1 = stdout w /\ stderr w1 = stderr w
  /\ exists data,
       cached_request h [("action", "parse"); ("format", "json"); ("page", title);
                         ("prop", "wikitext")] refresh w = (Ok data, w1)
       /\ cache w1 !! cache_key h [("action", "parse"); ("format", "json"); ("page", title);
                                   ("prop", "wikitext")] = Some data.
Proof.
  intros Hf. destruct (fetch_wikitext_body h title refresh w w1 _ Hf) as (rb & Hc & _).
  destruct rb as [data|e].
  2: { unfold fetch_wikitext in Hf. unfold bind at 1 in Hf. rewrite Hc in Hf. discriminate. }
  destruct (cached_request_outcome h _ refresh w _ _ Hc) as (_ & _ & Hout & _ & Hcases).
  split; [exact Hout|].
  destruct Hcases as [(_ & body & Hb & Hr & Hcache & Herr & _)|(_ & _ & [(e & Hr & _)|Hok])].
  - inversion Hr; subst. split; [exact Herr|]. exists body. split; [exact Hc|].
    now rewrite Hcache.
  - discriminate.
  - destruct Hok as (data' & resp & Hr & Hcache & Herr & _). inversion Hr; subst.
    split; [exact Herr|]. exists data'. split; [exact Hc|].
    rewrite Hcache. apply lookup_insert_eq.
Qed.

(** X12.  Saving a page again without [--refresh], after a save that
    returned, makes no network request: the page is read from the cache,
    the same path is returned and the file is written again, with the same
    text but for the date, which is that of the second save.  When the date
    has not changed the saved documents are as the first save left them.
    The output directories, the cache and both streams are unchanged. *)
Theorem save_again_from_cache (h : host) (title : string) (refresh : bool)
    (w w1 : world) (path : string) :
  Nesdev.save_wikitext_document h title refresh w = (Ok path, w1) ->
  exists w2 parsed text t,
    Nesdev.save_wikitext_document h title false w1 = (Ok path, w2)
    /\ docs w1 !! path
       = Some (spec_document h
                 (document_metadata parsed (JStr "NESDev contributors")
                    (utc_today h (log w1)) t) text)
    /\ docs w2
       = <[path := spec_document h
                     (document_metadata parsed (JStr "NESDev contributors")
                        (utc_today h (log w2)) t) text]> (docs w1)
    /\ (utc_today h (log w2) = utc_today h (log w1) -> docs w2 = docs w1)
    /\ dirs w2 = dirs w1 /\ cache w2 = cache w1
    /\ stdout w2 = stdout w1 /\ stderr w2 = stderr w1
    /\ network_requests w2 = network_requests w1
    /\ cache_reads w2 = S (cache_reads w1).
Proof.
  intros H.
  destruct (save_wikitext_document_ok h title refresh w path w1 H)
    as (parsed & text & wf & t & Hf & Ht & Hp & Ho & Hw1).
  destruct (fetch_wikitext_cached h title refresh w wf _ Hf) as (_ & _ & data & Hc & Hin).
  destruct (fetch_wikitext_body h title refresh w wf _ Hf) as (rb & Hc' & Hre).
  rewrite Hc in Hc'. inversion Hc'; subst rb. clear Hc'.
  assert (Hin1 : cache w1 !! cache_key h [("action", "parse"); ("format", "json");
                                           ("page", title); ("prop", "wikitext")]
                 = Some data) by (subst w1; exact Hin).
  pose proof (Hre false w1 _ (cached_request_hit h _ w1 data Hin1)) as Hf2.
  pose proof (save_wikitext_document_run h title false w1 _ parsed text t Hf2 Ht) as Hsave.
  cbv zeta in Hsave. rewrite <- Hp in Hsave.
  assert (Hd : ({[output_dir h]} ∪ dirs w1 : gset string) = dirs w1).
  { subst w1. simpl. rewrite (assoc_L (∪)), (idemp_L (∪)). reflexivity. }
  simpl dirs in Hsave. rewrite Hd in Hsave.
  assert (Ho1 : open_error h (dirs w1) path = None) by (subst w1; exact Ho).
  rewrite Ho1 in Hsave.
  eexists. exists parsed, text, t. split; [exact Hsave|].
  assert (Hlog : log w1 = log wf) by (subst w1; reflexivity).
  split; [subst w1; simpl; apply lookup_insert_eq|].
  split; [reflexivity|].
  split.
  { simpl. intros Hdate. rewrite Hdate. subst w1. simpl.
    now rewrite insert_insert_eq. }
  unfold network_requests, cache_reads. simpl.
  rewrite !List.filter_app, !length_app. simpl.
  repeat split; try reflexivity; lia.
Qed.

Lemma save_again_from_cache_witness :
  exists w1 w2,
    Nesdev.save_wikitext_document Sample.sample_host "PPU registers" false
      Sample.empty_world
    = (Ok "assets/nesdev/PPU_registers.wikitext", w1)
    /\ Nesdev.save_wikitext_document Sample.sample_host "PPU registers" false w1
       = (Ok "assets/nesdev/PPU_registers.wikitext", w2)
    /\ docs w2 = docs w1
    /\ network_requests w2 = network_requests w1.
Proof.
  destruct (Nesdev.save_wikitext_document Sample.sample_host "PPU registers" false
              Sample.empty_world) as [r w1] eqn:E.
  assert (Hr : r = Ok "assets/nesdev/PPU_registers.wikitext").
  { change r with (fst (r, w1)). rewrite <- E. vm_compute. reflexivity. }
  subst r.
  assert (Hlog : length (log w1) = 1%nat).
  { change w1 with (snd (Ok "assets/nesdev/PPU_registers.wikitext", w1)).
    rewrite <- E. vm_compute. reflexivity. }
  destruct (save_again_from_cache Sample.sample_host "PPU registers" false
              Sample.empty_world w1 _ E)
    as (w2 & parsed & text & t & Hs & _ & _ & Hd & _ & _ & _ & _ & Hn & Hreads).
  exists w1, w2. split; [reflexivity|]. split; [exact Hs|]. split; [|exact Hn].
  apply Hd. unfold utc_today, Sample.sample_host, Sample.clock.
  assert (Hlog2 : length (log w2) = 2%nat).
  { unfold cache_reads, network_requests in *.
    pose proof (List.filter_length is_get (log w2)) as H2.
    pose proof (List.filter_length is_get (log w1)) as H1. lia. }
  now rewrite Hlog, Hlog2.
Defined.

(** The date of the second save is the one on the file: on a later day the
    document changes though nothing was fetched. *)
Example sample_save_next_day :
  let late := set_log (repeat (CacheRead "x") 8) Sample.empty_world in
  let w1 := snd (Nesdev.save_wikitext_document Sample.sample_host "PPU registers" false
                   late) in
  let w2 := snd (Nesdev.save_wikitext_document Sample.sample_host "PPU registers" false
                   w1) in
  network_requests w2 = network_requests w1
  /\ docs w2 <> docs w1.
Proof.
  split; [vm_compute; reflexivity|].
  intros H.
  assert (Hk : docs (snd (Nesdev.save_wikitext_document Sample.sample_host "PPU registers"
                            false
                            (snd (Nesdev.save_wikitext_document Sample.sample_host
                                    "PPU registers" false
                                    (set_log (repeat (CacheRead "x") 8)
                                       Sample.empty_world)))))
               !! "assets/nesdev/PPU_registers.wikitext"
               = docs (snd (Nesdev.save_wikitext_document Sample.sample_host
                              "PPU registers" false
                              (set_log (repeat (CacheRead "x") 8) Sample.empty_world)))
                 !! "assets/nesdev/PPU_registers.wikitext")
    by (cbv zeta in H; now rewrite H).
  vm_compute in Hk. discriminate.
Qed.

(** X13.  A save that returns has written one document, and no other file
    but the cache entry of its own request: the path is the output
    directory joined with the slug of the title the wiki gave (of the
    requested title when the wiki gave none) and [.wikitext]; the output
    directory exists afterwards; every other document, every cache entry
    but that of the parse request, and both streams are as before. *)
Theorem save_writes_one_document (h : host) (title : string) (refresh : bool)
    (w w' : world) (path : string) :
  Nesdev.save_wikitext_document h title refresh w = (Ok path, w') ->
  (exists parsed text w1 t,
     fetch_wikitext h title refresh w = (Ok (parsed, JStr text), w1)
     /\ wiki_title parsed title = Some t
     /\ path = path_join h (output_dir h) (underscored t +:+ ".wikitext"))
  /\ is_Some (docs w' !! path)
  /\ (forall p, p <> path -> docs w' !! p = docs w !! p)
  /\ dirs w' = {[output_dir h]} ∪ dirs w
  /\ (forall k,
        k <> cache_key h [("action", "parse"); ("format", "json"); ("page", title);
                          ("prop", "wikitext")] ->
        cache w' !! k = cache w !! k)
  /\ is_Some (cache w' !! cache_key h [("action", "parse"); ("format", "json");
                                       ("page", title); ("prop", "wikitext")])
  /\ stdout w' = stdout w /\ stderr w' = stderr w.
Proof.
  intros H.
  destruct (save_wikitext_document_ok h title refresh w path w' H)
    as (parsed & text & wf & t & Hf & Ht & Hpath & _ & Hw').
  destruct (keeps_docs_fetch_wikitext h title refresh w _ _ Hf) as [Hdocs Hdirs].
  destruct (fetch_wikitext_cached h title refresh w wf _ Hf)
    as (Hout & Herr & data & Hc & Hin).
  split; [exists parsed, text, wf, t; auto|].
  subst w'. simpl. rewrite Hdocs, Hdirs.
  split; [rewrite lookup_insert_eq; eauto|].
  split; [intros p Hp; apply lookup_insert_ne; congruence|].
  split; [reflexivity|].
  split.
  { intros k Hk.
    destruct (cached_request_outcome h _ refresh w _ _ Hc)
      as (_ & _ & _ & _ & [(_ & body & _ & _ & Hk1 & _)|(_ & _ & [(e & He & _)|Hok])]).
    - now rewrite Hk1.
    - discriminate.
    - destruct Hok as (data' & resp & _ & Hk1 & _). rewrite Hk1.
      apply lookup_insert_ne. congruence. }
  split; [rewrite Hin; eauto|]. auto.
Qed.

Lemma save_writes_one_document_witness :
  exists w',
    Nesdev.save_wikitext_document Sample.sample_host "PPU registers" false
      Sample.empty_world
    = (Ok "assets/nesdev/PPU_registers.wikitext", w')
    /\ is_Some (docs w' !! "assets/nesdev/PPU_registers.wikitext")
    /\ dirs w' = {[output_dir Sample.sample_host]} ∪ dirs Sample.empty_world
    /\ is_Some (cache w' !! cache_key Sample.sample_host
                               (Sample.parse_query "PPU registers")).
Proof.
  destruct (Nesdev.save_wikitext_document Sample.sample_host "PPU registers" false
              Sample.empty_world) as [r w'] eqn:E.
  assert (Hr : r = Ok "assets/nesdev/PPU_registers.wikitext").
  { change r with (fst (r, w')). rewrite <- E. vm_compute. reflexivity. }
  subst r.
  destruct (save_writes_one_document Sample.sample_host "PPU registers" false
              Sample.empty_world w' _ E) as (_ & Hs & _ & Hd & _ & Hc & _).
  exists w'. repeat split; assumption.
Defined.

(** ** More on [grab] *)

(** A search result has a string title. *)
Lemma search_result_title (v : json) :
  is_search_result v = true -> exists t, Py.subscript v "title" = Ok (JStr t).
Proof.
  destruct v as [| | | | |d]; simpl; try discriminate.
  destruct (Dict.get "title" d) as [[| | |t| |]|]; try discriminate. eauto.
Qed.

(** X14.  With a pick in range, 1 to the number of results, [grab] prints
    the listing and then saves the result at that rank (counted from 1): it
    is the save of that result's title, run after the listing, followed by
    one line that names the pick, the title and the path.  An error of the
    save is the error of [grab].  Up to the save no document is written. *)
Theorem grab_saves_pick (h : host) (term : string) (limit pick : Z)
    (refresh : bool) (w w1 : world) (items : list json) :
  Nesdev.search_pages h term limit refresh w = (Ok (JArr items), w1) ->
  forallb is_search_result items = true ->
  1 <= pick <= Z.of_nat (length items) ->
  exists w2 chosen t,
    Nesdev.print_search_results h (JArr items) w1 = (Ok tt, w2)
    /\ items !! Z.to_nat (pick - 1) = Some chosen
    /\ Py.subscript chosen "title" = Ok (JStr t)
    /\ docs w2 = docs w /\ dirs w2 = dirs w
    /\ Nesdev.command_grab h term limit (Some pick) refresh w
       = match Nesdev.save_wikitext_document h t refresh w2 with
         | (Ok path, w3) =>
             (Ok tt,
              set_stdout (stdout w3 ++ [("Saved result #" +:+ PyStr.of_int pick +:+ " ("
                                         +:+ t +:+ ") to " +:+ path) +:+ PyStr.nl])%list w3)
         | (Err e, w3) => (Err e, w3)
         end.
Proof.
  intros Hs Hwf Hp.
  destruct (print_results_from_ok h items 1 w1 Hwf) as [w2 Hpr].
  assert (Hne : items <> []) by (destruct items; [simpl in Hp; lia | discriminate]).
  assert (Hprint : Nesdev.print_search_results h (JArr items) w1 = (Ok tt, w2)).
  { unfold Nesdev.print_search_results. destruct items as [|r items]; [contradiction|].
    exact Hpr. }
  assert (Hlt : (Z.to_nat (pick - 1) < length items)%nat) by lia.
  destruct (lookup_lt_is_Some_2 items _ Hlt) as [chosen Hchosen].
  assert (Hres : is_search_result chosen = true).
  { rewrite forallb_forall in Hwf. apply Hwf.
    apply list_elem_of_In, list_elem_of_lookup. eauto. }
  destruct (search_result_title chosen Hres) as [t Ht].
  exists w2, chosen, t. split; [exact Hprint|].
  split; [exact Hchosen|]. split; [exact Ht|].
  destruct (keeps_docs_search_pages h term limit refresh w _ _ Hs) as [H1 H2].
  destruct (keeps_docs_print_search_results h (JArr items) _ _ _ Hprint) as [H3 H4].
  split; [congruence|]. split; [congruence|].
  unfold Nesdev.command_grab. unfold bind at 1. rewrite Hs.
  unfold bind at 1. rewrite Hprint.
  destruct items as [|r items]; [contradiction|].
  change (negb (Py.truthy (JArr (r :: items)))) with false. cbv iota.
  unfold bind at 1. unfold lift at 1. unfold Nesdev.len.
  assert (Hc : (pick - 1 <? 0) || (Z.of_nat (length (r :: items)) <=? pick - 1) = false).
  { apply orb_false_iff. split; [apply Z.ltb_ge | apply Z.leb_gt]; lia. }
  rewrite Hc. unfold bind at 1. unfold lift at 1. unfold Nesdev.item. rewrite Hchosen.
  unfold bind at 1. unfold lift at 1. rewrite Ht.
  unfold bind.
  destruct (Nesdev.save_wikitext_document h t refresh w2) as [[path|e] w3]; reflexivity.
Qed.

Lemma grab_saves_pick_witness :
  exists w1 items w2 chosen t,
    Nesdev.search_pages Sample.sample_host "PPU" 20 false Sample.empty_world
    = (Ok (JArr items), w1)
    /\ forallb is_search_result items = true
    /\ 1 <= 2 <= Z.of_nat (length items)
    /\ Nesdev.print_search_results Sample.sample_host (JArr items) w1 = (Ok tt, w2)
    /\ items !! Z.to_nat (2 - 1) = Some chosen
    /\ Py.subscript chosen "title" = Ok (JStr t)
    /\ docs w2 = docs Sample.empty_world.
Proof.
  destruct (Nesdev.search_pages Sample.sample_host "PPU" 20 false Sample.empty_world)
    as [r w1] eqn:E.
  assert (Hr : r = Ok (JArr [Sample.hit "PPU registers"; Sample.hit "PPU scrolling"])).
  { change r with (fst (r, w1)). rewrite <- E. vm_compute. reflexivity. }
  subst r.
  assert (Hwf : forallb is_search_result
                  [Sample.hit "PPU registers"; Sample.hit "PPU scrolling"] = true)
    by reflexivity.
  assert (Hp : 1 <= 2 <= Z.of_nat (length [Sample.hit "PPU registers";
                                             Sample.hit "PPU scrolling"]))
    by (simpl; lia).
  destruct (grab_saves_pick Sample.sample_host "PPU" 20 2 false Sample.empty_world w1 _
              E Hwf Hp) as (w2 & chosen & t & H1 & H2 & H3 & H4 & _).
  exists w1, [Sample.hit "PPU registers"; Sample.hit "PPU scrolling"], w2, chosen, t.
  repeat split; try assumption; simpl; lia.
Defined.

(** ** The commands of [nesdev_pages.py] *)

(** X15.  [fetch] does not mind a page without content: when the parse
    object of the answer is not empty and has no entry for the requested
    representation, or that entry has no [*], the command prints an empty
    line and returns.  [fetch_wikitext], which the save commands use,
    raises a [WikiError] on the same answer.  An empty parse object is no
    parse data for both: each raises the [WikiError] that says so. *)
Theorem pages_fetch_without_content (h : host) (title content_format : string)
    (refresh : bool) (w w1 : world) (body members : Dict.t json) :
  let prop := if String.eqb content_format "wikitext" then "wikitext" else "text" in
  cached_request h [("action", "parse"); ("format", "json"); ("page", title);
                    ("prop", prop)] refresh w = (Ok (JObj body), w1) ->
  Dict.get "parse" body = Some (JObj members) ->
  (members <> [] ->
   (Dict.get prop members = None
    \/ exists holder, Dict.get prop members = Some (JObj holder)
                      /\ Dict.get "*" holder = None) ->
   PagesCommands.command_fetch h title content_format refresh w
   = (Ok tt, set_stdout (stdout w1 ++ [PyStr.nl])%list w1)
   /\ (content_format = "wikitext" ->
       fetch_wikitext h title refresh w
       = (Err (WikiError (JStr "Page did not include wikitext content.")), w1)))
  /\ (members = [] ->
      PagesCommands.command_fetch h title content_format refresh w
      = (Err (WikiError (JStr "No parse data returned; ensure the title exists.")), w1)
      /\ (content_format = "wikitext" ->
          fetch_wikitext h title refresh w
          = (Err (WikiError (JStr "No parse data returned; ensure the title exists.")),
             w1))).
Proof.
  intros prop Hc Hparse. split.
  - intros Hne Hcontent.
    assert (Ht : negb (Py.truthy (JObj members)) = false).
    { destruct members; [contradiction | reflexivity]. }
    split.
    + unfold PagesCommands.command_fetch. fold prop. unfold bind at 1. rewrite Hc.
      unfold bind at 1, lift at 1. unfold Py.get at 1. rewrite Hparse.
      rewrite Ht. subst prop.
      destruct (String.eqb content_format "wikitext");
        unfold bind, lift, Py.get, print, write;
        destruct Hcontent as [Hnone|(holder & Hsome & Hstar)];
        rewrite ?Hnone, ?Hsome; simpl; rewrite ?Hstar; reflexivity.
    + intros ->. subst prop. simpl in Hc, Hcontent.
      unfold fetch_wikitext. unfold bind at 1. rewrite Hc.
      unfold bind at 1, lift at 1. unfold Py.get at 1. rewrite Hparse.
      rewrite Ht. unfold bind, lift, Py.get, raise.
      destruct Hcontent as [Hnone|(holder & Hsome & Hstar)];
        rewrite ?Hnone, ?Hsome; simpl; rewrite ?Hstar; reflexivity.
  - intros ->. split.
    + unfold PagesCommands.command_fetch. fold prop. unfold bind at 1. rewrite Hc.
      unfold bind at 1, lift at 1. unfold Py.get at 1. rewrite Hparse. reflexivity.
    + intros ->. subst prop. simpl in Hc.
      unfold fetch_wikitext. unfold bind at 1. rewrite Hc.
      unfold bind at 1, lift at 1. unfold Py.get at 1. rewrite Hparse. reflexivity.
Qed.

Lemma pages_fetch_without_content_witness :
  exists w1,
    cached_request Sample2.bare_host (Sample.parse_query "Bare") false Sample.empty_world
    = (Ok (JObj [("parse", JObj [("title", JStr "Bare"); ("pageid", JInt 1)])]), w1)
    /\ PagesCommands.command_fetch Sample2.bare_host "Bare" "wikitext" false
         Sample.empty_world
       = (Ok tt, set_stdout (stdout w1 ++ [PyStr.nl])%list w1)
    /\ fetch_wikitext Sample2.bare_host "Bare" false Sample.empty_world
       = (Err (WikiError (JStr "Page did not include wikitext content.")), w1).
Proof.
  destruct (cached_request Sample2.bare_host (Sample.parse_query "Bare") false
              Sample.empty_world) as [r w1] eqn:E.
  assert (Hr : r = Ok (JObj [("parse", JObj [("title", JStr "Bare"); ("pageid", JInt 1)])])).
  { change r with (fst (r, w1)). rewrite <- E. vm_compute. reflexivity. }
  subst r. exists w1. split; [reflexivity|].
  assert (Hne : [("title", JStr "Bare"); ("pageid", JInt 1)] <> ([] : Dict.t json))
    by discriminate.
  destruct (proj1 (pages_fetch_without_content Sample2.bare_host "Bare" "wikitext" false
                     Sample.empty_world w1 _ _ E eq_refl) Hne (or_introl eq_refl))
    as [H1 H2].
  split; [exact H1 | exact (H2 eq_refl)].
Defined.

Section PagesFrames.
Context (h : host).

Lemma keeps_docs_for_each {A : Type} (body : A -> M unit) (l : list A) :
  (forall a, keeps_docs (body a)) -> keeps_docs (for_each body l).
Proof.
  intros Hb. induction l as [|a l IH]; simpl.
  - apply keeps_docs_ret.
  - apply keeps_docs_bind; [apply Hb | intros _; exact IH].
Qed.

Lemma keeps_docs_pages_print_result (result : json) :
  keeps_docs (PagesCommands.print_result h result).
Proof.
  unfold PagesCommands.print_result.
  apply keeps_docs_bind; [apply keeps_docs_lift|]. intros raw.
  apply keeps_docs_bind; [apply keeps_docs_lift|]. intros s1.
  apply keeps_docs_bind; [apply keeps_docs_lift|]. intros title.
  apply keeps_docs_bind; [apply keeps_docs_lift|]. intros size.
  apply keeps_docs_bind; [apply keeps_docs_print|]. intros _.
  destruct (negb _); [apply keeps_docs_print | apply keeps_docs_ret].
Qed.

Lemma keeps_docs_pages_command_search (term : string) (limit : Z) (fmt : string)
    (refresh : bool) :
  keeps_docs (PagesCommands.command_search h term limit fmt refresh).
Proof.
  unfold PagesCommands.command_search.
  apply keeps_docs_bind; [apply keeps_docs_cached_request|]. intros data.
  apply keeps_docs_bind; [apply keeps_docs_lift|]. intros query.
  apply keeps_docs_bind; [apply keeps_docs_lift|]. intros results.
  destruct (String.eqb fmt "json").
  - destruct results; try apply keeps_docs_raise.
    apply keeps_docs_bind; [apply keeps_docs_write | intros _; apply keeps_docs_write].
  - unfold PagesCommands.print_results.
    destruct results as [| | |s|items|d]; try apply keeps_docs_raise.
    + destruct s; [apply keeps_docs_ret | apply keeps_docs_raise].
    + apply keeps_docs_for_each, keeps_docs_pages_print_result.
    + destruct d; [apply keeps_docs_ret | apply keeps_docs_raise].
Qed.

Lemma keeps_docs_pages_command_fetch (title content_format : string) (refresh : bool) :
  keeps_docs (PagesCommands.command_fetch h title content_format refresh).
Proof.
  unfold PagesCommands.command_fetch.
  apply keeps_docs_bind; [apply keeps_docs_cached_request|]. intros data.
  apply keeps_docs_bind; [apply keeps_docs_lift|]. intros parsed.
  destruct (negb (Py.truthy parsed)); [apply keeps_docs_raise|].
  destruct (String.eqb content_format "wikitext");
    (apply keeps_docs_bind; [apply keeps_docs_lift|]; intros holder;
     apply keeps_docs_bind; [apply keeps_docs_lift|]; intros content;
     apply keeps_docs_print).
Qed.

Lemma keeps_docs_output_list (pages_list : list NesdevPages.page_record) (fmt : string) :
  keeps_docs (NesdevPages.output_list h pages_list fmt).
Proof.
  unfold NesdevPages.output_list.
  destruct (String.eqb fmt "json").
  - apply keeps_docs_bind; [apply keeps_docs_write | intros _; apply keeps_docs_write].
  - destruct (String.eqb fmt "csv").
    + apply keeps_docs_bind; [apply keeps_docs_write|]. intros _.
      apply keeps_docs_for_each. intros a. apply keeps_docs_write.
    + apply keeps_docs_for_each. intros a. apply keeps_docs_print.
Qed.

Lemma handle_keeps_docs (r : result unit) (w : world) :
  docs (snd (handle h r w)) = docs w /\ dirs (snd (handle h r w)) = dirs w.
Proof.
  unfold handle. destruct r as [u|e]; [auto|]. destruct (handled e); auto.
Qed.

Lemma run_command_keeps_docs (c : M unit) (w : world) :
  keeps_docs c ->
  docs (snd (run_command h c w)) = docs w /\ dirs (snd (run_command h c w)) = dirs w.
Proof.
  intros Hk. unfold run_command. destruct (c w) as [r w'] eqn:E.
  destruct (Hk _ _ _ E) as [H1 H2].
  destruct (handle_keeps_docs r w') as [H3 H4]. split; congruence.
Qed.
End PagesFrames.

(** X16.  Only [save] writes documents: [list], [search] and [fetch] of
    [nesdev_pages.py] leave the saved documents and the output directories
    as they were, whatever the wiki answers and however the command ends. *)
Theorem pages_only_save_writes (h : host) (REPO_ROOT : string) (Path : string -> string)
    (fuel : nat) (refresh : bool) (c : PagesCommands.command) (w : world) :
  (forall args, c <> PagesCommands.Save args) ->
  docs (snd (PagesCommands.main h REPO_ROOT Path fuel refresh c w)) = docs w
  /\ dirs (snd (PagesCommands.main h REPO_ROOT Path fuel refresh c w)) = dirs w.
Proof.
  intros Hc. destruct c as [args|term limit fmt|title fmt|args]; simpl.
  - unfold NesdevPages.main, NesdevPages.command_list. simpl.
    destruct (NesdevPages.iter_pages h fuel _ _ _ _ w) as [[out e] w1] eqn:E.
    destruct (walk_frame h _ _ _ _ fuel 0 JNull w _ _ _ E) as (_ & Hd & Hr).
    destruct e as [|e|].
    + destruct (NesdevPages.output_list h out _ w1) as [r w2] eqn:Eo.
      destruct (keeps_docs_output_list h out _ _ _ _ Eo) as [H1 H2].
      destruct (handle_keeps_docs h r w2) as [H3 H4]. split; congruence.
    + destruct (handle_keeps_docs h (Err e) w1) as [H3 H4]. split; congruence.
    + simpl. auto.
  - apply run_command_keeps_docs, keeps_docs_pages_command_search.
  - apply run_command_keeps_docs, keeps_docs_pages_command_fetch.
  - exfalso. exact (Hc args eq_refl).
Qed.

Lemma pages_only_save_writes_witness :
  (forall args, PagesCommands.Fetch "PPU" "wikitext" <> PagesCommands.Save args)
  /\ docs (snd (PagesCommands.main Sample.sample_host Sample2.REPO_ROOT Sample2.Path 3
                  false (PagesCommands.Fetch "PPU" "wikitext") Sample.empty_world))
     = docs Sample.empty_world.
Proof.
  assert (H : forall args, PagesCommands.Fetch "PPU" "wikitext" <> PagesCommands.Save args)
    by (intros args; discriminate).
  split; [exact H|].
  exact (proj1 (pages_only_save_writes Sample.sample_host Sample2.REPO_ROOT Sample2.Path 3
                  false (PagesCommands.Fetch "PPU" "wikitext") Sample.empty_world H)).
Defined.

(** X17.  The two save commands agree on the defaults: without [--slug],
    [--output-path] and [--date], with the default author and with the
    output directory of [nesdev.py], [save] of [nesdev_pages.py] does what
    [save] of [nesdev.py] does, errors and printed line included. *)
Theorem pages_save_as_nesdev (h : host) (REPO_ROOT : string) (Path : string -> string)
    (args : PagesCommands.save_args) (refresh : bool) (w : world) :
  PagesCommands.given (PagesCommands.save_slug args) = None ->
  PagesCommands.given (PagesCommands.save_output_path args) = None ->
  PagesCommands.given (PagesCommands.save_date args) = None ->
  PagesCommands.save_author args = JStr "NESDev contributors" ->
  PagesCommands.resolve_repo_path h REPO_ROOT Path (PagesCommands.save_output_dir args)
    (PagesCommands.default_output_dir h REPO_ROOT) = output_dir h ->
  PagesCommands.command_save h REPO_ROOT Path args refresh w
  = Nesdev.command_save h (PagesCommands.save_title args) refresh w.
Proof.
  intros Hslug Hpath Hdate Hauthor Hdir.
  unfold PagesCommands.command_save, Nesdev.command_save, Nesdev.save_wikitext_document.
  rewrite Hslug, Hpath, Hdate, Hauthor, Hdir.
  unfold bind, lift, Nesdev.mkdir, Nesdev.write_file, Nesdev.today, ret, print, write.
  destruct (fetch_wikitext h (PagesCommands.save_title args) refresh w)
    as [[[parsed wikitext]|e] w1]; [|reflexivity].
  simpl fst. simpl snd.
  destruct (Py.bind (Nesdev.parsed_title parsed (PagesCommands.save_title args))
              title_to_slug) as [slug|e]; [|reflexivity].
  destruct (Py.get parsed "title" JNull) as [m_title|e]; [|reflexivity].
  destruct (Py.get parsed "pageid" JNull) as [m_pageid|e]; [|reflexivity].
  destruct (Py.get parsed "revid" JNull) as [m_revid|e]; [|reflexivity].
  destruct (Py.rstrip_nl wikitext) as [content|e]; [|reflexivity].
  simpl dirs. destruct (open_error h _ _); reflexivity.
Qed.

Lemma pages_save_as_nesdev_witness :
  PagesCommands.command_save Sample2.repo_host Sample2.REPO_ROOT Sample2.Path
    (Sample2.plain_save "PPU registers") false Sample.empty_world
  = Nesdev.command_save Sample2.repo_host "PPU registers" false Sample.empty_world
  /\ fst (Nesdev.command_save Sample2.repo_host "PPU registers" false Sample.empty_world)
     = Ok tt.
Proof.
  split; [|vm_compute; reflexivity].
  apply (pages_save_as_nesdev Sample2.repo_host Sample2.REPO_ROOT Sample2.Path
           (Sample2.plain_save "PPU registers") false Sample.empty_world);
    vm_compute; reflexivity.
Defined.

(** The file of a save of [nesdev_pages.py]: under the output directory at
    the given slug, or at the slug of the page's title; at the path given
    with [--output-path] when there is one. *)
Lemma pages_command_save_run (h : host) (REPO_ROOT : string) (Path : string -> string)
    (args : PagesCommands.save_args) (refresh : bool) (w w1 : world)
    (parsed : json) (text t : string) :
  fetch_wikitext h (PagesCommands.save_title args) refresh w
  = (Ok (parsed, JStr text), w1) ->
  wiki_title parsed (PagesCommands.save_title args) = Some t ->
  let dir :=
    PagesCommands.resolve_repo_path h REPO_ROOT Path (PagesCommands.save_output_dir args)
      (PagesCommands.default_output_dir h REPO_ROOT) in
  let slug :=
    match PagesCommands.given (PagesCommands.save_slug args) with
    | Some s => underscored s
    | None => underscored t
    end in
  let path :=
    match PagesCommands.given (PagesCommands.save_output_path args) with
    | Some _ =>
        PagesCommands.resolve_repo_path h REPO_ROOT Path
          (PagesCommands.save_output_path args) (path_join h dir (slug +:+ ".wikitext"))
    | None => path_join h dir (slug +:+ ".wikitext")
    end in
  let date :=
    match PagesCommands.given (PagesCommands.save_date args) with
    | Some d => d
    | None => utc_today h (log w1)
    end in
  let made := set_dirs ({[dir]} ∪ dirs w1) w1 in
  PagesCommands.command_save h REPO_ROOT Path args refresh w
  = match open_error h ({[dir]} ∪ dirs w1) path with
    | None =>
        (Ok tt,
         set_stdout (stdout w1 ++ [("Wrote " +:+ path) +:+ PyStr.nl])%list
           (set_docs (<[path := spec_document h
                                 (document_metadata parsed (PagesCommands.save_author args)
                                    date t) text]> (docs w1)) made))
    | Some name => (Err (PyError name), made)
    end.
Proof.
  intros Hf Ht dir slug path date made.
  unfold PagesCommands.command_save. unfold bind at 1. rewrite Hf.
  simpl fst. simpl snd.
  destruct parsed as [| | | | |d]; try discriminate.
  assert (Hpt : Nesdev.parsed_title (JObj d) (PagesCommands.save_title args) = Ok (JStr t)).
  { unfold Nesdev.parsed_title, Py.get. simpl in Ht.
    destruct (Dict.get "title" d) as [[| | |t'| |]|]; try discriminate; now inversion Ht. }
  rewrite Hpt. simpl Py.bind. unfold title_to_slug, Py.replace.
  rewrite !replace_space_underscored.
  fold dir.
  assert (Hslug : match PagesCommands.given (PagesCommands.save_slug args) with
                  | Some s => Ok (PyStr.replace " " "_" s)
                  | None => Ok (underscored t)
                  end = Ok slug).
  { unfold slug. destruct (PagesCommands.given (PagesCommands.save_slug args));
      [now rewrite replace_space_underscored | reflexivity]. }
  rewrite Hslug.
  unfold bind at 1. unfold lift at 1.
  unfold bind at 1. unfold Nesdev.mkdir at 1.
  fold path.
  unfold bind at 1. unfold lift at 1. unfold Py.get at 1.
  assert (Hdate : (match PagesCommands.given (PagesCommands.save_date args) with
                   | Some d0 => ret d0
                   | None => Nesdev.today h
                   end) made = (Ok date, made)).
  { unfold date. destruct (PagesCommands.given (PagesCommands.save_date args)); reflexivity. }
  fold made. unfold bind at 1. rewrite Hdate.
  unfold bind, lift, Nesdev.write_file, ret, print, write, Py.get, Py.rstrip_nl.
  simpl dirs. simpl docs.
  rewrite format_metadata_wikitext_spec.
  destruct (open_error h ({[dir]} ∪ dirs w1) path); reflexivity.
Qed.

(** A save of [nesdev_pages.py] that returns had a page with a title and a
    text. *)
Lemma pages_command_save_fetched (h : host) (REPO_ROOT : string) (Path : string -> string)
    (args : PagesCommands.save_args) (refresh : bool) (w w' : world) :
  PagesCommands.command_save h REPO_ROOT Path args refresh w = (Ok tt, w') ->
  exists parsed text w1 t,
    fetch_wikitext h (PagesCommands.save_title args) refresh w
    = (Ok (parsed, JStr text), w1)
    /\ wiki_title parsed (PagesCommands.save_title args) = Some t.
Proof.
  intros H. unfold PagesCommands.command_save in H. unfold bind at 1 in H.
  destruct (fetch_wikitext h (PagesCommands.save_title args) refresh w)
    as [[[parsed wikitext]|e] w1] eqn:Hf; [|discriminate].
  destruct (fetch_wikitext_parsed h _ refresh w w1 parsed wikitext Hf) as [[d ->] _].
  simpl fst in H. simpl snd in H.
  unfold Nesdev.parsed_title, Py.get in H.
  unfold bind, lift, Nesdev.mkdir, Nesdev.write_file, ret, print, write, Py.rstrip_nl in H.
  exists (JObj d). simpl wiki_title.
  destruct (Dict.get "title" d) as [[| | |t| |]|];
    destruct (PagesCommands.given (PagesCommands.save_slug args));
    simpl in H; try discriminate;
    destruct (PagesCommands.given (PagesCommands.save_date args));
    simpl in H; try discriminate;
    destruct wikitext as [| | |text| |]; try discriminate; eauto.
Qed.

(** X18.  [--slug] renames the file and nothing else.  A save with a slug
    and no [--output-path] that returns has written the document of the
    page under the output directory at the slug (spaces replaced) with
    [.wikitext].  The same save without the slug writes the same text,
    source line included, at the name made from the title the wiki gave,
    when that file can be opened; when it cannot, as for a title with a
    [/] whose directory was never made, it raises the error of [open] and
    writes no document. *)
Theorem pages_save_slug_renames (h : host) (REPO_ROOT : string) (Path : string -> string)
    (args : PagesCommands.save_args) (refresh : bool) (w w' : world) (s : string) :
  PagesCommands.given (PagesCommands.save_slug args) = Some s ->
  PagesCommands.given (PagesCommands.save_output_path args) = None ->
  PagesCommands.command_save h REPO_ROOT Path args refresh w = (Ok tt, w') ->
  let dir :=
    PagesCommands.resolve_repo_path h REPO_ROOT Path (PagesCommands.save_output_dir args)
      (PagesCommands.default_output_dir h REPO_ROOT) in
  exists parsed text w1 t,
    let document :=
      spec_document h
        (document_metadata parsed (PagesCommands.save_author args)
           match PagesCommands.given (PagesCommands.save_date args) with
           | Some d => d
           | None => utc_today h (log w1)
           end t) text in
    let renamed := path_join h dir (underscored s +:+ ".wikitext") in
    let plain := path_join h dir (underscored t +:+ ".wikitext") in
    fetch_wikitext h (PagesCommands.save_title args) refresh w
    = (Ok (parsed, JStr text), w1)
    /\ wiki_title parsed (PagesCommands.save_title args) = Some t
    /\ docs w' = <[renamed := document]> (docs w)
    /\ dirs w' = {[dir]} ∪ dirs w
    /\ exists w0,
         dirs w0 = dirs w'
         /\ match open_error h ({[dir]} ∪ dirs w) plain with
            | None =>
                PagesCommands.command_save h REPO_ROOT Path (without_slug args) refresh w
                = (Ok tt, w0)
                /\ docs w0 = <[plain := document]> (docs w)
            | Some name =>
                PagesCommands.command_save h REPO_ROOT Path (without_slug args) refresh w
                = (Err (PyError name), w0)
                /\ docs w0 = docs w
            end.
Proof.
  intros Hslug Hpath H dir.
  destruct (pages_command_save_fetched h REPO_ROOT Path args refresh w w' H)
    as (parsed & text & w1 & t & Hf & Ht).
  destruct (keeps_docs_fetch_wikitext h _ refresh w _ _ Hf) as [Hdocs Hdirs].
  pose proof (pages_command_save_run h REPO_ROOT Path args refresh w w1 parsed text t Hf Ht)
    as Hrun.
  pose proof (pages_command_save_run h REPO_ROOT Path (without_slug args) refresh w w1
                parsed text t Hf Ht) as Hplain.
  cbv zeta in Hrun, Hplain. simpl in Hplain.
  rewrite Hslug, Hpath in Hrun. rewrite Hpath in Hplain. fold dir in Hrun, Hplain.
  rewrite Hrun in H.
  destruct (open_error h ({[dir]} ∪ dirs w1)
              (path_join h dir (underscored s +:+ ".wikitext"))); [discriminate|].
  inversion H; subst w'. clear H.
  exists parsed, text, w1, t. cbv zeta.
  split; [exact Hf|]. split; [exact Ht|].
  split; [simpl; now rewrite Hdocs|].
  split; [simpl; now rewrite Hdirs|].
  rewrite <- Hdirs. rewrite Hplain.
  destruct (open_error h ({[dir]} ∪ dirs w1)
              (path_join h dir (underscored t +:+ ".wikitext"))).
  - eexists. split; [|split; [reflexivity|]]; simpl; [reflexivity | exact Hdocs].
  - eexists. split; [|split; [reflexivity|]]; simpl; [reflexivity | now rewrite Hdocs].
Qed.

Lemma pages_save_slug_renames_witness :
  exists w' w0 document,
    PagesCommands.command_save Sample2.repo_host Sample2.REPO_ROOT Sample2.Path
      (Sample2.renamed_save "PPU registers" "ppu regs") false Sample.empty_world
    = (Ok tt, w')
    /\ docs w' = {["/repo/assets/nesdev/ppu_regs.wikitext" := document]}
    /\ PagesCommands.command_save Sample2.repo_host Sample2.REPO_ROOT Sample2.Path
         (without_slug (Sample2.renamed_save "PPU registers" "ppu regs")) false
         Sample.empty_world
       = (Ok tt, w0)
    /\ docs w0 = {["/repo/assets/nesdev/PPU_registers.wikitext" := document]}.
Proof.
  destruct (PagesCommands.command_save Sample2.repo_host Sample2.REPO_ROOT Sample2.Path
              (Sample2.renamed_save "PPU registers" "ppu regs") false Sample.empty_world)
    as [r w'] eqn:E.
  assert (Hr : r = Ok tt).
  { change r with (fst (r, w')). rewrite <- E. vm_compute. reflexivity. }
  subst r.
  destruct (pages_save_slug_renames Sample2.repo_host Sample2.REPO_ROOT Sample2.Path
              (Sample2.renamed_save "PPU registers" "ppu regs") false Sample.empty_world
              w' "ppu regs" eq_refl eq_refl E)
    as (parsed & text & w1 & t & Hf & Ht & Hd & _ & w0 & _ & Hplain).
  assert (Hparsed : (parsed, JStr text)
                    = (JObj [("title", JStr "PPU registers"); ("pageid", JInt 7);
                             ("revid", JInt 9);
                             ("wikitext", JObj [("*", JStr ("Some text" +:+ PyStr.nl
                                                            +:+ PyStr.nl))])],
                       JStr ("Some text" +:+ PyStr.nl +:+ PyStr.nl))).
  { assert (Hfst : fst (fetch_wikitext Sample2.repo_host "PPU registers" false
                          Sample.empty_world) = Ok (parsed, JStr text))
      by (simpl in Hf; rewrite Hf; reflexivity).
    vm_compute in Hfst. inversion Hfst. reflexivity. }
  inversion Hparsed; subst parsed text. vm_compute in Ht. inversion Ht; subst t.
  assert (Ho : open_error Sample2.repo_host
                 ({[PagesCommands.resolve_repo_path Sample2.repo_host Sample2.REPO_ROOT
                      Sample2.Path
                      (PagesCommands.save_output_dir
                         (Sample2.renamed_save "PPU registers" "ppu regs"))
                      (PagesCommands.default_output_dir Sample2.repo_host
                         Sample2.REPO_ROOT)]} ∪ dirs Sample.empty_world)
                 (path_join Sample2.repo_host
                    (PagesCommands.resolve_repo_path Sample2.repo_host Sample2.REPO_ROOT
                       Sample2.Path
                       (PagesCommands.save_output_dir
                          (Sample2.renamed_save "PPU registers" "ppu regs"))
                       (PagesCommands.default_output_dir Sample2.repo_host
                          Sample2.REPO_ROOT))
                    (underscored "PPU registers" +:+ ".wikitext")) = None)
    by (vm_compute; reflexivity).
  rewrite Ho in Hplain. destruct Hplain as [Hs Hd0].
  eexists w', w0, _. split; [reflexivity|].
  split; [exact Hd|]. split; [exact Hs | exact Hd0].
Defined.

(** A page whose title has a [/]: the directory of its file was never
    made, and the save ends with the error of [open]. *)
Example sample_save_subpage :
  fst (Nesdev.main Sample.sample_host false (Nesdev.Save "A/B") Sample.empty_world)
  = Traceback (PyError "FileNotFoundError")
  /\ docs (snd (Nesdev.main Sample.sample_host false (Nesdev.Save "A/B")
                  Sample.empty_world)) = ∅.
Proof. split; vm_compute; reflexivity. Qed.

Lemma set_stdout_twice (a b : list string) (w : world) :
  set_stdout b (set_stdout a w) = set_stdout b w.
Proof. reflexivity. Qed.

Lemma for_each_write_chunks {A : Type} (f : A -> string) (l : list A) (w : world) :
  for_each (fun x => write (f x)) l w
  = (Ok tt, set_stdout (stdout w ++ map f l)%list w).
Proof.
  revert w. induction l as [|x l IH]; intros w; simpl.
  - unfold ret. rewrite app_nil_r. now destruct w.
  - unfold bind, write. rewrite IH. simpl. rewrite set_stdout_twice.
    now rewrite <- app_assoc.
Qed.

(** X19.  When the walk ends without an error, [list] exits with 0 and
    standard output grows by the listing of the records the walker yielded,
    in the order it yielded them: one line of title and time for each
    record in the text format, a header row and one row for each record in
    the [csv] format, the dump and a newline in the [json] format.  Nothing
    is printed while the walk goes on. *)
Theorem list_prints_every_record (h : host) (fuel : nat) (args : NesdevPages.list_args)
    (w w1 : world) (out : list NesdevPages.page_record) :
  NesdevPages.iter_pages h fuel (NesdevPages.arg_prefix args) (NesdevPages.arg_limit args)
    (NesdevPages.clamp_batch_size (NesdevPages.arg_batch_size args))
    (NesdevPages.arg_refresh args) w = (out, NesdevPages.Exhausted, w1) ->
  stdout w1 = stdout w
  /\ NesdevPages.main h fuel args w
     = (Exit 0,
        set_stdout
          (stdout w ++
           (if String.eqb (NesdevPages.arg_output_format args) "json"
            then [dump_indent2 h (map NesdevPages.entry_json out); PyStr.nl]
            else if String.eqb (NesdevPages.arg_output_format args) "csv"
            then csv_row h [JStr "title"; JStr "touched"]
                 :: map (fun entry => csv_row h [NesdevPages.title entry;
                                                 NesdevPages.touched entry]) out
            else map (fun entry =>
                        (format_value h (NesdevPages.title entry) +:+ " | last touched "
                         +:+ format_value h (NesdevPages.touched entry)) +:+ PyStr.nl)
                     out))%list w1).
Proof.
  intros H.
  destruct (walk_frame h _ _ _ _ fuel 0 JNull w _ _ _ H) as (Hout & _).
  split; [exact Hout|].
  unfold NesdevPages.main, NesdevPages.command_list. simpl. rewrite H.
  unfold NesdevPages.output_list. rewrite <- Hout.
  destruct (String.eqb (NesdevPages.arg_output_format args) "json").
  - unfold bind, write. simpl. now rewrite <- app_assoc.
  - destruct (String.eqb (NesdevPages.arg_output_format args) "csv").
    + unfold bind at 1. unfold write at 1.
      rewrite for_each_write_chunks. simpl. now rewrite <- app_assoc.
    + unfold print.
      rewrite (for_each_write_chunks
                 (fun entry => (format_value h (NesdevPages.title entry)
                                +:+ " | last touched "
                                +:+ format_value h (NesdevPages.touched entry))
                               +:+ PyStr.nl)). reflexivity.
Qed.

Lemma list_prints_every_record_witness :
  exists out w1,
    let args := {| NesdevPages.arg_prefix := None; NesdevPages.arg_limit := 5;
                   NesdevPages.arg_batch_size := 10;
                   NesdevPages.arg_output_format := "text";
                   NesdevPages.arg_refresh := false |} in
    NesdevPages.iter_pages Sample2.short_host 3 None 5 (NesdevPages.clamp_batch_size 10)
      false Sample.empty_world
    = (out, NesdevPages.Exhausted, w1)
    /\ fst (NesdevPages.main Sample2.short_host 3 args Sample.empty_world) = Exit 0
    /\ stdout (snd (NesdevPages.main Sample2.short_host 3 args Sample.empty_world))
       = ["Page 3 | last touched unknown" +:+ PyStr.nl;
          "Page 2 | last touched unknown" +:+ PyStr.nl;
          "Page 1 | last touched unknown" +:+ PyStr.nl].
Proof.
  destruct (NesdevPages.iter_pages Sample2.short_host 3 None 5
              (NesdevPages.clamp_batch_size 10) false Sample.empty_world)
    as [[out e] w1] eqn:E.
  assert (Hr : e = NesdevPages.Exhausted).
  { change e with (snd (fst (out, e, w1))). rewrite <- E. vm_compute. reflexivity. }
  subst e. exists out, w1. intros args. split; [reflexivity|].
  destruct (list_prints_every_record Sample2.short_host 3 args Sample.empty_world w1 _ E)
    as [_ Hm].
  split; [rewrite Hm; reflexivity|]. vm_compute. reflexivity.
Defined.
